(** * Tenbagger: fundamentals reconciliation and scoring

    A shallow embedding of [src/lib/fetchers.ts] (provider adapters, XBRL
    fact extraction, quarter merging, provider fallback) and of the scoring
    engine [scoreCompany], together with the properties the specification
    states about them.

    Modelling conventions
    - A JavaScript [number] is [num]: [NaN] or a finite value, the finite
      doubles being idealised as exact rationals (no rounding, no overflow,
      no signed zero; the infinities, which [Number.isFinite] rejects like
      [NaN], only arise from overflow and are left out).
    - [undefined] / a missing optional field is [None].
    - A JavaScript [Map] is an insertion-ordered association list ([JsMap]).
    - [dayjs(s)] is a parameter [parse : string -> Dayjs]; an invalid date is
      [None].  [dayjs()], the present moment, is a parameter [today].  The
      process time zone is taken to be UTC.
    - The outside world of the adapters is an explicit state.
    - A thrown exception is the [Throw] alternative of [Result]. *)

From Stdlib Require Import ZArith QArith Qreduction Qcanon Qabs String Ascii List Bool Lia.
From Stdlib Require Import Permutation Sorted DecimalString DecimalZ.
Import ListNotations.

Local Open Scope string_scope.
Local Open Scope Z_scope.

(* ------------------------------------------------------------------ *)
(** ** JavaScript numbers *)

Module JsNum.

Inductive num : Type :=
| NaN
| Fin (q : Q).

Definition ofZ (z : Z) : num := Fin (inject_Z z).

(** [Number.isFinite] *)
Definition isFinite (x : num) : bool :=
  match x with Fin _ => true | NaN => false end.

(** [Number.isFinite] on a possibly-[undefined] value *)
Definition isFiniteO (x : option num) : bool :=
  match x with Some v => isFinite v | None => false end.

Definition add (a b : num) : num :=
  match a, b with Fin x, Fin y => Fin (Qred (x + y)) | _, _ => NaN end.

Definition sub (a b : num) : num :=
  match a, b with Fin x, Fin y => Fin (Qred (x - y)) | _, _ => NaN end.

Definition mul (a b : num) : num :=
  match a, b with Fin x, Fin y => Fin (Qred (x * y)) | _, _ => NaN end.

(** [a / b]; every division of the sources is guarded by [b !== 0] or
    [b > 0], a zero divisor is mapped to [NaN]. *)
Definition div (a b : num) : num :=
  match a, b with
  | Fin x, Fin y => if Qeq_bool y 0 then NaN else Fin (Qred (x / y))
  | _, _ => NaN
  end.

(** Comparisons: false as soon as one side is [NaN]. *)
Definition lt (a b : num) : bool :=
  match a, b with Fin x, Fin y => negb (Qle_bool y x) | _, _ => false end.
Definition le (a b : num) : bool :=
  match a, b with Fin x, Fin y => Qle_bool x y | _, _ => false end.
Definition gt (a b : num) : bool := lt b a.
Definition ge (a b : num) : bool := le b a.

(** [a === b] and [a !== b] on numbers *)
Definition eqb (a b : num) : bool :=
  match a, b with Fin x, Fin y => Qeq_bool x y | _, _ => false end.
Definition neqb (a b : num) : bool := negb (eqb a b).

(** [Math.max] and [Math.abs] *)
Definition max (a b : num) : num :=
  match a, b with Fin x, Fin y => Fin (if Qle_bool x y then y else x) | _, _ => NaN end.
Definition abs (a : num) : num :=
  match a with Fin x => Fin (Qabs.Qabs x) | NaN => NaN end.

End JsNum.
Import JsNum.

Declare Scope num_scope.
Delimit Scope num_scope with num.
Bind Scope num_scope with num.
Notation "a + b" := (JsNum.add a b) : num_scope.
Notation "a - b" := (JsNum.sub a b) : num_scope.
Notation "a * b" := (JsNum.mul a b) : num_scope.
Notation "a / b" := (JsNum.div a b) : num_scope.
Notation "a <? b" := (JsNum.lt a b) : num_scope.
Notation "a <=? b" := (JsNum.le a b) : num_scope.
Notation "a >? b" := (JsNum.gt a b) : num_scope.
Notation "a >=? b" := (JsNum.ge a b) : num_scope.

Arguments JsNum.lt : simpl never.
Arguments JsNum.le : simpl never.
Arguments JsNum.gt : simpl never.
Arguments JsNum.ge : simpl never.

(** Number literals of the sources *)
Definition n0 : num := ofZ 0.
Definition n1 : num := ofZ 1.

(** Template-literal rendering of an integer, [`${n}`]. *)
Definition showZ (z : Z) : string := NilZero.string_of_int (Z.to_int z).

(* ------------------------------------------------------------------ *)
(** ** JavaScript [Map] with string keys

    Iteration follows insertion order and [set] on a present key keeps its
    position, as in ECMAScript. *)

Module JsMap.
Section WithValue.
Context {V : Type}.

Definition t : Type := list (string * V).

Definition empty : t := [].

Fixpoint get (k : string) (m : t) : option V :=
  match m with
  | [] => None
  | (k', v) :: r => if String.eqb k k' then Some v else get k r
  end.

Definition has (k : string) (m : t) : bool :=
  match get k m with Some _ => true | None => false end.

Fixpoint set (k : string) (v : V) (m : t) : t :=
  match m with
  | [] => [(k, v)]
  | (k', v') :: r =>
      if String.eqb k k' then (k, v) :: r else (k', v') :: set k v r
  end.

Definition keys (m : t) : list string := map fst m.
Definition values (m : t) : list V := map snd m.
Definition size (m : t) : nat := List.length m.

End WithValue.
Arguments t : clear implicits.
End JsMap.

(* ------------------------------------------------------------------ *)
(** ** Data model ([types.ts]) *)

Record Quarter : Type := mkQuarter {
  period        : string;
  revenue       : num;
  grossProfit   : num;
  sga           : num;
  rnd           : num;
  ocf           : num;
  capex         : num;
  inventory     : num;
  receivables   : num;
  cash          : option num;
  totalDebt     : option num;
  dilutedShares : option num;
  ebitda        : option num;
  netIncome     : option num;
  fiscalYear    : option num;
  fiscalQuarter : option num
}.

Record Fundamentals : Type := mkFundamentals {
  ticker    : string;
  marketCap : num;
  quarters  : list Quarter
}.

(** [Partial<Quarter>]: every field may be absent. *)
Record QuarterPatch : Type := mkPatch {
  p_revenue       : option num;
  p_grossProfit   : option num;
  p_sga           : option num;
  p_rnd           : option num;
  p_ocf           : option num;
  p_capex         : option num;
  p_inventory     : option num;
  p_receivables   : option num;
  p_cash          : option num;
  p_totalDebt     : option num;
  p_dilutedShares : option num;
  p_ebitda        : option num;
  p_netIncome     : option num;
  p_fiscalYear    : option num;
  p_fiscalQuarter : option num
}.

(* ------------------------------------------------------------------ *)
(** ** Quarter merge layer ([ensureQuarter], [applyPatch]) *)

Module Merge.

(** The record [ensureQuarter] creates on first reference to a period. *)
Definition emptyQuarter (iso : string) : Quarter :=
  {| period := iso;
     revenue := NaN; grossProfit := NaN; sga := NaN; rnd := NaN;
     ocf := NaN; capex := NaN; inventory := NaN; receivables := NaN;
     cash := Some NaN; totalDebt := Some NaN; dilutedShares := None;
     ebitda := Some NaN; netIncome := Some NaN;
     fiscalYear := None; fiscalQuarter := None |}.

(** [ensureQuarter] returns the stored object, inserting a fresh one when the
    key is absent; the store after the call comes with it. *)
Definition ensureQuarter (byDate : JsMap.t Quarter) (iso : string)
  : Quarter * JsMap.t Quarter :=
  match JsMap.get iso byDate with
  | Some existing => (existing, byDate)
  | None => let base := emptyQuarter iso in (base, JsMap.set iso base byDate)
  end.

(** [if (patch.f !== undefined && Number.isFinite(patch.f)) quarter.f = patch.f]
    for a required numeric field ... *)
Definition assignFinite (old : num) (p : option num) : num :=
  match p with
  | Some v => if isFinite v then v else old
  | None => old
  end.

(** ... for an optional numeric field ... *)
Definition assignFiniteO (old : option num) (p : option num) : option num :=
  match p with
  | Some v => if isFinite v then Some v else old
  | None => old
  end.

(** ... and [if (patch.f !== undefined) quarter.f = patch.f]. *)
Definition assignDefined (old : option num) (p : option num) : option num :=
  match p with
  | Some v => Some v
  | None => old
  end.

(** The fifteen guarded assignments of [applyPatch]; they touch pairwise
    distinct fields, so their sequence is one record construction. *)
Definition patched (q : Quarter) (p : QuarterPatch) : Quarter :=
  {| period        := period q;
     revenue       := assignFinite (revenue q) (p_revenue p);
     grossProfit   := assignFinite (grossProfit q) (p_grossProfit p);
     sga           := assignFinite (sga q) (p_sga p);
     rnd           := assignFinite (rnd q) (p_rnd p);
     ocf           := assignFinite (ocf q) (p_ocf p);
     capex         := assignFinite (capex q) (p_capex p);
     inventory     := assignFinite (inventory q) (p_inventory p);
     receivables   := assignFinite (receivables q) (p_receivables p);
     cash          := assignFiniteO (cash q) (p_cash p);
     totalDebt     := assignFiniteO (totalDebt q) (p_totalDebt p);
     dilutedShares := assignFiniteO (dilutedShares q) (p_dilutedShares p);
     ebitda        := assignFiniteO (ebitda q) (p_ebitda p);
     netIncome     := assignFiniteO (netIncome q) (p_netIncome p);
     fiscalYear    := assignDefined (fiscalYear q) (p_fiscalYear p);
     fiscalQuarter := assignDefined (fiscalQuarter q) (p_fiscalQuarter p) |}.

(** [applyPatch(byDate, iso, patch)].  [iso] is [string | null]; [!iso] holds
    for [null] and for the empty string.  The stored object is mutated in
    place, which is a [set] at its own key. *)
Definition applyPatch (byDate : JsMap.t Quarter) (iso : option string)
    (patch : QuarterPatch) : JsMap.t Quarter :=
  match iso with
  | None => byDate
  | Some k =>
      if String.eqb k "" then byDate
      else
        let '(quarter, byDate') := ensureQuarter byDate k in
        JsMap.set k (patched quarter patch) byDate'
  end.

End Merge.

(* ------------------------------------------------------------------ *)
(** ** Results of code that may throw *)

Inductive Result (E A : Type) : Type :=
| Ok (a : A)
| Throw (e : E).
Arguments Ok {E A} a.
Arguments Throw {E A} e.

Definition bindR {E A B} (r : Result E A) (k : A -> Result E B) : Result E B :=
  match r with Ok a => k a | Throw e => Throw e end.

Notation "x <-- r ;; k" := (bindR r (fun x => k))
  (at level 61, r at next level, right associativity).

(* ------------------------------------------------------------------ *)
(** ** Small string helpers *)

Module Str.

Definition isDigit (c : ascii) : bool :=
  let n := nat_of_ascii c in (48 <=? n)%nat && (n <=? 57)%nat.

Definition isUpper (c : ascii) : bool :=
  let n := nat_of_ascii c in (65 <=? n)%nat && (n <=? 90)%nat.

Definition isLower (c : ascii) : bool :=
  let n := nat_of_ascii c in (97 <=? n)%nat && (n <=? 122)%nat.

Definition digitVal (c : ascii) : Z := Z.of_nat (nat_of_ascii c) - 48.

Definition lowerChar (c : ascii) : ascii :=
  if isUpper c then ascii_of_nat (nat_of_ascii c + 32)%nat else c.

Definition upperChar (c : ascii) : ascii :=
  if isLower c then ascii_of_nat (nat_of_ascii c - 32)%nat else c.

(** [String.prototype.toLowerCase] / [toUpperCase] on the ASCII letters;
    other bytes are kept. *)
Fixpoint toLowerCase (s : string) : string :=
  match s with
  | EmptyString => EmptyString
  | String c r => String (lowerChar c) (toLowerCase r)
  end.

Fixpoint toUpperCase (s : string) : string :=
  match s with
  | EmptyString => EmptyString
  | String c r => String (upperChar c) (toUpperCase r)
  end.

(** [s.startsWith(p)] *)
Definition startsWith (p s : string) : bool := String.prefix p s.

(** Value of a string of decimal digits, [None] when another character
    occurs. *)
Fixpoint digitsFrom (acc : Z) (s : string) : option Z :=
  match s with
  | EmptyString => Some acc
  | String c r => if isDigit c then digitsFrom (10 * acc + digitVal c) r else None
  end.

Definition digits (s : string) : option Z := digitsFrom 0 s.

(** [sep.join(l)] *)
Fixpoint join (sep : string) (l : list string) : string :=
  match l with
  | [] => ""
  | [x] => x
  | x :: r => x ++ sep ++ join sep r
  end.

(** [String(n).padStart(w, "0")] for a non-negative integer *)
Definition pad (w : nat) (z : Z) : string :=
  let s := NilZero.string_of_int (Z.to_int z) in
  let fix zeros (k : nat) : string :=
    match k with O => "" | S k' => String "0" (zeros k') end in
  zeros (w - String.length s)%nat ++ s.

(** [s.trim()]: leading and trailing blanks removed. *)
Definition isBlank (c : ascii) : bool :=
  let n := nat_of_ascii c in
  (n =? 32)%nat || ((9 <=? n)%nat && (n <=? 13)%nat).

Fixpoint trimStart (s : string) : string :=
  match s with
  | String c r => if isBlank c then trimStart r else s
  | EmptyString => EmptyString
  end.

Fixpoint trimEnd (s : string) : string :=
  match s with
  | EmptyString => EmptyString
  | String c r =>
      match trimEnd r with
      | EmptyString => if isBlank c then EmptyString else String c EmptyString
      | r' => String c r'
      end
  end.

Definition trim (s : string) : string := trimEnd (trimStart s).

End Str.

(** Template-literal rendering of a number.  An integer prints in decimal;
    a value that is not an integer prints as "p/q", which like its decimal
    rendering in JavaScript contains a character that none of the key
    patterns of the sources accepts. *)
Definition showNum (x : num) : string :=
  match x with
  | NaN => "NaN"
  | Fin q =>
      let r := Qred q in
      if Pos.eqb (Qden r) 1 then showZ (Qnum r)
      else showZ (Qnum r) ++ "/" ++ showZ (Zpos (Qden r))
  end.

(* ------------------------------------------------------------------ *)
(** ** The dayjs operations the sources use

    A valid dayjs value is a [Moment], the civil fields of its instant (the
    process zone being UTC); [Dayjs] adds the invalid date.  A JavaScript
    [Date] holds at most 8.64e15 ms on either side of the epoch: [mk] turns a
    moment outside that range into the invalid date, as the [Date] setters
    do. *)

Module Dayjs.

Record Moment : Type := mkMoment {
  year    : Z;   (* $y *)
  month   : Z;   (* $M, 0..11 *)
  date    : Z;   (* $D, 1..31 *)
  msOfDay : Z    (* milliseconds since midnight *)
}.

Definition Dayjs : Type := option Moment.

Definition isLeap (y : Z) : bool :=
  ((y mod 4 =? 0) && negb (y mod 100 =? 0)) || (y mod 400 =? 0).

Definition daysInMonth (y mo : Z) : Z :=
  if mo =? 1 then (if isLeap y then 29 else 28)
  else if (mo =? 3) || (mo =? 5) || (mo =? 8) || (mo =? 10) then 30
  else 31.

(** Days from 1970-01-01 to the civil date [y]-[mo+1]-[d]. *)
Definition daysFromCivil (y mo d : Z) : Z :=
  let m := mo + 1 in
  let y' := if m <=? 2 then y - 1 else y in
  let era := y' / 400 in
  let yoe := y' - era * 400 in
  let doy := (153 * (if 2 <? m then m - 3 else m + 9) + 2) / 5 + d - 1 in
  let doe := yoe * 365 + yoe / 4 - yoe / 100 + doy in
  era * 146097 + doe - 719468.

Definition msPerDay : Z := 86400000.
Definition maxTime : Z := 8640000000000000.

Definition timeOf (m : Moment) : Z :=
  daysFromCivil (year m) (month m) (date m) * msPerDay + msOfDay m.

Definition inRange (m : Moment) : bool :=
  (- maxTime <=? timeOf m) && (timeOf m <=? maxTime).

Definition mk (m : Moment) : Dayjs := if inRange m then Some m else None.

(** [d.isValid()] *)
Definition isValid (d : Dayjs) : bool :=
  match d with Some _ => true | None => false end.

(** [d.valueOf()]: [NaN] for the invalid date *)
Definition valueOf (d : Dayjs) : num :=
  match d with Some m => ofZ (timeOf m) | None => NaN end.

(** [d.year()] and [d.quarter()] (= [Math.ceil((month + 1) / 3)]) *)
Definition quarterOfMonth (mo : Z) : Z := mo / 3 + 1.

Definition yearOf (d : Dayjs) : num :=
  match d with Some m => ofZ (year m) | None => NaN end.

Definition quarterOf (d : Dayjs) : num :=
  match d with Some m => ofZ (quarterOfMonth (month m)) | None => NaN end.

(** [a.isAfter(b)]: [b.valueOf() < a.valueOf()] *)
Definition isAfter (a b : Dayjs) : bool := (valueOf b <? valueOf a)%num.

(** The [Date] constructor reads a year in 0..99 as 1900 + year; dayjs
    builds the end of a month, and with it [daysInMonth], by
    [new Date($y, $M + 1, 0)]. *)
Definition ctorYear (y : Z) : Z :=
  if (0 <=? y) && (y <=? 99) then 1900 + y else y.

(** [d.endOf("month")] (which ends with [endOf("day")]) *)
Definition endOfMonth (m : Moment) : Dayjs :=
  let y := ctorYear (year m) in
  mk {| year := y; month := month m;
        date := daysInMonth y (month m); msOfDay := msPerDay - 1 |}.

(** [d.month(arg)], that is [$set] of the month: on a clone moved to the
    first of its month the native [setMonth(arg)] runs (it carries whole
    years), then the day of the month is restored, clipped to
    [daysInMonth()] of the target month, which is the day of its
    [endOf("month")]. *)
Definition setMonth (m : Moment) (arg : Z) : Dayjs :=
  let y' := year m + arg / 12 in
  let mo' := arg mod 12 in
  match mk {| year := year m; month := month m; date := 1; msOfDay := msOfDay m |} with
  | None => None
  | Some _ =>
      match mk {| year := y'; month := mo'; date := 1; msOfDay := msOfDay m |} with
      | None => None
      | Some first =>
          match endOfMonth first with
          | None => None
          | Some last =>
              mk {| year := y'; month := mo';
                    date := Z.min (date m) (date last);
                    msOfDay := msOfDay m |}
          end
      end
  end.

(** [d.endOf("quarter")] of the quarterOfYear plugin:
    [this.month(quarter * 3 + 2).endOf("month").endOf("day")] *)
Definition endOfQuarter (d : Dayjs) : Dayjs :=
  match d with
  | None => None
  | Some m =>
      match setMonth m ((quarterOfMonth (month m) - 1) * 3 + 2) with
      | None => None
      | Some m' => endOfMonth m'
      end
  end.

(** [d.subtract(1, "quarter")] = [d.add(-3, "month")] = [d.month($M - 3)] *)
Definition subtractQuarter (d : Dayjs) : Dayjs :=
  match d with
  | None => None
  | Some m => setMonth m (month m - 3)
  end.

(** [Date.prototype.toISOString] of a valid date *)
Definition isoString (m : Moment) : string :=
  let y := year m in
  let ys := if (0 <=? y) && (y <=? 9999) then Str.pad 4 y
            else if y <? 0 then "-" ++ Str.pad 6 (- y)
            else "+" ++ Str.pad 6 y in
  let t := msOfDay m in
  ys ++ "-" ++ Str.pad 2 (month m + 1) ++ "-" ++ Str.pad 2 (date m) ++ "T"
     ++ Str.pad 2 (t / 3600000) ++ ":" ++ Str.pad 2 ((t / 60000) mod 60) ++ ":"
     ++ Str.pad 2 ((t / 1000) mod 60) ++ "." ++ Str.pad 3 (t mod 1000) ++ "Z".

(** The exception [toISOString] raises on the invalid date. *)
Inductive RangeError : Type := InvalidTimeValue.

(** [d.toISOString()] is [this.$d.toISOString()], which throws on the
    invalid date (the sources guard it with [isValid] in [toISODate]). *)
Definition toISOString (d : Dayjs) : Result RangeError string :=
  match d with
  | Some m => Ok (isoString m)
  | None => Throw InvalidTimeValue
  end.

(** [a.diff(b, "day")]: the difference in whole days, truncated towards
    zero; [NaN] when a side is invalid. *)
Definition diffDays (a b : Dayjs) : num :=
  match a, b with
  | Some x, Some y => ofZ (Z.quot (timeOf x - timeOf y) msPerDay)
  | _, _ => NaN
  end.

(** A reader of the two ISO spellings the adapters produce, "YYYY-MM-DD" and
    "YYYY-MM-DDTHH:mm:ss.sssZ"; every other string is the invalid date.  It
    serves as the instance of [dayjs(s)] in the worked examples; the theorems
    hold for any parser. *)
Definition field (s : string) (from len : nat) : option Z :=
  let t := String.substring from len s in
  if Nat.eqb (String.length t) len then Str.digits t else None.

Definition isoParse (s : string) : Dayjs :=
  let n := String.length s in
  let sep (i : nat) (c : string) := String.eqb (String.substring i 1 s) c in
  match field s 0%nat 4%nat, field s 5%nat 2%nat, field s 8%nat 2%nat with
  | Some y, Some mo, Some d =>
      if sep 4%nat "-" && sep 7%nat "-" && (1 <=? mo) && (mo <=? 12)
         && (1 <=? d) && (d <=? daysInMonth y (mo - 1)) then
        if Nat.eqb n 10 then
          mk {| year := y; month := mo - 1; date := d; msOfDay := 0 |}
        else if Nat.eqb n 24 then
          match field s 11%nat 2%nat, field s 14%nat 2%nat, field s 17%nat 2%nat, field s 20%nat 3%nat with
          | Some h, Some mi, Some sec, Some ms =>
              if sep 10%nat "T" && sep 13%nat ":" && sep 16%nat ":" && sep 19%nat "." && sep 23%nat "Z"
                 && (h <? 24) && (mi <? 60) && (sec <? 60) then
                mk {| year := y; month := mo - 1; date := d;
                      msOfDay := ((h * 60 + mi) * 60 + sec) * 1000 + ms |}
              else None
          | _, _, _, _ => None
          end
        else None
      else None
  | _, _, _ => None
  end.

(** A moment with fields in their ranges and a year within [B] of zero. *)
Definition bounded (B : Z) (m : Moment) : Prop :=
  - B <= year m <= B /\ 0 <= month m <= 11 /\ 1 <= date m <= 31 /\
  0 <= msOfDay m < msPerDay.

(** A moment of an ordinary calendar year: fields in range, year from 100
    (below, the [Date] constructor adds 1900) to 200000. *)
Definition civil (m : Moment) : Prop := bounded 200000 m /\ 100 <= year m.

End Dayjs.
Import Dayjs.

(* ------------------------------------------------------------------ *)
(** ** JavaScript arrays *)

Module JsArray.

(** [arr.slice(from, to)] *)
Definition slice {A} (from to : nat) (arr : list A) : list A :=
  firstn (to - from) (skipn from arr).

(** [Array.prototype.sort] with a comparator: a stable insertion sort; a
    comparator result that is not positive (or is [NaN], read as [+0])
    leaves the pair in place. *)
Section Sort.
Context {A : Type} (cmp : A -> A -> num).

Fixpoint insert (x : A) (l : list A) : list A :=
  match l with
  | [] => [x]
  | y :: r => if (cmp x y >? n0)%num then y :: insert x r else x :: l
  end.

Definition sort (l : list A) : list A := fold_right insert [] l.
End Sort.

End JsArray.
Import JsArray.

(* ------------------------------------------------------------------ *)
(** ** XBRL fact extraction ([collectFactSeries] and its helpers) *)

Module Xbrl.

Record QuarterDatum : Type := mkDatum {
  value   : num;
  d_end   : option string;   (* end *)
  d_filed : option string;   (* filed *)
  d_start : option string    (* start: string, null or absent *)
}.

(** One reported fact of the companyfacts document, typed as the document
    types it: [val] and [fy] numbers, the other members strings; an absent
    member is [None]. *)
Record Entry : Type := mkFact {
  form  : option string;
  val   : option num;
  end_  : option string;
  start : option string;
  fy    : option num;
  fp    : option string;
  frame : option string;
  filed : option string
}.

(** [conceptData.units]: unit name to reported facts, in document order. *)
Record ConceptData : Type := mkConceptData {
  cd_units : option (JsMap.t (list Entry))
}.

(** The facts document: taxonomy, then concept. *)
Definition Facts : Type := JsMap.t (JsMap.t ConceptData).

Record ConceptConfig : Type := mkConfig {
  taxonomy : string;
  concepts : list string;
  units    : option (list string)
}.

Inductive Mode : Type := instant | duration.

Definition allowedForms : list string := ["10-Q"; "10-Q/A"; "10-K"; "10-K/A"].

Definition isAllowedForm (f : string) : bool :=
  existsb (String.eqb f) allowedForms.

(** [safeNum] on a member that is a number or absent *)
Definition safeNum (v : option num) : option num :=
  match v with
  | Some x => if isFinite x then Some x else None
  | None => None
  end.

Definition normalizeValue (v : num) (unit : string) : num :=
  let u := Str.toLowerCase unit in
  if String.eqb u "usdm" || String.eqb u "usdmm" || String.eqb u "usd (in millions)"
  then (v * ofZ 1000000)%num
  else if String.eqb u "usdbn" then (v * ofZ 1000000000)%num
  else if String.eqb u "usdth" || String.eqb u "usd thousands"
          || String.eqb u "usd (in thousands)"
  then (v * ofZ 1000)%num
  else if String.eqb u "sharesm" || String.eqb u "shares (in millions)"
  then (v * ofZ 1000000)%num
  else v.

(** [key.match(/^(\d{4})Q([1-4])$/)], the two groups read as numbers;
    [{ year: 0, quarter: 0 }] when the key does not match. *)
Definition parseQuarterKey (key : string) : Z * Z :=
  match key with
  | String a (String b (String c (String d (String "Q" (String e EmptyString))))) =>
      if Str.isDigit a && Str.isDigit b && Str.isDigit c && Str.isDigit d
         && (1 <=? Str.digitVal e) && (Str.digitVal e <=? 4)
      then (((Str.digitVal a * 10 + Str.digitVal b) * 10 + Str.digitVal c) * 10
              + Str.digitVal d,
            Str.digitVal e)
      else (0, 0)
  | _ => (0, 0)
  end.

Definition quarterSortDesc (a b : string) : num :=
  let av := parseQuarterKey a in
  let bv := parseQuarterKey b in
  if fst av =? fst bv then ofZ (snd bv - snd av) else ofZ (fst bv - fst av).

Definition quarterSortAsc (a b : string) : num :=
  let av := parseQuarterKey a in
  let bv := parseQuarterKey b in
  if fst av =? fst bv then ofZ (snd av - snd bv) else ofZ (fst av - fst bv).

(** [frame.match(/^[A-Z]{2}(\d{4})Q([1-4])I$/i)] *)
Definition isLetter (c : ascii) : bool := Str.isUpper c || Str.isLower c.

Definition matchQuarterFrame (fr : string) : option (Z * Z) :=
  match fr with
  | String l1 (String l2 (String a (String b (String c (String d
      (String q (String e (String i EmptyString)))))))) =>
      if isLetter l1 && isLetter l2
         && Str.isDigit a && Str.isDigit b && Str.isDigit c && Str.isDigit d
         && Ascii.eqb (Str.upperChar q) "Q"
         && (1 <=? Str.digitVal e) && (Str.digitVal e <=? 4)
         && Ascii.eqb (Str.upperChar i) "I"
      then Some (((Str.digitVal a * 10 + Str.digitVal b) * 10 + Str.digitVal c) * 10
                   + Str.digitVal d,
                 Str.digitVal e)
      else None
  | _ => None
  end.

(** [`${year}Q${quarter}`] *)
Definition quarterKey (yr qt : num) : string := showNum yr ++ "Q" ++ showNum qt.

Section Extraction.
(** [dayjs(s)]; [new Date(s).getTime()]; [Number(s)] on a string. *)
Variable parse : string -> Dayjs.
Variable getTime : string -> num.
Variable Number_ : string -> num.

(** [toISODate] on a member that is a string or absent *)
Definition toISODate (v : option string) : option string :=
  match v with
  | None => None
  | Some s =>
      if String.eqb s "" then None
      else match parse s with
           | Some m => Some (isoString m)
           | None => None
           end
  end.

(** [d.filed ? new Date(d.filed).getTime() : 0] *)
Definition filedTime (f : option string) : num :=
  match f with
  | None => n0
  | Some s => if String.eqb s "" then n0 else getTime s
  end.

Definition updateQuarterDatum (map : JsMap.t QuarterDatum) (key : string)
    (datum : QuarterDatum) : JsMap.t QuarterDatum :=
  match JsMap.get key map with
  | None => JsMap.set key datum map
  | Some existing =>
      let existingFiled := filedTime (d_filed existing) in
      let newFiled := filedTime (d_filed datum) in
      if (newFiled >=? existingFiled)%num then JsMap.set key datum map else map
  end.

(** The two accumulators of the scan. *)
Record Series : Type := mkSeries {
  quarterValues : JsMap.t QuarterDatum;
  ytdValues     : JsMap.t QuarterDatum
}.

(** The fiscal quarter of a fact before the range check. *)
Definition taggedQuarter (entry : Entry) (formName : string) (endDay : Moment) : num :=
  match fp entry with
  | Some tag =>
      if Str.startsWith "Q" tag
      then Number_ (String.substring 1 (String.length tag - 1) tag)
      else if String.eqb tag "FY" || Str.startsWith "10-K" formName then ofZ 4
      else quarterOf (Some endDay)
  | None =>
      if Str.startsWith "10-K" formName then ofZ 4 else quarterOf (Some endDay)
  end.

(** Year and quarter of a fact, after [if (quarter < 1 || quarter > 4)]. *)
Definition fiscalKey (entry : Entry) (formName : string) (endDay : Moment) : num * num :=
  let yr := match fy entry with Some y => y | None => yearOf (Some endDay) end in
  let qt := taggedQuarter entry formName endDay in
  if (qt <? ofZ 1)%num || (qt >? ofZ 4)%num then
    match frame entry with
    | Some fr =>
        match matchQuarterFrame fr with
        | Some (y, q) => (ofZ y, ofZ q)
        | None => (yr, quarterOf (Some endDay))
        end
    | None => (yr, quarterOf (Some endDay))
    end
  else (yr, qt).

(** [startDay ? Math.abs(endDay.diff(startDay, "day")) : null] *)
Definition durationDaysOf (endDay : Moment) (startIso : option string) : option num :=
  match startIso with
  | Some s => Some (JsNum.abs (diffDays (Some endDay) (parse s)))
  | None => None
  end.

(** The body of [for (const entry of entries)]. *)
Definition scanEntry (mode : Mode) (unit : string) (st : Series) (entry : Entry)
  : Series :=
  match form entry with
  | None => st
  | Some formName =>
      if negb (isAllowedForm formName) then st else
      match safeNum (val entry) with
      | None => st
      | Some valueRaw =>
          let normalizedValue := normalizeValue valueRaw unit in
          match toISODate (end_ entry) with
          | None => st
          | Some endIso =>
              match parse endIso with
              | None => st
              | Some endDay =>
                  let startIso := toISODate (start entry) in
                  let durationDays := durationDaysOf endDay startIso in
                  let '(yr, qt) := fiscalKey entry formName endDay in
                  let key := quarterKey yr qt in
                  let filedOn :=
                    match filed entry with
                    | Some f => f
                    | None => isoString endDay
                    end in
                  let datum :=
                    {| value := normalizedValue;
                       d_end := Some (isoString endDay);
                       d_filed := Some filedOn;
                       d_start := startIso |} in
                  match mode with
                  | instant =>
                      {| quarterValues := updateQuarterDatum (quarterValues st) key datum;
                         ytdValues := ytdValues st |}
                  | duration =>
                      match durationDays with
                      | Some days =>
                          if (days <=? ofZ 120)%num then
                            {| quarterValues :=
                                 updateQuarterDatum (quarterValues st) key datum;
                               ytdValues := ytdValues st |}
                          else
                            {| quarterValues := quarterValues st;
                               ytdValues := updateQuarterDatum (ytdValues st) key datum |}
                      | None =>
                          {| quarterValues := quarterValues st;
                             ytdValues := updateQuarterDatum (ytdValues st) key datum |}
                      end
                  end
              end
          end
      end
  end.

(** [cfg.units ? cfg.units.filter(u => units[u]).map(u => [u, units[u]])
               : Object.entries(units)] *)
Definition unitEntriesOf (cfg : ConceptConfig) (us : JsMap.t (list Entry))
  : list (string * list Entry) :=
  match units cfg with
  | Some names =>
      flat_map (fun u => match JsMap.get u us with
                         | Some entries => [(u, entries)]
                         | None => []
                         end) names
  | None => us
  end.

Definition scanConcept (mode : Mode) (cfg : ConceptConfig)
    (taxonomyFacts : JsMap.t ConceptData) (st : Series) (concept : string) : Series :=
  match JsMap.get concept taxonomyFacts with
  | None => st
  | Some conceptData =>
      match cd_units conceptData with
      | None => st
      | Some us =>
          fold_left
            (fun st ue => fold_left (scanEntry mode (fst ue)) (snd ue) st)
            (unitEntriesOf cfg us) st
      end
  end.

Definition scanConfig (mode : Mode) (facts : Facts) (st : Series)
    (cfg : ConceptConfig) : Series :=
  match JsMap.get (taxonomy cfg) facts with
  | None => st
  | Some taxonomyFacts =>
      fold_left (scanConcept mode cfg taxonomyFacts) (concepts cfg) st
  end.

Definition scan (mode : Mode) (facts : Facts) (configs : list ConceptConfig) : Series :=
  fold_left (scanConfig mode facts) configs
    {| quarterValues := JsMap.empty; ytdValues := JsMap.empty |}.

(** The body of [for (const key of ytdKeys)]. *)
Definition resolveKey (ytd : JsMap.t QuarterDatum)
    (result : JsMap.t QuarterDatum) (key : string) : JsMap.t QuarterDatum :=
  if JsMap.has key result then result
  else
    match JsMap.get key ytd with
    | None => result
    | Some current =>
        let '(yr, qt) := parseQuarterKey key in
        let quarterValue :=
          if 1 <? qt then
            let prevKey := showZ yr ++ "Q" ++ showZ (qt - 1) in
            let prevYtd :=
              match JsMap.get prevKey ytd with
              | Some d => Some d
              | None => JsMap.get prevKey result
              end in
            match prevYtd with
            | Some prev => (value current - value prev)%num
            | None => value current
            end
          else value current in
        JsMap.set key
          {| value := quarterValue; d_end := d_end current;
             d_filed := d_filed current; d_start := None |}
          result
    end.

(** The year-to-date step that follows the scan in duration mode. *)
Definition resolveYtd (st : Series) : JsMap.t QuarterDatum :=
  let result := quarterValues st in
  let ytdKeys := sort quarterSortAsc (JsMap.keys (ytdValues st)) in
  fold_left (resolveKey (ytdValues st)) ytdKeys result.

Definition collectFactSeries (facts : Facts) (configs : list ConceptConfig)
    (mode : Mode) : JsMap.t QuarterDatum :=
  let st := scan mode facts configs in
  match mode with
  | instant => quarterValues st
  | duration => resolveYtd st
  end.

(** The entry the year-to-date step stores for a key that has only a
    year-to-date datum [current]: the cumulative value less the value found
    for the preceding quarter, looked up among the year-to-date data first
    and among the quarterly data otherwise. *)
Definition priorKey (key : string) : string :=
  let '(yr, qt) := parseQuarterKey key in showZ yr ++ "Q" ++ showZ (qt - 1).

Definition priorDatum (st : Series) (key : string) : option QuarterDatum :=
  match JsMap.get (priorKey key) (ytdValues st) with
  | Some d => Some d
  | None => JsMap.get (priorKey key) (quarterValues st)
  end.

Definition derived (st : Series) (key : string) (current : QuarterDatum)
  : QuarterDatum :=
  {| value :=
       if 1 <? snd (parseQuarterKey key) then
         match priorDatum st key with
         | Some prev => (value current - value prev)%num
         | None => value current
         end
       else value current;
     d_end := d_end current;
     d_filed := d_filed current;
     d_start := None |}.

Definition resolvedAt (st : Series) (key : string) : option QuarterDatum :=
  match JsMap.get key (quarterValues st) with
  | Some d => Some d
  | None =>
      match JsMap.get key (ytdValues st) with
      | Some current => Some (derived st key current)
      | None => None
      end
  end.
(** What holds of the [result] map all along the loop of the year-to-date
    step: a key already in it has its final entry, a key not yet in it has
    no quarterly entry. *)
Definition settled (st : Series) (result : JsMap.t QuarterDatum) : Prop :=
  forall k,
    JsMap.get k result = resolvedAt st k \/
    (JsMap.get k result = None /\ JsMap.get k (quarterValues st) = None).
End Extraction.

(** [Number(s)] on the strings of decimal digits (and on the empty string);
    the instance used in the worked examples. *)
Definition numberOfDigits (s : string) : num :=
  match Str.digits s with Some z => ofZ z | None => NaN end.

(** [new Date(s).getTime()] read with the ISO reader of the examples. *)
Definition isoTime (s : string) : num := valueOf (isoParse s).

End Xbrl.

(* ------------------------------------------------------------------ *)
(** ** Provider errors and the HTTP response handling *)

Module Http.

(** An [Error] with the members [createProviderError] sets; a plain [Error]
    has none of [provider], [recoverable], [reason]. *)
Record ProviderError : Type := mkError {
  name        : string;
  message     : string;
  provider    : option string;
  recoverable : option bool;
  reason      : option string
}.

Definition createProviderError (prov msg : string) (recov : bool)
    (why : option string) : ProviderError :=
  {| name := prov ++ "ProviderError";
     message := "[" ++ prov ++ "] " ++ msg;
     provider := Some prov;
     recoverable := Some recov;
     reason := why |}.

(** [response.text()] together with what [JSON.parse] makes of it: the empty
    text (left unparsed, the payload stays [null]), a text that parses, or a
    text on which [JSON.parse] throws. *)
Inductive Body (Json : Type) : Type :=
| EmptyBody
| JsonBody (payload : Json)
| MalformedBody (text : string).
Arguments EmptyBody {Json}.
Arguments JsonBody {Json} payload.
Arguments MalformedBody {Json} text.

Record Response (Json : Type) : Type := mkResponse {
  status     : Z;
  statusText : string;
  body       : Body Json
}.
Arguments status {Json} r.
Arguments statusText {Json} r.
Arguments body {Json} r.

(** What [await fetch(...)] does: it rejects or it yields a response. *)
Inductive FetchOutcome (Json : Type) : Type :=
| Rejected (errMessage : string)
| Responded (r : Response Json).
Arguments Rejected {Json} errMessage.
Arguments Responded {Json} r.

Section Handling.
Context {Json : Type}.

(** [`HTTP ${status} ${response.statusText || ""}`.trim()] *)
Definition httpMessage (r : Response Json) : string :=
  Str.trim ("HTTP " ++ showZ (status r) ++ " " ++ statusText r).

(** [fetchJson(url, provider)], the handling shared by the FMP and Finnhub
    adapters; the payload is [None] for [null]. *)
Definition fetchJson (prov : string) (o : FetchOutcome Json)
  : Result ProviderError (option Json) :=
  match o with
  | Rejected errMessage =>
      Throw (createProviderError prov ("網路錯誤：" ++ errMessage) true (Some "network"))
  | Responded r =>
      payload <--
        (match body r with
         | EmptyBody => Ok None
         | JsonBody j => Ok (Some j)
         | MalformedBody _ =>
             Throw (createProviderError prov "無法解析回應 JSON。" true (Some "parse"))
         end) ;;
      if status r =? 429 then
        Throw (createProviderError prov "API 配額已用盡（HTTP 429）。" true (Some "quota"))
      else if (status r =? 401) || (status r =? 403) then
        Throw (createProviderError prov
                 ("授權受限（HTTP " ++ showZ (status r) ++ "）。") true
                 (Some "unauthorized"))
      else if 400 <=? status r then
        Throw (createProviderError prov (httpMessage r) true
                 (Some ("http-" ++ showZ (status r))))
      else Ok payload
  end.

(** [fetchJsonWithHeaders(url, headers)], the handling of the SEC adapter. *)
Definition fetchJsonWithHeaders (o : FetchOutcome Json)
  : Result ProviderError (option Json) :=
  match o with
  | Rejected errMessage =>
      Throw (createProviderError "SEC" ("網路錯誤：" ++ errMessage) true (Some "network"))
  | Responded r =>
      payload <--
        (match body r with
         | EmptyBody => Ok None
         | JsonBody j => Ok (Some j)
         | MalformedBody _ =>
             Throw (createProviderError "SEC" "無法解析回應 JSON。" true (Some "parse"))
         end) ;;
      if status r =? 429 then
        Throw (createProviderError "SEC" "SEC API 配額限制 (HTTP 429)。" true (Some "quota"))
      else if 400 <=? status r then
        Throw (createProviderError "SEC" (httpMessage r) true
                 (Some ("http-" ++ showZ (status r))))
      else Ok payload
  end.
End Handling.

(** The three adapters and the handling each applies to its responses. *)
Inductive Adapter : Type := SEC | FMP | Finnhub.

Definition adapterName (a : Adapter) : string :=
  match a with SEC => "SEC" | FMP => "FMP" | Finnhub => "Finnhub" end.

Definition handleResponse {Json : Type} (a : Adapter) (o : FetchOutcome Json)
  : Result ProviderError (option Json) :=
  match a with
  | SEC => fetchJsonWithHeaders o
  | FMP => fetchJson "FMP" o
  | Finnhub => fetchJson "Finnhub" o
  end.

(** A body that is empty or parses. *)
Definition readable {Json : Type} (b : Body Json) : Prop :=
  match b with MalformedBody _ => False | _ => True end.

(** The payload handed back for a readable body. *)
Definition payloadOf {Json : Type} (b : Body Json) : option Json :=
  match b with JsonBody j => Some j | _ => None end.

End Http.

(* ------------------------------------------------------------------ *)
(** ** Fallback orchestrator ([fetchFundamentals])

    The adapters reach the outside world; each is a function of the symbol
    and of the state of that world, and returns the state it leaves.  The
    lines written by [console.warn] are collected next to it. *)

Module Fallback.
Import Http.

(** The line [console.warn] writes for an error. *)
Definition warned (e : ProviderError) : string := "[fetchFundamentals] " ++ message e.


Section Orchestrator.
Variable World : Type.

Definition Handler : Type :=
  string -> World -> Result ProviderError Fundamentals * World.

Variables fetchFromSec fetchFromFmp fetchFromFinnhub : Handler.

Record Provider : Type := mkProvider {
  pname   : string;   (* name *)
  handler : Handler
}.

Definition providers : list Provider :=
  [ {| pname := "SEC"; handler := fetchFromSec |};
    {| pname := "FMP"; handler := fetchFromFmp |};
    {| pname := "Finnhub"; handler := fetchFromFinnhub |} ].

(** State of the run: the world, the [errors] array, the console. *)
Record Run : Type := mkRun {
  world   : World;
  errors  : list string;
  console : list string
}.

Definition exhausted (errs : list string) : ProviderError :=
  let aggregate :=
    match errs with
    | [] => "所有外部財報來源皆失敗。"
    | _ => "所有外部財報來源皆失敗：" ++ Str.join "｜" errs
    end in
  createProviderError "DATA" aggregate false (Some "exhausted").

(** [for (const provider of providers) { try { return await ... } catch ... }]
    followed by the aggregate throw. *)
Fixpoint tryProviders (ps : list Provider) (symbol : string) (st : Run)
  : Result ProviderError Fundamentals * Run :=
  match ps with
  | [] => (Throw (exhausted (errors st)), st)
  | p :: rest =>
      match handler p symbol (world st) with
      | (Ok f, w) =>
          (Ok f, {| world := w; errors := errors st; console := console st |})
      | (Throw err, w) =>
          let msg := message err in
          let st' := {| world := w;
                        errors := errors st ++ [msg];
                        console := console st ++ [warned err] |} in
          match recoverable err with
          | Some true => tryProviders rest symbol st'
          | _ => (Throw err, st')
          end
      end
  end.

Definition fetchFundamentals (ticker_ : string) (w : World)
  : Result ProviderError Fundamentals * Run :=
  let symbol := Str.toUpperCase ticker_ in
  tryProviders providers symbol {| world := w; errors := []; console := [] |}.
End Orchestrator.

End Fallback.

(* ------------------------------------------------------------------ *)
(** ** Scoring engine ([scoring.ts]) *)

Module Scoring.

(** Decimal literals of the source *)
Definition lit (n : Z) (d : positive) : num := Fin (n # d).

(** [arr.reduce((a,b) => a + (Number.isFinite(b) ? b : 0), 0)] *)
Definition sum (arr : list num) : num :=
  fold_left (fun a b => (a + (if isFinite b then b else n0))%num) arr n0.

Definition lengthOf {A} (arr : list A) : num := ofZ (Z.of_nat (List.length arr)).

Definition avg (arr : list num) : num :=
  match arr with [] => n0 | _ => (sum arr / lengthOf arr)%num end.

Definition avgValid (arr : list num) : num :=
  let valid := filter isFinite arr in
  match valid with [] => NaN | _ => (sum valid / lengthOf valid)%num end.

Definition hasFinite (arr : list num) (expectedLength : nat) : bool :=
  Nat.eqb (List.length arr) expectedLength && forallb isFinite arr.

Definition safeDiv (a b : num) : num :=
  if JsNum.eqb b n0 then n0 else (a / b)%num.

(** [arr[i]] on numbers; an index out of range gives [undefined], which
    [Number.isFinite] and the comparisons treat as [NaN]. *)
Definition at_ (arr : list num) (i : nat) : num := nth i arr NaN.

(** [Number.isFinite(v) ? Number(v) : NaN] on an optional field *)
Definition numberOr (v : option num) : num :=
  match v with Some x => if isFinite x then x else NaN | None => NaN end.

(** [normalizeShares]: the loop state is [factor] and [prevRaw]. *)
Fixpoint normalizeSharesFrom (factor : num) (prevRaw : option num)
    (series : list num) : list num :=
  match series with
  | [] => []
  | raw :: rest =>
      if negb (isFinite raw) || (raw <=? n0)%num then
        NaN :: normalizeSharesFrom factor None rest
      else
        let factor' :=
          match prevRaw with
          | Some prev =>
              if isFinite prev && (prev >? n0)%num then
                let ratio := (prev / raw)%num in
                if (ratio >? lit 9 2)%num && (ratio <? lit 23 2)%num then
                  (factor * ratio)%num
                else if (ratio <? lit 11 50)%num && (ratio >? lit 2 25)%num then
                  (factor * ratio)%num
                else factor
              else factor
          | None => factor
          end in
        (raw * factor')%num :: normalizeSharesFrom factor' (Some raw) rest
  end.

Definition normalizeShares (series : list num) : list num :=
  normalizeSharesFrom n1 None series.


(** [`${d.year()}Q${d.quarter()}`] *)
Definition labelOf (d : Dayjs) : string :=
  showNum (yearOf d) ++ "Q" ++ showNum (quarterOf d).

Record TimelineEntry : Type := mkEntry {
  label   : string;
  quarter : Quarter;
  hasData : bool
}.

(** [{ ...existing, fiscalYear: existing.fiscalYear ?? cursor.year(),
       fiscalQuarter: existing.fiscalQuarter ?? cursor.quarter() }] *)
Definition withFiscal (existing : Quarter) (cursor : Dayjs) : Quarter :=
  {| period := period existing;
     revenue := revenue existing; grossProfit := grossProfit existing;
     sga := sga existing; rnd := rnd existing; ocf := ocf existing;
     capex := capex existing; inventory := inventory existing;
     receivables := receivables existing; cash := cash existing;
     totalDebt := totalDebt existing; dilutedShares := dilutedShares existing;
     ebitda := ebitda existing; netIncome := netIncome existing;
     fiscalYear :=
       match fiscalYear existing with Some y => Some y | None => Some (yearOf cursor) end;
     fiscalQuarter :=
       match fiscalQuarter existing with Some q => Some q | None => Some (quarterOf cursor) end |}.

(** The quarter synthesised for a label without data. *)
Definition placeholder (iso : string) (cursor : Dayjs) : Quarter :=
  {| period := iso;
     revenue := NaN; grossProfit := NaN; sga := NaN; rnd := NaN;
     ocf := NaN; capex := NaN; inventory := NaN; receivables := NaN;
     cash := None; totalDebt := None; dilutedShares := None;
     ebitda := None; netIncome := None;
     fiscalYear := Some (yearOf cursor);
     fiscalQuarter := Some (quarterOf cursor) |}.

Definition MAX_TIMELINE : nat := 16.

Section Timeline.
(** [dayjs(s)] on a string, and [dayjs()], the present moment. *)
Variable parse : string -> Dayjs.
Variable today : Moment.

Definition toCalendarQuarterLabel (period : string) : string :=
  match parse period with
  | None => period
  | Some m => labelOf (Some m)
  end.

(** [(a, b) => dayjs(b.period).valueOf() - dayjs(a.period).valueOf()] *)
Definition byPeriodDesc (a b : Quarter) : num :=
  (valueOf (parse (period b)) - valueOf (parse (period a)))%num.

Definition sorted (f : Fundamentals) : list Quarter :=
  sort byPeriodDesc (quarters f).

Definition usable (f : Fundamentals) : list Quarter :=
  filter (fun qr => negb (isAfter (parse (period qr)) (Some today))) (sorted f).

Definition base (f : Fundamentals) : list Quarter :=
  if (4 <=? List.length (usable f))%nat then usable f else sorted f.

(** [base[0] ?? sorted[0]] *)
Definition latestKnown (f : Fundamentals) : option Quarter :=
  match base f with
  | q :: _ => Some q
  | [] => hd_error (sorted f)
  end.

(** [dayjs(latestKnown?.period ?? today).endOf("quarter")] *)
Definition anchorMoment (f : Fundamentals) : Dayjs :=
  endOfQuarter
    (match latestKnown f with
     | Some q => parse (period q)
     | None => Some today
     end).

(** The first record of each calendar label wins. *)
Definition buildLabelMap (records : list Quarter) : JsMap.t Quarter :=
  fold_left
    (fun labelMap record =>
       let calLabel := toCalendarQuarterLabel (period record) in
       if JsMap.has calLabel labelMap then labelMap
       else JsMap.set calLabel record labelMap)
    records JsMap.empty.

(** The body of the [for (let i = 0; i < MAX_TIMELINE; i += 1)] loop. *)
Definition timelineStep (labelMap : JsMap.t Quarter) (cursor : Dayjs)
  : Result RangeError TimelineEntry :=
  let label := labelOf cursor in
  match JsMap.get label labelMap with
  | Some existing =>
      Ok {| label := label; quarter := withFiscal existing cursor; hasData := true |}
  | None =>
      iso <-- toISOString cursor ;;
      Ok {| label := label; quarter := placeholder iso cursor; hasData := false |}
  end.

Fixpoint timelineLoop (n : nat) (labelMap : JsMap.t Quarter) (cursor : Dayjs)
  : Result RangeError (list TimelineEntry) :=
  match n with
  | O => Ok []
  | S n' =>
      entry <-- timelineStep labelMap cursor ;;
      rest <-- timelineLoop n' labelMap (subtractQuarter cursor) ;;
      Ok (entry :: rest)
  end.

Definition timeline (f : Fundamentals) : Result RangeError (list TimelineEntry) :=
  timelineLoop MAX_TIMELINE (buildLabelMap (base f)) (anchorMoment f).
End Timeline.

(** Tri-state rule verdict: [true], [false] or [null]. *)
Definition Verdict : Type := option bool.

Record RuleResult : Type := mkRule {
  pass  : Verdict;
  nums  : list (string * num);      (* the numeric properties of the rule *)
  flags : list (string * Verdict)   (* its boolean / tri-state properties *)
}.

Inductive RedFlag : Type :=
| OcfNegativeAndWeakening      (* OCF TTM negative and still declining *)
| ArInventoryOutpacesRevenue   (* receivables + inventory grow faster than revenue *)
| GrossMarginDrop              (* same-quarter gross margin down 5 points or more *)
| ShareDilution.               (* diluted shares up more than 10% in a year *)

Inductive Rating : Type :=
| Excellent | Good | Average | DoesNotMeetProfile.

Record ValuationCheck : Type := mkCheck {
  key       : string;
  value     : num;
  limit     : num;
  checkPass : Verdict
}.

(** [v !== null] and [v === true] on a verdict *)
Definition isNotNull (v : Verdict) : bool :=
  match v with Some _ => true | None => false end.
Definition isTrue (v : Verdict) : bool :=
  match v with Some true => true | _ => false end.

(** The derived metrics and the ten rules, as functions of the market
    capitalisation and of the timeline. *)
Section Metrics.
Variable marketCap_ : num.
Variable timeline_ : list TimelineEntry.

Definition timelineQuarters : list Quarter := map quarter timeline_.
Definition latest4 : list Quarter := slice 0 4 timelineQuarters.
Definition earlier4 : list Quarter := slice 4 8 timelineQuarters.
Definition latest2 : list Quarter := slice 0 2 latest4.
Definition earlier2 : list Quarter := slice 2 4 latest4.

Definition revenueSeries : list (string * option num) :=
  map (fun item =>
         (label item,
          if isFinite (revenue (quarter item)) then Some (revenue (quarter item))
          else None))
      (slice 0 8 timeline_).
Definition cagrLatestLabels : list string := map label (slice 0 4 timeline_).
Definition cagrPreviousLabels : list string := map label (slice 4 8 timeline_).

Definition revenueLatest : list num := map revenue latest4.
Definition revenueEarlier : list num := map revenue earlier4.
Definition hasRevenueLatest : bool :=
  Nat.eqb (List.length latest4) 4 && forallb isFinite revenueLatest.
Definition hasRevenueEarlier : bool :=
  Nat.eqb (List.length earlier4) 4 && forallb isFinite revenueEarlier.
Definition revL4 : num := if hasRevenueLatest then sum revenueLatest else NaN.
Definition revP4 : num := if hasRevenueEarlier then sum revenueEarlier else NaN.
Definition hasCagrData : bool :=
  hasRevenueLatest && hasRevenueEarlier && (revP4 >? n0)%num.
Definition cagr1y : num :=
  if hasCagrData then (safeDiv revL4 revP4 - n1)%num else NaN.

Definition grossMarginOf (x : Quarter) : num :=
  if isFinite (grossProfit x) && isFinite (revenue x) && JsNum.neqb (revenue x) n0
  then safeDiv (grossProfit x) (revenue x) else NaN.
Definition gmLatest : list num := map grossMarginOf latest4.
Definition gmL4 : num := avgValid gmLatest.
Definition gmQ : list num := map grossMarginOf timelineQuarters.
Definition grossProfitValues : list num := map grossProfit latest4.
Definition hasGrossProfitTotals : bool :=
  Nat.eqb (List.length latest4) 4 && forallb isFinite grossProfitValues.
Definition gpL4 : num := if hasGrossProfitTotals then sum grossProfitValues else NaN.
Definition gmBaseline : num := avgValid (slice 1 4 gmLatest).
Definition gmTrend : Verdict :=
  if isFinite (at_ gmLatest 0) && isFinite gmBaseline
  then Some (at_ gmLatest 0 >? gmBaseline)%num else None.
Definition gmOkForCapex : bool :=
  isFinite gmL4 && isFinite gmBaseline && isFinite (at_ gmQ 0)
  && (gmL4 >=? lit 45 100)%num && (at_ gmQ 0 >=? gmBaseline)%num.

Definition ocfValues : list num := map ocf latest4.
Definition ocfNear : list num := map ocf latest2.
Definition ocfPrev : list num := map ocf earlier2.
Definition hasOcfTotals : bool :=
  Nat.eqb (List.length latest4) 4 && forallb isFinite ocfValues.
Definition hasOcfTrend : bool :=
  Nat.eqb (List.length latest2) 2 && Nat.eqb (List.length earlier2) 2
  && forallb isFinite ocfNear && forallb isFinite ocfPrev.
Definition ocfL4 : num := if hasOcfTotals then sum ocfValues else NaN.
Definition ocfN2 : num := if hasOcfTrend then sum ocfNear else NaN.
Definition ocfP2 : num := if hasOcfTrend then sum ocfPrev else NaN.

Definition opexRateOf (x : Quarter) : num :=
  if isFinite (revenue x) && JsNum.neqb (revenue x) n0
     && isFinite (sga x) && isFinite (rnd x)
  then safeDiv (sga x + rnd x)%num (revenue x) else NaN.
Definition opexNear : list num := map opexRateOf latest2.
Definition opexPrev : list num := map opexRateOf earlier2.
Definition hasOpexData : bool :=
  Nat.eqb (List.length opexNear) 2 && Nat.eqb (List.length opexPrev) 2
  && forallb isFinite opexNear && forallb isFinite opexPrev.
Definition opexN2 : num := if hasOpexData then avgValid opexNear else NaN.
Definition opexP2 : num := if hasOpexData then avgValid opexPrev else NaN.

(** [latest4.map((current, idx) => ...)] against [timelineQuarters[idx + 4]] *)
Definition yoyOf (current : Quarter) (prev : option Quarter) : num :=
  match prev with
  | None => NaN
  | Some p =>
      if negb (isFinite (revenue current)) || negb (isFinite (revenue p))
         || JsNum.eqb (revenue p) n0
      then NaN
      else (safeDiv (revenue current) (revenue p) - n1)%num
  end.
Definition yoyRaw : list num :=
  map (fun ci => yoyOf (fst ci) (nth_error timelineQuarters (snd ci + 4)))
      (combine latest4 (seq 0 (List.length latest4))).
Definition yoyNear : list num := slice 0 2 yoyRaw.
Definition yoyPrev : list num := slice 2 4 yoyRaw.
Definition hasYoyData : bool :=
  Nat.eqb (List.length yoyNear) 2 && Nat.eqb (List.length yoyPrev) 2
  && forallb isFinite yoyNear && forallb isFinite yoyPrev.
Definition yoyN2 : num := if hasYoyData then avgValid yoyNear else NaN.
Definition yoyP2 : num := if hasYoyData then avgValid yoyPrev else NaN.
Definition yoyDelta : num := if hasYoyData then (yoyN2 - yoyP2)%num else NaN.

Definition ps : num :=
  if hasRevenueLatest && (revL4 >? n0)%num then safeDiv marketCap_ revL4 else NaN.
Definition latestCash : option num :=
  match nth_error latest4 0 with Some q => cash q | None => None end.
Definition latestDebt : option num :=
  match nth_error latest4 0 with Some q => totalDebt q | None => None end.
Definition enterpriseValue : num :=
  if isFinite marketCap_ then
    let ev := marketCap_ in
    let ev := if isFiniteO latestDebt then (ev + numberOr latestDebt)%num else ev in
    let ev := if isFiniteO latestCash then (ev - numberOr latestCash)%num else ev in
    ev
  else NaN.
Definition ebitdaValues : list num := map (fun x => numberOr (ebitda x)) latest4.
Definition ebitdaValid : list num := filter isFinite ebitdaValues.
Definition ebitdaL4 : num :=
  match ebitdaValid with [] => NaN | _ => sum ebitdaValid end.
Definition evToEbitda : num :=
  if isFinite enterpriseValue && isFinite ebitdaL4 && (ebitdaL4 >? n0)%num
  then (enterpriseValue / ebitdaL4)%num else NaN.

Definition capexValues : list num := map capex latest4.
Definition capexBaseline : num := avgValid (slice 1 4 capexValues).
Definition capexTrend : Verdict :=
  if isFinite (at_ capexValues 0) && isFinite capexBaseline
  then Some (at_ capexValues 0 >? capexBaseline)%num else None.

(** [ocfValues[idx]] and [capexValues[idx]] are the fields of the quarter
    at hand. *)
Definition fcfOf (x : Quarter) : num :=
  if isFinite (ocf x) && isFinite (capex x) then (ocf x - capex x)%num else NaN.
Definition fcfValues : list num := map fcfOf latest4.
Definition fcfValid : list num := filter isFinite fcfValues.
Definition hasFcfData : bool := (3 <=? List.length fcfValid)%nat.
Definition fcfL4 : num := match fcfValid with [] => NaN | _ => sum fcfValid end.
Definition fcfRevenueDenom : num :=
  fold_left
    (fun acc q =>
       if isFinite (fcfOf q) && isFinite (revenue q) then (acc + revenue q)%num else acc)
    latest4 n0.
Definition fcfCoverage : num :=
  if hasFcfData && (fcfRevenueDenom >? n0)%num
  then (fcfL4 / fcfRevenueDenom)%num else NaN.
Definition revenueGrowing : bool :=
  isFinite cagr1y && (cagr1y >=? lit 1 10)%num.
Definition fcfPass : Verdict :=
  if (2 <=? List.length fcfValid)%nat then
    if revenueGrowing then
      (if isFinite fcfL4 then Some (fcfL4 >? n0)%num else None)
    else if isFinite fcfCoverage then
      Some ((fcfL4 >? n0)%num || (fcfCoverage >=? lit 5 100)%num)
    else
      (if isFinite fcfL4 then Some (fcfL4 >? n0)%num else None)
  else None.

Definition evToFcf : num :=
  if isFinite enterpriseValue && isFinite fcfL4 && (fcfL4 >? n0)%num
  then (enterpriseValue / fcfL4)%num else NaN.

Definition rdRatioOf (x : Quarter) : num :=
  if isFinite (revenue x) && JsNum.neqb (revenue x) n0 && isFinite (rnd x)
  then safeDiv (rnd x) (revenue x) else NaN.
Definition rdRatios : list num := map rdRatioOf latest4.
Definition rdRate : num := avgValid rdRatios.

Definition rawDilutedSeries : list num :=
  map (fun x => numberOr (dilutedShares x)) timelineQuarters.
Definition normalizedDiluted : list num := normalizeShares rawDilutedSeries.
Definition dilutedLatest : list num := slice 0 4 normalizedDiluted.
Definition dilutedPrev : list num := slice 4 8 normalizedDiluted.
Definition dilutedL4 : num := avgValid dilutedLatest.
Definition dilutedP4 : num := avgValid dilutedPrev.
Definition hasDilutionData : bool :=
  isFinite dilutedL4 && isFinite dilutedP4
  && (2 <=? List.length (filter isFinite dilutedLatest))%nat
  && (2 <=? List.length (filter isFinite dilutedPrev))%nat.
Definition dilutionYoY : option num :=
  if hasDilutionData && JsNum.neqb dilutedP4 n0
  then Some (dilutedL4 / dilutedP4 - n1)%num else None.

Definition netIncomeLatest : list num := map (fun x => numberOr (netIncome x)) latest4.
Definition netIncomePrev : list num := map (fun x => numberOr (netIncome x)) earlier4.
Definition netIncomeLatestValid : list num := filter isFinite netIncomeLatest.
Definition netIncomePrevValid : list num := filter isFinite netIncomePrev.
Definition netIncomeL4 : num :=
  match netIncomeLatestValid with [] => NaN | _ => sum netIncomeLatestValid end.
Definition netIncomePrevL4 : num :=
  match netIncomePrevValid with [] => NaN | _ => sum netIncomePrevValid end.
Definition netIncomeGrowth : num :=
  if isFinite netIncomeL4 && isFinite netIncomePrevL4 && (netIncomePrevL4 >? n0)%num
  then (safeDiv netIncomeL4 netIncomePrevL4 - n1)%num else NaN.
Definition pe : num :=
  if isFinite marketCap_ && isFinite netIncomeL4 && (netIncomeL4 >? n0)%num
  then safeDiv marketCap_ netIncomeL4 else NaN.
Definition peg : num :=
  if isFinite pe && isFinite netIncomeGrowth && (netIncomeGrowth >? n0)%num
  then (pe / JsNum.max netIncomeGrowth (lit 5 100))%num else NaN.

(** Rule 6: the three valuation checks *)
Definition VAL_EBITDA_LIMIT : num := ofZ 25.
Definition VAL_FCF_LIMIT : num := ofZ 35.
Definition VAL_PEG_LIMIT : num := ofZ 2.

(** [Number.isFinite(v) ? v <= limit : null] *)
Definition underLimit (v limit : num) : Verdict :=
  if isFinite v then Some (v <=? limit)%num else None.

Definition evEbitdaPass : Verdict := underLimit evToEbitda VAL_EBITDA_LIMIT.
Definition evFcfPass : Verdict := underLimit evToFcf VAL_FCF_LIMIT.
Definition pegPass : Verdict := underLimit peg VAL_PEG_LIMIT.

Definition valuationChecks : list ValuationCheck :=
  [ {| key := "ev_ebitda"; value := evToEbitda; limit := VAL_EBITDA_LIMIT;
       checkPass := evEbitdaPass |};
    {| key := "ev_fcf"; value := evToFcf; limit := VAL_FCF_LIMIT;
       checkPass := evFcfPass |};
    {| key := "peg"; value := peg; limit := VAL_PEG_LIMIT;
       checkPass := pegPass |} ].
Definition valuationAvailable : list ValuationCheck :=
  filter (fun item => isNotNull (checkPass item)) valuationChecks.
Definition valuationAvailableCount : nat := List.length valuationAvailable.
Definition valuationPassCount : nat :=
  List.length (filter (fun item => isTrue (checkPass item)) valuationAvailable).
Definition valuationPass : Verdict :=
  if (2 <=? valuationAvailableCount)%nat
  then Some (2 <=? valuationPassCount)%nat else None.

(** The ten rules, in the insertion order of the [rules] object. *)
Definition rule1 : RuleResult :=
  {| pass := if hasCagrData then Some (cagr1y >=? lit 30 100)%num else None;
     nums := [("value", cagr1y)]; flags := [] |}.

Definition rule2 : RuleResult :=
  {| pass := match gmTrend with
             | Some trend =>
                 if isFinite gmL4 then Some ((gmL4 >=? lit 45 100)%num && trend)
                 else None
             | None => None
             end;
     nums := [("avg", gmL4); ("last", at_ gmQ 0)];
     flags := [("trend_up", gmTrend)] |}.

Definition rule3 : RuleResult :=
  {| pass := if hasOcfTotals && hasOcfTrend
             then Some ((ocfL4 >? n0)%num && (ocfN2 >? ocfP2)%num) else None;
     nums := [("ocf_ttm", ocfL4)];
     flags := [("trend_up",
                if isFinite ocfN2 && isFinite ocfP2
                then Some (ocfN2 >? ocfP2)%num else None)] |}.

Definition rule4 : RuleResult :=
  {| pass := if hasOpexData then Some (opexN2 <? opexP2)%num else None;
     nums := [("near2q", opexN2); ("prev2q", opexP2)]; flags := [] |}.

Definition rule5 : RuleResult :=
  {| pass := if hasYoyData
             then Some (((yoyN2 >? lit 1 2)%num && (yoyP2 >? lit 1 2)%num)
                        || (yoyN2 >? yoyP2 + lit 5 100)%num)
             else None;
     nums := [("near2q", yoyN2); ("prev2q", yoyP2); ("delta", yoyDelta)];
     flags := [] |}.

Definition rule6 : RuleResult :=
  {| pass := valuationPass;
     nums := [("ev", enterpriseValue); ("fcf_ttm", fcfL4); ("ebitda_ttm", ebitdaL4);
              ("peg", peg); ("pe", pe); ("net_income_growth", netIncomeGrowth);
              ("ps", ps)];
     flags := map (fun item => (key item, checkPass item)) valuationChecks |}.

Definition rule7 : RuleResult :=
  {| pass := match capexTrend with
             | Some trend => if gmOkForCapex then Some trend else None
             | None => None
             end;
     nums := [];
     flags := [("capex_trend", capexTrend); ("gm_ok", Some gmOkForCapex)] |}.

Definition rule8 : RuleResult :=
  {| pass := if isFinite rdRate then Some (rdRate >=? lit 15 100)%num else None;
     nums := [("value", rdRate)]; flags := [] |}.

Definition passDilution : Verdict :=
  match dilutionYoY with
  | Some d => Some (d <? lit 10 100)%num
  | None => None
  end.

Definition rule9 : RuleResult :=
  {| pass := passDilution;
     nums := match dilutionYoY with Some d => [("dilutionYoY", d)] | None => [] end;
     flags := [] |}.

Definition rule10 : RuleResult :=
  {| pass := fcfPass;
     nums := [("fcf_ttm", fcfL4); ("coverage", fcfCoverage)]; flags := [] |}.

Definition rules : list (string * RuleResult) :=
  [ ("1_growth_cagr", rule1);
    ("2_gross_margin_level_trend", rule2);
    ("3_ocf_quality", rule3);
    ("4_opex_rate", rule4);
    ("5_yoy_acceleration", rule5);
    ("6_val_vs_growth", rule6);
    ("7_capacity_without_gm_hit", rule7);
    ("8_rd_ratio", rule8);
    ("9_dilution_governance", rule9);
    ("10_fcf_coverage", rule10) ].

(** Score: one point per rule whose [pass === true]. *)
Definition bonus : Z := 0.
Definition basePass : Z :=
  fold_left (fun acc kr => acc + (if isTrue (pass (snd kr)) then 1 else 0)) rules 0.
Definition total : Z := basePass + bonus.

(** Red flags *)
Definition ocfFlag : bool :=
  isFinite ocfL4 && isFinite ocfN2 && isFinite ocfP2
  && (ocfL4 <? n0)%num && (ocfN2 <? ocfP2)%num.

Definition arInvOf (x : Quarter) : num :=
  if isFinite (receivables x) && isFinite (inventory x)
  then (receivables x + inventory x)%num else NaN.
Definition arInvLatest : list num := map arInvOf latest4.
Definition arInvPrev : list num := map arInvOf earlier4.
Definition hasArInvData : bool :=
  Nat.eqb (List.length arInvLatest) 4 && Nat.eqb (List.length arInvPrev) 4
  && forallb isFinite arInvLatest && forallb isFinite arInvPrev
  && hasRevenueLatest && hasRevenueEarlier.
Definition arInvFlag : bool :=
  hasArInvData && isFinite revL4 && isFinite revP4
  && (sum arInvLatest - sum arInvPrev >? revL4 - revP4)%num.

Definition gmYoYDrop : num :=
  match nth_error timelineQuarters 0, nth_error timelineQuarters 4 with
  | Some q0, Some q4 =>
      if isFinite (grossProfit q0) && isFinite (revenue q0) && JsNum.neqb (revenue q0) n0
         && isFinite (grossProfit q4) && isFinite (revenue q4) && JsNum.neqb (revenue q4) n0
      then (safeDiv (grossProfit q0) (revenue q0) - safeDiv (grossProfit q4) (revenue q4))%num
      else NaN
  | _, _ => NaN
  end.
Definition gmDropFlag : bool :=
  isFinite gmYoYDrop && (gmYoYDrop <=? lit (-5) 100)%num.

Definition dilutionFlag : bool :=
  match dilutionYoY with Some d => (d >? lit 10 100)%num | None => false end.

Definition red_flags : list RedFlag :=
  (if ocfFlag then [OcfNegativeAndWeakening] else [])
  ++ (if arInvFlag then [ArInventoryOutpacesRevenue] else [])
  ++ (if gmDropFlag then [GrossMarginDrop] else [])
  ++ (if dilutionFlag then [ShareDilution] else []).

Definition rating : Rating :=
  if 9 <=? total then Excellent
  else if 7 <=? total then Good
  else if 5 <=? total then Average
  else DoesNotMeetProfile.
End Metrics.

(** The instant of a quarter's period (0 when it does not parse). *)
Definition periodTime (parse : string -> Dayjs) (q : Quarter) : Z :=
  match parse (period q) with Some m => timeOf m | None => 0 end.

(** The quarter's period is not after the present moment. *)
Definition nonFuture (parse : string -> Dayjs) (today : Moment) (q : Quarter) : bool :=
  negb (isAfter (parse (period q)) (Some today)).

(** Most recent first. *)
Definition newestFirst (parse : string -> Dayjs) (a b : Quarter) : Prop :=
  periodTime parse b <= periodTime parse a.

(** A timeline entry is filled from the known quarters: by the first of them
    with its calendar label, or else by a placeholder. *)
Definition filledFrom (parse : string -> Dayjs) (known : list Quarter)
    (e : TimelineEntry) : Prop :=
  match find (fun q => String.eqb (toCalendarQuarterLabel parse (period q)) (label e))
             known with
  | Some q => hasData e = true /\ exists cursor, quarter e = withFiscal q cursor
  | None => hasData e = false /\ exists iso cursor, quarter e = placeholder iso cursor
  end.

(** The keys of the [rules] object. *)
Definition ruleKeys : list string :=
  [ "1_growth_cagr"; "2_gross_margin_level_trend"; "3_ocf_quality"; "4_opex_rate";
    "5_yoy_acceleration"; "6_val_vs_growth"; "7_capacity_without_gm_hit";
    "8_rd_ratio"; "9_dilution_governance"; "10_fcf_coverage" ].

(** Number of [true] entries of a list of tests. *)
Definition countTrue (l : list bool) : nat := List.length (filter (fun b => b) l).

(** A finite number above zero. *)
Definition isPositive (x : num) : bool := isFinite x && (x >? n0)%num.

(** The split bands of [normalizeShares]. *)
Definition inSplitBand (ratio : num) : bool :=
  ((ratio >? lit 9 2)%num && (ratio <? lit 23 2)%num)
  || ((ratio <? lit 11 50)%num && (ratio >? lit 2 25)%num).

(** The correction factor in force at position [i] of a share series read
    newest first: the product of the in-band ratios of a newer value to the
    next older one, both positive, met from the newest value down to
    position [i]. *)
Fixpoint factorAt (series : list num) (i : nat) : num :=
  match i with
  | O => n1
  | S j =>
      let ratio := (at_ series j / at_ series i)%num in
      if isPositive (at_ series j) && (isPositive (at_ series i) && inSplitBand ratio)
      then (factorAt series j * ratio)%num
      else factorAt series j
  end.

(** The value the loop remembers after a prefix: its last element when that
    is positive. *)
Definition prevOf (pre : list num) : option num :=
  match rev pre with
  | x :: _ => if isPositive x then Some x else None
  | [] => None
  end.

(** The value the loop stores at a position. *)
Definition cell (series : list num) (i : nat) : num :=
  if isPositive (at_ series i) then (at_ series i * factorAt series i)%num else NaN.

(** [a] lies within five percent of [b]. *)
Definition approx (a b : num) : bool :=
  (JsNum.abs (a - b) <=? JsNum.abs b * lit 1 20)%num.

(** The object [scoreCompany] returns; [as_of] (the wall clock) and the
    formatted texts ([label], [summary], [metrics], [note]) are left out. *)
Record ScoreResult : Type := mkScore {
  r_ticker            : string;
  r_rules             : list (string * RuleResult);
  r_red_flags         : list RedFlag;
  base_points         : Z;
  bonus_points        : Z;
  total_score         : Z;
  r_rating            : Rating;
  r_ps                : num;
  r_cagr1y            : num;
  dq_quarters         : nat;
  has_diluted_shares  : bool;
  quarterly_revenue   : list (string * option num);
  latest_periods      : list string;
  previous_periods    : list string
}.

(** [scoreCompany(f)], with [dayjs] and the present moment explicit. *)
Definition scoreCompany (parse : string -> Dayjs) (today : Moment) (f : Fundamentals)
  : Result RangeError ScoreResult :=
  tl <-- timeline parse today f ;;
  let mc := marketCap f in
  Ok {| r_ticker := ticker f;
        r_rules := rules mc tl;
        r_red_flags := red_flags tl;
        base_points := basePass mc tl;
        bonus_points := bonus;
        total_score := total mc tl;
        r_rating := rating mc tl;
        r_ps := ps mc tl;
        r_cagr1y := cagr1y tl;
        dq_quarters := List.length (base parse today f);
        has_diluted_shares :=
          match dilutionYoY tl with Some _ => true | None => false end;
        quarterly_revenue := rev (revenueSeries tl);
        latest_periods := cagrLatestLabels tl;
        previous_periods := cagrPreviousLabels tl |}.

End Scoring.

(* ------------------------------------------------------------------ *)
(** ** Worked inputs *)

Module Examples.
Import Xbrl.

(** A datum with a value and a filing date. *)
Definition datumOf (v : Z) (filedOn : string) : QuarterDatum :=
  {| value := ofZ v; d_end := None; d_filed := Some filedOn; d_start := None |}.

(** Cumulative revenue 100 (Q1), 250 (Q2 year-to-date), 400 (Q3
    year-to-date): the first quarter reported as a quarterly figure ... *)
Definition ytdSeries : Series :=
  {| quarterValues := [("2024Q1", datumOf 100 "2024-05-01")];
     ytdValues := [("2024Q2", datumOf 250 "2024-08-01");
                   ("2024Q3", datumOf 400 "2024-11-01")] |}.

(** ... and the first quarter itself held as a year-to-date figure, the later
    quarters scanned first. *)
Definition ytdOnlySeries : Series :=
  {| quarterValues := [];
     ytdValues := [("2024Q3", datumOf 400 "2024-11-01");
                   ("2024Q2", datumOf 250 "2024-08-01");
                   ("2024Q1", datumOf 100 "2024-05-01")] |}.

(** Values of a series, key by key. *)
Definition valuesOf (m : JsMap.t QuarterDatum) : list (string * num) :=
  map (fun kv => (fst kv, value (snd kv))) m.

(** Two facts of one quarter filed the same day. *)
Definition storedFirst : QuarterDatum := datumOf 100 "2024-05-01".
Definition seenLater : QuarterDatum := datumOf 105 "2024-05-01".
Definition oneQuarter : JsMap.t QuarterDatum := [("2024Q1", storedFirst)].

(** A 10-Q fact of the second quarter with an end date and no start date. *)
Definition factWithoutStart : Entry :=
  {| form := Some "10-Q"; val := Some (ofZ 250); end_ := Some "2024-06-30";
     start := None; fy := Some (ofZ 2024); fp := Some "Q2"; frame := None;
     filed := Some "2024-08-01" |}.

Definition emptySeries : Series :=
  {| quarterValues := JsMap.empty; ytdValues := JsMap.empty |}.

(** The present moment of the examples: 15 May 2024. *)
Definition today0 : Moment :=
  {| year := 2024; month := 4; date := 15; msOfDay := 0 |}.

(** A quarter with a period and a revenue; the other figures are fixed. *)
Definition quarterAt (p : string) (rev : Z) : Quarter :=
  {| period := p; revenue := ofZ rev; grossProfit := ofZ (rev / 2);
     sga := ofZ 10; rnd := ofZ 20; ocf := ofZ 5; capex := Fin (5 # 2);
     inventory := ofZ 1; receivables := ofZ 1; cash := None; totalDebt := None;
     dilutedShares := Some (ofZ 1000); ebitda := Some (ofZ 5);
     netIncome := Some (ofZ (-1)); fiscalYear := None; fiscalQuarter := None |}.

(** One quarter behind the present moment and one ahead of it. *)
Definition pastQuarter : Quarter := quarterAt "2024-03-31" 300.
Definition futureQuarter : Quarter := quarterAt "2024-09-30" 300.
Definition futureAndPast : Fundamentals :=
  {| ticker := "X"; marketCap := ofZ 400; quarters := [futureQuarter; pastQuarter] |}.

(** Four quarters: market capitalisation 400, EBITDA 5 and free cash flow
    5/2 a quarter, net income negative. *)
Definition valuationFundamentals : Fundamentals :=
  {| ticker := "X"; marketCap := ofZ 400;
     quarters := [quarterAt "2024-03-31" 300; quarterAt "2023-12-31" 300;
                  quarterAt "2023-09-30" 300; quarterAt "2023-06-30" 300] |}.

Definition valuationTimeline : list Scoring.TimelineEntry :=
  match Scoring.timeline isoParse today0 valuationFundamentals with
  | Ok tl => tl
  | Throw _ => []
  end.

(** A quarter whose period is the empty string. *)
Definition unreadablePeriod : Fundamentals :=
  {| ticker := "X"; marketCap := NaN; quarters := [quarterAt "" 300] |}.

(** What the route scores when every provider failed. *)
Definition degraded : Fundamentals :=
  {| ticker := "NVDA"; marketCap := NaN; quarters := [] |}.

(** Adapters that log their call in the world and then answer. *)
Definition answering (who : string) (r : Result Http.ProviderError Fundamentals)
  : Fallback.Handler (list string) :=
  fun _ w => (r, (w ++ [who])%list).

Definition quotaError : Http.ProviderError :=
  Http.createProviderError "SEC" "SEC API 配額限制 (HTTP 429)。" true (Some "quota").
Definition missingKeyError : Http.ProviderError :=
  Http.createProviderError "FMP" "FMP_API_KEY 未設定，略過 FMP。" true (Some "missing-key").
Definition finnhubAnswer : Fundamentals :=
  {| ticker := "NVDA"; marketCap := ofZ 400; quarters := [] |}.

(** A 401 answer with an HTML page, and a 403 answer without a body. *)
Definition unauthorizedHtml : Http.Response unit :=
  {| Http.status := 401; Http.statusText := "Unauthorized";
     Http.body := Http.MalformedBody "<html>Unauthorized</html>" |}.
Definition forbiddenEmpty : Http.Response unit :=
  {| Http.status := 403; Http.statusText := "Forbidden"; Http.body := Http.EmptyBody |}.

End Examples.

(* ------------------------------------------------------------------ *)
(** ** The quarter store of an adapter *)

Module Store.
Import Merge.

(** The record a patch at [key] starts from: the stored one, or the fresh
    record of [ensureQuarter]. *)
Definition recordAt (byDate : JsMap.t Quarter) (key : string) : Quarter :=
  match JsMap.get key byDate with
  | Some existing => existing
  | None => emptyQuarter key
  end.

(** Every record is stored under its own period, no key is empty and no key
    occurs twice. *)
Definition keyedByPeriod (byDate : JsMap.t Quarter) : Prop :=
  NoDup (JsMap.keys byDate) /\
  forall k q, In (k, q) byDate -> period q = k /\ k <> "".

(** The calls [applyPatch(byDate, iso, patch)] an adapter makes, in order. *)
Definition applyAll (patches : list (option string * QuarterPatch))
    (byDate : JsMap.t Quarter) : JsMap.t Quarter :=
  fold_left (fun s ip => applyPatch s (fst ip) (snd ip)) patches byDate.

(** Two patches that set no field in common. *)
Definition absentIn {A} (a b : option A) : Prop := a = None \/ b = None.

Definition disjointPatches (p1 p2 : QuarterPatch) : Prop :=
  absentIn (p_revenue p1) (p_revenue p2) /\
  absentIn (p_grossProfit p1) (p_grossProfit p2) /\
  absentIn (p_sga p1) (p_sga p2) /\
  absentIn (p_rnd p1) (p_rnd p2) /\
  absentIn (p_ocf p1) (p_ocf p2) /\
  absentIn (p_capex p1) (p_capex p2) /\
  absentIn (p_inventory p1) (p_inventory p2) /\
  absentIn (p_receivables p1) (p_receivables p2) /\
  absentIn (p_cash p1) (p_cash p2) /\
  absentIn (p_totalDebt p1) (p_totalDebt p2) /\
  absentIn (p_dilutedShares p1) (p_dilutedShares p2) /\
  absentIn (p_ebitda p1) (p_ebitda p2) /\
  absentIn (p_netIncome p1) (p_netIncome p2) /\
  absentIn (p_fiscalYear p1) (p_fiscalYear p2) /\
  absentIn (p_fiscalQuarter p1) (p_fiscalQuarter p2).

(** [iso] names a period: it is neither [null] nor empty. *)
Definition namesPeriod (iso : option string) (key : string) : Prop :=
  iso = Some key /\ key <> "".

(** [finalizeQuarters(byDate)]:
    [Array.from(byDate.values()).filter(valid).sort(newest first).slice(0, 8)] *)
Definition finalizeQuarters (parse : string -> Dayjs) (byDate : JsMap.t Quarter)
  : list Quarter :=
  slice 0 8
    (sort (Scoring.byPeriodDesc parse)
       (filter (fun q => isValid (parse (period q))) (JsMap.values byDate))).

(** The closing steps shared by [fetchFromFmp] and [fetchFromFinnhub], from
    [const quarters = finalizeQuarters(byDate)] on, given the market
    capitalisation read from the quote or profile ([undefined] is [None]). *)
Definition finishCommercial (parse : string -> Dayjs) (prov symbol : string)
    (byDate : JsMap.t Quarter) (marketCap_ : option num)
  : Result Http.ProviderError Fundamentals :=
  let quarters_ := finalizeQuarters parse byDate in
  match marketCap_ with
  | None =>
      Throw (Http.createProviderError prov "取得市值失敗。" true (Some "missing-market-cap"))
  | Some mc =>
      if negb (isFinite mc) then
        Throw (Http.createProviderError prov "取得市值失敗。" true (Some "missing-market-cap"))
      else if (List.length quarters_ <? 4)%nat then
        Throw (Http.createProviderError prov "回傳財報不足四季。" true
                 (Some "insufficient-data"))
      else Ok {| ticker := symbol; marketCap := mc; quarters := quarters_ |}
  end.

End Store.

(* ------------------------------------------------------------------ *)
(** ** Further worked inputs *)

Module MoreExamples.

(** A store of five periods, one of them unreadable. *)
Definition fiveQuarterStore : JsMap.t Quarter :=
  [ ("2023-06-30", Examples.quarterAt "2023-06-30" 200);
    ("2024-03-31", Examples.quarterAt "2024-03-31" 300);
    ("n/a", Examples.quarterAt "n/a" 1);
    ("2023-12-31", Examples.quarterAt "2023-12-31" 280);
    ("2023-09-30", Examples.quarterAt "2023-09-30" 250) ].

End MoreExamples.

(* ------------------------------------------------------------------ *)
(** ** Series of facts: notions for their properties *)

Module Series.
Import Xbrl.

(** The facts offered to a map in document order, each under its key. *)
Definition offerEach (getTime : string -> num)
    (offers : list (string * QuarterDatum)) (m : JsMap.t QuarterDatum)
  : JsMap.t QuarterDatum :=
  fold_left (fun acc kd => updateQuarterDatum getTime acc (fst kd) (snd kd)) offers m.

(** The data offered under [key], in the order of the offers. *)
Definition offeredTo (key : string) (offers : list (string * QuarterDatum))
  : list QuarterDatum :=
  map snd (filter (fun kd => String.eqb (fst kd) key) offers).

(** A datum with a finite value, the ISO string of a valid date as its end
    and a filing date. *)
Definition complete (d : QuarterDatum) : Prop :=
  isFinite (value d) = true /\
  (exists m : Moment, d_end d = Some (isoString m)) /\
  d_filed d <> None.

Definition allComplete (m : JsMap.t QuarterDatum) : Prop :=
  forall k d, JsMap.get k m = Some d -> complete d.

Definition bothComplete (st : Series) : Prop :=
  allComplete (quarterValues st) /\ allComplete (ytdValues st).

(** The filing time [updateQuarterDatum] compares. *)
Definition filedAt (getTime : string -> num) (d : QuarterDatum) : num :=
  filedTime getTime (d_filed d).

(** Four facts of the first quarter, two of them filed on the latest day,
    and one fact of the second quarter among them. *)
Definition restated : list (string * QuarterDatum) :=
  [("2024Q1", {| value := ofZ 100; d_end := None; d_filed := Some "2024-05-01";
                 d_start := None |});
   ("2024Q1", {| value := ofZ 104; d_end := None; d_filed := Some "2024-08-01";
                 d_start := None |});
   ("2024Q2", {| value := ofZ 150; d_end := None; d_filed := Some "2024-08-01";
                 d_start := None |});
   ("2024Q1", {| value := ofZ 105; d_end := None; d_filed := Some "2024-08-01";
                 d_start := None |});
   ("2024Q1", {| value := ofZ 101; d_end := None; d_filed := Some "2024-06-01";
                 d_start := None |})].

(** A facts document with one revenue fact, and the configuration that
    reads it. *)
Definition sampleFacts : Facts :=
  [("us-gaap",
    [("Revenues",
      {| cd_units := Some [("USD", [Examples.factWithoutStart])] |})])].

Definition revenueConfigs : list ConceptConfig :=
  [{| taxonomy := "us-gaap"; concepts := ["Revenues"]; units := Some ["USD"] |}].

(** Order of quarter keys as [parseQuarterKey] reads them: by year, then by
    quarter. *)
Definition keyBefore (a b : string) : Prop :=
  fst (parseQuarterKey a) < fst (parseQuarterKey b) \/
  (fst (parseQuarterKey a) = fst (parseQuarterKey b) /\
   snd (parseQuarterKey a) <= snd (parseQuarterKey b)).

(** The year [y] prints as four decimal digits that read back as [y]. *)
Definition fourDigits (y : Z) : bool :=
  match showZ y with
  | String a (String b (String c (String d EmptyString))) =>
      Str.isDigit a && Str.isDigit b && Str.isDigit c && Str.isDigit d
      && (((Str.digitVal a * 10 + Str.digitVal b) * 10 + Str.digitVal c) * 10
            + Str.digitVal d =? y)
  | _ => false
  end.

(** [p] on the [n] integers from [y] on. *)
Fixpoint upto (p : Z -> bool) (n : nat) (y : Z) : bool :=
  match n with
  | O => true
  | S n' => p y && upto p n' (y + 1)
  end.

End Series.

(* ------------------------------------------------------------------ *)
(** ** The scoring route (the handler [GET] that knows the degraded answer)

    The answer of the route is modelled by what its JSON body and status
    carry; the lines the route itself writes to the console are left out,
    those of [fetchFundamentals] stay in the run. *)

Module Route.
Import Http Fallback Scoring.

(** The three responses of the route: the score of the fetched data
    (status 200, [data_source: "live"]), the score of the empty fundamentals
    (status 200, [data_source: "degraded"], [confidence: "low"]), or the
    failure body [{ ticker, error, warnings }] (status 502). *)
Inductive Answer : Type :=
| Live (result : ScoreResult) (warnings : list string)
| Degraded (result : ScoreResult) (warnings : list string)
| Failed (symbol : string) (warnings : list string).

Definition statusOf (a : Answer) : Z :=
  match a with
  | Live _ _ | Degraded _ _ => 200
  | Failed _ _ => 502
  end.

Definition warningsOf (a : Answer) : list string :=
  match a with
  | Live _ ws | Degraded _ ws | Failed _ ws => ws
  end.

(** What the [catch] clause of the route receives: the error of
    [fetchFundamentals] or the [RangeError] of [scoreCompany]. *)
Inductive Caught : Type :=
| FromProviders (e : ProviderError)
| FromScoring (e : RangeError).

(** [(err as Error)?.message]; the message of the [RangeError] is the one
    V8 gives it. *)
Definition caughtMessage (c : Caught) : string :=
  match c with
  | FromProviders e => message e
  | FromScoring InvalidTimeValue => "Invalid time value"
  end.

(** [providerErr?.reason] *)
Definition caughtReason (c : Caught) : option string :=
  match c with
  | FromProviders e => reason e
  | FromScoring _ => None
  end.

(** [(searchParams.get("ticker") || "NVDA").toUpperCase()] *)
Definition tickerOf (param : option string) : string :=
  Str.toUpperCase
    (match param with
     | Some s => if String.eqb s "" then "NVDA" else s
     | None => "NVDA"
     end).

Section Handler.
Variable parse : string -> Dayjs.
Variable today : Moment.
Variable World : Type.
Variables fetchFromSec fetchFromFmp fetchFromFinnhub : Handler World.

(** The [catch] clause.  No error of the sources carries an [errors] member,
    so [extraErrors] is [[message]]. *)
Definition recover (symbol : string) (c : Caught) : Result RangeError Answer :=
  let message := caughtMessage c in
  let warnings := [message] in
  match caughtReason c with
  | Some why =>
      if String.eqb why "exhausted" then
        let degradedFundamentals :=
          {| ticker := symbol; marketCap := NaN; quarters := [] |} in
        degradedResult <-- scoreCompany parse today degradedFundamentals ;;
        Ok (Degraded degradedResult warnings)
      else Ok (Failed symbol warnings)
  | None => Ok (Failed symbol warnings)
  end.

Definition GET (param : option string) (w : World)
  : Result RangeError Answer * Run World :=
  let symbol := tickerOf param in
  match fetchFundamentals World fetchFromSec fetchFromFmp fetchFromFinnhub symbol w with
  | (Ok fundamentals, run) =>
      match scoreCompany parse today fundamentals with
      | Ok result => (Ok (Live result []), run)
      | Throw err => (recover symbol (FromScoring err), run)
      end
  | (Throw err, run) => (recover symbol (FromProviders err), run)
  end.
End Handler.

End Route.

(* ------------------------------------------------------------------ *)
(** ** Calendar quarters counted from year zero *)

Module Calendar.
Import Scoring.

(** The number of the calendar quarter of a moment, four to a year. *)
Definition quarterIndex (m : Moment) : Z := 4 * year m + month m / 3.

(** The label of the quarter with a given number. *)
Definition labelAt (k : Z) : string := showZ (k / 4) ++ "Q" ++ showZ (k mod 4 + 1).

(** A character occurs in a string. *)
Fixpoint occurs (c : ascii) (s : string) : bool :=
  match s with
  | EmptyString => false
  | String x r => Ascii.eqb x c || occurs c r
  end.

(** The moment the timeline of [f] starts from: the period of the first
    known quarter, the present moment when none is known. *)
Definition anchoredAt (parse : string -> Dayjs) (today : Moment) (f : Fundamentals)
    (m0 : Moment) : Prop :=
  match base parse today f with
  | q :: _ => parse (period q) = Some m0
  | [] => m0 = today
  end.

End Calendar.

(* ------------------------------------------------------------------ *)
(** ** A company with weakening cash flow and a growing share count *)

Module Troubled.
Import Scoring.

(** A quarter with a period, an operating cash flow and a diluted share
    count; revenue 300, the other figures fixed. *)
Definition quarterWith (p : string) (cashFlow shares : Z) : Quarter :=
  {| period := p; revenue := ofZ 300; grossProfit := ofZ 150;
     sga := ofZ 10; rnd := ofZ 20; ocf := ofZ cashFlow; capex := ofZ 2;
     inventory := ofZ 1; receivables := ofZ 1; cash := None; totalDebt := None;
     dilutedShares := Some (ofZ shares); ebitda := Some (ofZ 5);
     netIncome := Some (ofZ (-1)); fiscalYear := None; fiscalQuarter := None |}.

(** Eight quarters to March 2024: operating cash flow negative and falling,
    diluted shares up by a fifth on the year. *)
Definition fundamentals : Fundamentals :=
  {| ticker := "X"; marketCap := ofZ 400;
     quarters := [quarterWith "2024-03-31" (-10) 1200;
                  quarterWith "2023-12-31" (-10) 1200;
                  quarterWith "2023-09-30" (-1) 1200;
                  quarterWith "2023-06-30" (-1) 1200;
                  quarterWith "2023-03-31" 5 1000;
                  quarterWith "2022-12-31" 5 1000;
                  quarterWith "2022-09-30" 5 1000;
                  quarterWith "2022-06-30" 5 1000] |}.

Definition timeline : list TimelineEntry :=
  match Scoring.timeline isoParse Examples.today0 fundamentals with
  | Ok tl => tl
  | Throw _ => []
  end.

End Troubled.

(* ------------------------------------------------------------------ *)
(** ** Quarter records of the SEC adapter ([buildQuarterRecords] and the
       steps of [fetchFromSec] that follow it) *)

Module Records.
Import Xbrl.

(** [d.year(y)], that is [$set] of the year: as for the month, the native
    [setFullYear(y)] runs on a clone moved to the first of its month, then
    the day of the month is restored, clipped to [daysInMonth()]. *)
Definition setYear (m : Moment) (y : Z) : Dayjs :=
  match mk {| year := year m; month := month m; date := 1; msOfDay := msOfDay m |} with
  | None => None
  | Some _ =>
      match mk {| year := y; month := month m; date := 1; msOfDay := msOfDay m |} with
      | None => None
      | Some first =>
          match endOfMonth first with
          | None => None
          | Some last =>
              mk {| year := y; month := month m;
                    date := Z.min (date m) (date last);
                    msOfDay := msOfDay m |}
          end
      end
  end.

(** [d.quarter(q)] of the quarterOfYear plugin:
    [this.month((this.month() % 3) + ((quarter - 1) * 3))] *)
Definition setQuarter (m : Moment) (q : Z) : Dayjs :=
  setMonth m (month m mod 3 + (q - 1) * 3).

(** [dayjs().year(year).quarter(quarter).endOf("quarter")] *)
Definition quarterEndOf (today : Moment) (yr qt : Z) : Dayjs :=
  match setYear today yr with
  | None => None
  | Some a =>
      match setQuarter a qt with
      | None => None
      | Some b => endOfQuarter (Some b)
      end
  end.

(** The [metricSeries] argument; the members read with [?.] may be absent. *)
Record MetricSeries : Type := mkMetrics {
  m_grossProfit    : JsMap.t QuarterDatum;
  m_sga            : JsMap.t QuarterDatum;
  m_rnd            : JsMap.t QuarterDatum;
  m_ocf            : JsMap.t QuarterDatum;
  m_capex          : JsMap.t QuarterDatum;
  m_inventory      : JsMap.t QuarterDatum;
  m_receivables    : JsMap.t QuarterDatum;
  m_cash           : option (JsMap.t QuarterDatum);
  m_debtTotal      : option (JsMap.t QuarterDatum);
  m_debtCurrent    : option (JsMap.t QuarterDatum);
  m_debtNoncurrent : option (JsMap.t QuarterDatum);
  m_dilutedShares  : JsMap.t QuarterDatum;
  m_ebitda         : option (JsMap.t QuarterDatum);
  m_netIncome      : option (JsMap.t QuarterDatum)
}.

(** [series.get(key)?.value ?? Number.NaN] *)
Definition valueAt (series : JsMap.t QuarterDatum) (key : string) : num :=
  match JsMap.get key series with
  | Some datum => value datum
  | None => NaN
  end.

(** [series?.get(key)?.value ?? Number.NaN] *)
Definition valueAtO (series : option (JsMap.t QuarterDatum)) (key : string) : num :=
  match series with
  | Some s => valueAt s key
  | None => NaN
  end.

(** The total debt of a quarter: the reported total, or else what is
    reported of its current and non-current parts. *)
Definition totalDebtAt (metricSeries : MetricSeries) (key : string) : num :=
  let totalDebtValue := valueAtO (m_debtTotal metricSeries) key in
  let currentDebtValue := valueAtO (m_debtCurrent metricSeries) key in
  let nonCurrentDebtValue := valueAtO (m_debtNoncurrent metricSeries) key in
  if negb (isFinite totalDebtValue) then
    let hasCurrent := isFinite currentDebtValue in
    let hasNonCurrent := isFinite nonCurrentDebtValue in
    if hasCurrent || hasNonCurrent then
      ((if hasCurrent then currentDebtValue else n0)
       + (if hasNonCurrent then nonCurrentDebtValue else n0))%num
    else totalDebtValue
  else totalDebtValue.

Section Build.
Variable parse : string -> Dayjs.
Variable today : Moment.
Variable revenueSeries : JsMap.t QuarterDatum.
Variable metricSeries : MetricSeries.

(** [revDatum.end ? dayjs(revDatum.end) : dayjs().year(year).quarter(quarter).endOf("quarter")] *)
Definition periodEndOf (revDatum : QuarterDatum) (yr qt : Z) : Dayjs :=
  match d_end revDatum with
  | Some e => if String.eqb e "" then quarterEndOf today yr qt else parse e
  | None => quarterEndOf today yr qt
  end.

(** The object pushed for [key]. *)
Definition recordOf (key iso : string) (revDatum : QuarterDatum) (yr qt : Z) : Quarter :=
  {| period := iso;
     revenue := value revDatum;
     grossProfit := valueAt (m_grossProfit metricSeries) key;
     sga := valueAt (m_sga metricSeries) key;
     rnd := valueAt (m_rnd metricSeries) key;
     ocf := valueAt (m_ocf metricSeries) key;
     capex := valueAt (m_capex metricSeries) key;
     inventory := valueAt (m_inventory metricSeries) key;
     receivables := valueAt (m_receivables metricSeries) key;
     cash := Some (valueAtO (m_cash metricSeries) key);
     totalDebt := Some (totalDebtAt metricSeries key);
     dilutedShares := option_map value (JsMap.get key (m_dilutedShares metricSeries));
     ebitda := Some (valueAtO (m_ebitda metricSeries) key);
     netIncome := Some (valueAtO (m_netIncome metricSeries) key);
     fiscalYear := Some (ofZ yr);
     fiscalQuarter := Some (ofZ qt) |}.

(** The loop [for (const key of keys)]; [toISOString] throws on an invalid
    period end. *)
Fixpoint buildFrom (keys_ : list string) : Result RangeError (list Quarter) :=
  match keys_ with
  | [] => Ok []
  | key :: rest =>
      match JsMap.get key revenueSeries with
      | None => buildFrom rest
      | Some revDatum =>
          if negb (isFinite (value revDatum)) then buildFrom rest
          else
            let '(yr, qt) := parseQuarterKey key in
            iso <-- toISOString (periodEndOf revDatum yr qt) ;;
            more <-- buildFrom rest ;;
            Ok (recordOf key iso revDatum yr qt :: more)
      end
  end.

Definition buildQuarterRecords : Result RangeError (list Quarter) :=
  buildFrom (slice 0 16 (sort quarterSortDesc (JsMap.keys revenueSeries))).
End Build.

(** The record [q] is the one built for [key]: from a revenue datum with a
    finite value and an end date that reads as the moment [m]. *)
Definition builtFor (parse : string -> Dayjs) (revenueSeries : JsMap.t QuarterDatum)
    (metricSeries : MetricSeries) (key : string) (q : Quarter) : Prop :=
  exists revDatum e m,
    JsMap.get key revenueSeries = Some revDatum /\
    isFinite (value revDatum) = true /\
    d_end revDatum = Some e /\ parse e = Some m /\
    q = recordOf metricSeries key (isoString m) revDatum
          (fst (parseQuarterKey key)) (snd (parseQuarterKey key)).

(** The revenue datum of [key] has a finite value. *)
Definition hasRevenue (revenueSeries : JsMap.t QuarterDatum) (key : string) : bool :=
  match JsMap.get key revenueSeries with
  | Some revDatum => isFinite (value revDatum)
  | None => false
  end.

(** [buildQuarterRecords(...).slice(0, 12)] and then
    [quarters.filter((item) => Number.isFinite(item.revenue)).slice(0, 12)] *)
Definition validQuartersOf (built : list Quarter) : list Quarter :=
  slice 0 12 (filter (fun item => isFinite (revenue item)) (slice 0 12 built)).

Definition needsSupplement (validQuarters : list Quarter) : bool :=
  existsb (fun item => negb (isFinite (capex item)) || negb (isFinite (ocf item)))
          validQuarters.

(** [`${dayjs(q.period).year()}Q${dayjs(q.period).quarter()}`] *)
Definition calendarKey (parse : string -> Dayjs) (q : Quarter) : string :=
  Scoring.labelOf (parse (period q)).

(** [finnhubMap]: the last quarter of each calendar key stays. *)
Definition finnhubMapOf (parse : string -> Dayjs) (qs : list Quarter)
  : JsMap.t Quarter :=
  fold_left (fun finnhubMap q => JsMap.set (calendarKey parse q) q finnhubMap)
            qs JsMap.empty.

(** The body of [for (const quarter of validQuarters)]: the two guarded
    assignments on the quarter. *)
Definition supplemented (parse : string -> Dayjs) (finnhubMap : JsMap.t Quarter)
    (quarter : Quarter) : Quarter :=
  match JsMap.get (calendarKey parse quarter) finnhubMap with
  | None => quarter
  | Some fallbackQuarter =>
      {| period := period quarter;
         revenue := revenue quarter;
         grossProfit := grossProfit quarter;
         sga := sga quarter;
         rnd := rnd quarter;
         ocf := if negb (isFinite (ocf quarter)) && isFinite (ocf fallbackQuarter)
                then ocf fallbackQuarter else ocf quarter;
         capex := if negb (isFinite (capex quarter)) && isFinite (capex fallbackQuarter)
                  then JsNum.abs (capex fallbackQuarter) else capex quarter;
         inventory := inventory quarter;
         receivables := receivables quarter;
         cash := cash quarter;
         totalDebt := totalDebt quarter;
         dilutedShares := dilutedShares quarter;
         ebitda := ebitda quarter;
         netIncome := netIncome quarter;
         fiscalYear := fiscalYear quarter;
         fiscalQuarter := fiscalQuarter quarter |}
  end.

(** [s] is [q] with nothing changed but, possibly, a missing operating cash
    flow or capital expenditure filled in, the latter with a value that is
    not negative. *)
Definition onlyFills (q s : Quarter) : Prop :=
  s = {| period := period q; revenue := revenue q; grossProfit := grossProfit q;
         sga := sga q; rnd := rnd q; ocf := ocf s; capex := capex s;
         inventory := inventory q; receivables := receivables q; cash := cash q;
         totalDebt := totalDebt q; dilutedShares := dilutedShares q;
         ebitda := ebitda q; netIncome := netIncome q;
         fiscalYear := fiscalYear q; fiscalQuarter := fiscalQuarter q |} /\
  (isFinite (ocf q) = true -> ocf s = ocf q) /\
  (isFinite (capex q) = true -> capex s = capex q) /\
  (ocf s = ocf q \/ isFinite (ocf s) = true) /\
  (capex s = capex q \/ (capex s >=? n0)%num = true).

(** The steps of [fetchFromSec] from the built records on.  The calls that
    reach the outside world in between (the Finnhub profile and, when a
    supplement is needed, the Finnhub adapter) are represented by what they
    leave: the market capitalisation read from the profile ([undefined] is
    [None]) and [finnhubFallback] ([null] is [None]).  The token check and a
    failing profile call, which throw on their own, are not part of it. *)
Definition finishSec (parse : string -> Dayjs) (symbol : string)
    (built : list Quarter) (marketCap_ : option num)
    (finnhubFallback : option Fundamentals)
  : Result Http.ProviderError Fundamentals :=
  let validQuarters := validQuartersOf built in
  if (List.length validQuarters <? 8)%nat then
    Throw (Http.createProviderError "SEC" "SEC 財報不足八季。" true
             (Some "insufficient-data"))
  else
    match marketCap_ with
    | None =>
        Throw (Http.createProviderError "SEC" "無法從 Finnhub 取得市值。" true
                 (Some "missing-marketcap"))
    | Some mc =>
        if negb (isFinite mc) then
          Throw (Http.createProviderError "SEC" "無法從 Finnhub 取得市值。" true
                   (Some "missing-marketcap"))
        else
          let quarters_ :=
            match finnhubFallback with
            | Some fb =>
                if needsSupplement validQuarters then
                  map (supplemented parse (finnhubMapOf parse (quarters fb)))
                      validQuarters
                else validQuarters
            | None => validQuarters
            end in
          Ok {| ticker := symbol; marketCap := mc; quarters := quarters_ |}
    end.

(** A revenue series of three quarters, one of them without a finite value,
    and metric series that know the cash flow of one quarter only. *)
Definition sampleRevenue : JsMap.t QuarterDatum :=
  [("2023Q4", {| value := ofZ 300; d_end := Some "2023-12-31T00:00:00.000Z";
                 d_filed := Some "2024-02-01"; d_start := None |});
   ("2024Q1", {| value := ofZ 320; d_end := Some "2024-03-31T00:00:00.000Z";
                 d_filed := Some "2024-05-01"; d_start := None |});
   ("2023Q3", {| value := NaN; d_end := Some "2023-09-30T00:00:00.000Z";
                 d_filed := Some "2023-11-01"; d_start := None |})].

Definition sampleMetrics : MetricSeries :=
  {| m_grossProfit := []; m_sga := []; m_rnd := [];
     m_ocf := [("2024Q1", {| value := ofZ 40; d_end := None; d_filed := None;
                             d_start := None |})];
     m_capex := []; m_inventory := []; m_receivables := [];
     m_cash := None; m_debtTotal := None;
     m_debtCurrent := Some [("2024Q1", {| value := ofZ 7; d_end := None;
                                          d_filed := None; d_start := None |})];
     m_debtNoncurrent := None;
     m_dilutedShares := []; m_ebitda := None; m_netIncome := None |}.

End Records.

(* ------------------------------------------------------------------ *)
(** ** JSON values and the readers of the adapters
       ([safeNum], [firstDefined], [extractConcept]) *)

Module Json.

(** A parsed JSON value; the members of an object in enumeration order.
    [undefined] (an absent member) is [None] of [option Value]. *)
#[warnings="-register-all"]
Inductive Value : Type :=
| Null
| Bool (b : bool)
| Num (n : num)
| Text (s : string)
| Arr (items : list Value)
| Obj (members : JsMap.t Value).

(** [v?.name] for a name that is no built-in property: the member of an
    object, [undefined] on anything else. *)
Definition member (name : string) (v : Value) : option Value :=
  match v with
  | Obj members => JsMap.get name members
  | _ => None
  end.

Section Readers.
(** [Number(value)] *)
Variable Number_ : Value -> num.

(** [safeNum(value)] *)
Definition safeNum (value : option Value) : option num :=
  match value with
  | None => None
  | Some Null => None
  | Some v =>
      if match v with Text s => String.eqb (Str.trim s) "" | _ => false end
      then None
      else
        let num_ := Number_ v in
        if isFinite num_ then Some num_ else None
  end.

(** [firstDefined(record, keys)] on a record or [undefined] *)
Fixpoint firstDefinedIn (record : JsMap.t Value) (keys_ : list string)
  : option Value :=
  match keys_ with
  | [] => None
  | key :: rest =>
      match JsMap.get key record with
      | Some Null | None => firstDefinedIn record rest
      | Some v => Some v
      end
  end.

Definition firstDefined (record : option (JsMap.t Value)) (keys_ : list string)
  : option Value :=
  match record with
  | None => None
  | Some r => firstDefinedIn r keys_
  end.

(** [item?.concept === concept] *)
Definition hasConcept (concept : string) (item : Value) : bool :=
  match member "concept" item with
  | Some (Text s) => String.eqb s concept
  | _ => false
  end.

(** The loop [for (const concept of concepts)] of [extractConcept]. *)
Fixpoint extractFrom (section : list Value) (concepts_ : list string) : option num :=
  match concepts_ with
  | [] => None
  | concept :: rest =>
      match find (hasConcept concept) section with
      | None => extractFrom section rest
      | Some match_ =>
          match safeNum (member "value" match_) with
          | Some value => Some value
          | None => extractFrom section rest
          end
      end
  end.

(** [extractConcept(section, concepts)]; [section] is an array or
    [undefined]. *)
Definition extractConcept (section : option (list Value)) (concepts_ : list string)
  : option num :=
  match section with
  | None => None
  | Some items => extractFrom items concepts_
  end.

(** What a concept yields on its own: the number read from the first item
    that carries it. *)
Definition yields (section : list Value) (concept : string) : option num :=
  match find (hasConcept concept) section with
  | None => None
  | Some match_ => safeNum (member "value" match_)
  end.
End Readers.

(** [Number(value)] on numbers, booleans and [null]; on the texts of decimal
    digits as [numberOfDigits] reads them; [NaN] on the rest, which the
    examples do not use. *)
Definition numberOfValue (v : Value) : num :=
  match v with
  | Null => n0
  | Bool b => if b then n1 else n0
  | Num n => n
  | Text s => Xbrl.numberOfDigits (Str.trim s)
  | Arr _ | Obj _ => NaN
  end.

(** An income statement section: the first item of the revenue concept has
    no number, a second one has, and so has the sales concept. *)
Definition incomeSection : list Value :=
  [ Obj [("concept", Text "us-gaap_Revenues"); ("value", Text "N/A")];
    Obj [("concept", Text "us-gaap_Revenues"); ("value", Num (ofZ 120))];
    Null;
    Obj [("concept", Text "us-gaap_SalesRevenueNet"); ("value", Text " 115 ")] ].

End Json.

(* ------------------------------------------------------------------ *)
(** ** The ticker table of the SEC adapter
       ([getSecUserAgent], [loadSecTickerCache], [getCikForTicker]) *)

Module Tickers.
Import Http Json.

(** [s.padStart(w, "0")] *)
Fixpoint zeros (k : nat) : string :=
  match k with O => "" | S k' => String "0" (zeros k') end.

Definition padStart (w : nat) (s : string) : string :=
  zeros (w - String.length s) ++ s.

(** [typeof entry?.ticker === "string" ? entry.ticker.toUpperCase() : null] *)
Definition tickerOfEntry (entry : Value) : option string :=
  match member "ticker" entry with
  | Some (Text s) => Some (Str.toUpperCase s)
  | _ => None
  end.

(** [typeof entry?.cik_str === "number"
      ? entry.cik_str.toString().padStart(10, "0") : null] *)
Definition cikOfEntry (entry : Value) : option string :=
  match member "cik_str" entry with
  | Some (Num n) => Some (padStart 10 (showNum n))
  | _ => None
  end.

(** [if (ticker && cik) map.set(ticker, cik)] *)
Definition addEntry (map_ : JsMap.t string) (entry : Value) : JsMap.t string :=
  match tickerOfEntry entry, cikOfEntry entry with
  | Some ticker, Some cik =>
      if String.eqb ticker "" || String.eqb cik "" then map_
      else JsMap.set ticker cik map_
  | _, _ => map_
  end.

(** The map built from the ticker document: from the entries of an array,
    or from the values of an object. *)
Definition tableOf (data : option Value) : JsMap.t string :=
  match data with
  | Some (Arr items) => fold_left addEntry items JsMap.empty
  | Some (Obj members) => fold_left addEntry (JsMap.values members) JsMap.empty
  | _ => JsMap.empty
  end.

Section Cache.
(** The outside world: [process.env.SEC_USER_AGENT], and what
    [fetch(SEC_TICKER_URL, { headers })] does under a given user agent. *)
Variable World : Type.
Variable userAgentOf : World -> option string.
Variable fetchTickers : string -> World -> FetchOutcome Value * World.

(** The module variable [secTickerCache] ([null] is [None]) beside the
    world. *)
Record State : Type := mkState {
  secTickerCache : option (JsMap.t string);
  outside        : World
}.

Definition getSecUserAgent (w : World) : Result ProviderError string :=
  let missing :=
    createProviderError "SEC" "SEC_USER_AGENT 未設定。請提供聯絡資訊以呼叫 SEC API。" true
      (Some "missing-user-agent") in
  match userAgentOf w with
  | None => Throw missing
  | Some userAgent =>
      if String.eqb userAgent "" || String.eqb (Str.trim userAgent) ""
      then Throw missing
      else Ok (Str.trim userAgent)
  end.

Definition loadSecTickerCache (st : State)
  : Result ProviderError (JsMap.t string) * State :=
  match secTickerCache st with
  | Some cached => (Ok cached, st)
  | None =>
      match getSecUserAgent (outside st) with
      | Throw e => (Throw e, st)
      | Ok userAgent =>
          let '(outcome, w) := fetchTickers userAgent (outside st) in
          match fetchJsonWithHeaders outcome with
          | Throw e => (Throw e, {| secTickerCache := None; outside := w |})
          | Ok data =>
              let map_ := tableOf data in
              if (JsMap.size map_ =? 0)%nat then
                (Throw (createProviderError "SEC" "無法載入 SEC 公司代號對照表。" true
                          (Some "ticker-list-empty")),
                 {| secTickerCache := None; outside := w |})
              else (Ok map_, {| secTickerCache := Some map_; outside := w |})
          end
      end
  end.

Definition getCikForTicker (ticker_ : string) (st : State)
  : Result ProviderError string * State :=
  match loadSecTickerCache st with
  | (Throw e, st') => (Throw e, st')
  | (Ok map_, st') =>
      let unknown :=
        createProviderError "SEC" ("找不到 " ++ ticker_ ++ " 的 CIK。") true
          (Some "unknown-ticker") in
      match JsMap.get ticker_ map_ with
      | Some cik => if String.eqb cik "" then (Throw unknown, st') else (Ok cik, st')
      | None => (Throw unknown, st')
      end
  end.
End Cache.

(** A ticker document of two companies, the second listed twice; a world
    that counts the calls of [fetch] and always answers with it. *)
Definition tickerDocument : Value :=
  Obj [("0", Obj [("cik_str", Num (ofZ 320193)); ("ticker", Text "aapl")]);
       ("1", Obj [("cik_str", Num (ofZ 1)); ("ticker", Text "NVDA")]);
       ("2", Obj [("cik_str", Num (ofZ 1045810)); ("ticker", Text "NVDA")]);
       ("3", Obj [("ticker", Text "MSFT")])].

Definition countingFetch (userAgent : string) (calls : nat)
  : FetchOutcome Value * nat :=
  (Responded {| status := 200; statusText := "OK"; body := JsonBody tickerDocument |},
   S calls).

End Tickers.

(* ================================================================== *)
(** * Properties *)

(* ------------------------------------------------------------------ *)
(** ** Facts about [JsMap] *)

Module JsMapFacts.
Section WithValue.
Context {V : Type}.
Implicit Types (k : string) (v : V) (m : JsMap.t V).

Lemma get_set_same k v m : JsMap.get k (JsMap.set k v m) = Some v.
Proof.
  induction m as [|[k' v'] r IH]; simpl.
  - now rewrite String.eqb_refl.
  - destruct (String.eqb k k') eqn:E; simpl; rewrite ?E, ?String.eqb_refl; auto.
Qed.

Lemma get_set_other k k' v m :
  k <> k' -> JsMap.get k' (JsMap.set k v m) = JsMap.get k' m.
Proof.
  intros Hne. induction m as [|[k0 v0] r IH]; simpl.
  - destruct (String.eqb k' k) eqn:E; auto.
    apply String.eqb_eq in E. congruence.
  - destruct (String.eqb k k0) eqn:E; simpl.
    + apply String.eqb_eq in E. subst k0.
      destruct (String.eqb k' k) eqn:E'; auto.
      apply String.eqb_eq in E'. congruence.
    + now rewrite IH.
Qed.

Lemma set_set k v v' m : JsMap.set k v' (JsMap.set k v m) = JsMap.set k v' m.
Proof.
  induction m as [|[k0 v0] r IH]; simpl.
  - now rewrite String.eqb_refl.
  - destruct (String.eqb k k0) eqn:E; simpl; rewrite ?E, ?String.eqb_refl; auto.
    now rewrite IH.
Qed.

Lemma has_get k m :
  JsMap.has k m = match JsMap.get k m with Some _ => true | None => false end.
Proof. reflexivity. Qed.

Lemma has_false_get k m : JsMap.has k m = false <-> JsMap.get k m = None.
Proof. unfold JsMap.has. destruct (JsMap.get k m); split; congruence. Qed.

Lemma In_keys_get k m : In k (JsMap.keys m) <-> JsMap.get k m <> None.
Proof.
  unfold JsMap.keys. induction m as [|[k0 v0] r IH]; simpl.
  - split; [tauto | congruence].
  - destruct (String.eqb k k0) eqn:E.
    + apply String.eqb_eq in E. subst. split; [congruence | auto].
    + rewrite <- IH. apply String.eqb_neq in E.
      split; [intros [H|H] | auto]; congruence || auto.
Qed.
End WithValue.
End JsMapFacts.

(* ------------------------------------------------------------------ *)
(** ** Quarter merge layer *)

Module MergeFacts.
Import Merge.

Lemma assignFinite_idem old p : assignFinite (assignFinite old p) p = assignFinite old p.
Proof. destruct p as [v|]; simpl; auto. destruct (isFinite v); auto. Qed.

Lemma assignFiniteO_idem old p :
  assignFiniteO (assignFiniteO old p) p = assignFiniteO old p.
Proof. destruct p as [v|]; simpl; auto. destruct (isFinite v); auto. Qed.

Lemma assignDefined_idem old p :
  assignDefined (assignDefined old p) p = assignDefined old p.
Proof. destruct p; reflexivity. Qed.

Lemma patched_idem q p : patched (patched q p) p = patched q p.
Proof.
  unfold patched; simpl.
  now rewrite !assignFinite_idem, !assignFiniteO_idem, !assignDefined_idem.
Qed.

(** C9.  Applying the same patch to the same period key twice leaves the
    store, and so the stored [Quarter] record, as one application leaves
    it; this holds for every store, key (also [null] or empty) and patch. *)
Theorem applyPatch_idempotent
    (byDate : JsMap.t Quarter) (iso : option string) (patch : QuarterPatch) :
  let once := applyPatch byDate iso patch in
  let twice := applyPatch once iso patch in
  twice = once /\
  forall k, JsMap.get k twice = JsMap.get k once.
Proof.
  cbv zeta.
  assert (H : applyPatch (applyPatch byDate iso patch) iso patch
              = applyPatch byDate iso patch).
  { unfold applyPatch. destruct iso as [k|]; [|reflexivity].
    destruct (String.eqb k "") eqn:Ek; [reflexivity|].
    unfold ensureQuarter.
    destruct (JsMap.get k byDate) as [existing|] eqn:G.
    - rewrite JsMapFacts.get_set_same, patched_idem.
      apply JsMapFacts.set_set.
    - rewrite !JsMapFacts.set_set, JsMapFacts.get_set_same, patched_idem.
      apply JsMapFacts.set_set. }
  split; [exact H | intros k; now rewrite H].
Qed.

End MergeFacts.

(* ------------------------------------------------------------------ *)
(** ** Facts about [sort] *)

Module JsArrayFacts.
Section Sort.
Context {A : Type} (cmp : A -> A -> num).

Lemma insert_perm x l : Permutation (insert cmp x l) (x :: l).
Proof.
  induction l as [|y r IH]; simpl; [reflexivity|].
  destruct (cmp x y >? n0)%num; [|reflexivity].
  rewrite IH. apply perm_swap.
Qed.

Lemma sort_perm l : Permutation (sort cmp l) l.
Proof.
  induction l as [|x r IH]; simpl; [reflexivity|].
  rewrite insert_perm. now constructor.
Qed.

Lemma In_sort x l : In x (sort cmp l) <-> In x l.
Proof.
  split; apply Permutation_in; [apply sort_perm | symmetry; apply sort_perm].
Qed.

Lemma length_sort l : List.length (sort cmp l) = List.length l.
Proof. apply Permutation_length, sort_perm. Qed.

(** Where the comparator orders the elements by a key, largest first, the
    sorted array is in that order. *)
Section Keyed.
Variable P : A -> Prop.
Variable rank : A -> Z.
Hypothesis cmp_rank :
  forall x y, P x -> P y -> (cmp x y >? n0)%num = (rank x <? rank y).

Let desc (a b : A) : Prop := rank b <= rank a.

Lemma insert_sorted x l :
  P x -> Forall P l -> StronglySorted desc l ->
  StronglySorted desc (insert cmp x l).
Proof.
  intros Px Pl Hs. induction l as [|y r IH]; simpl.
  - repeat constructor.
  - inversion Pl as [|? ? Py Pr]; subst.
    inversion Hs as [|? ? Hsr Hall]; subst.
    rewrite (cmp_rank x y Px Py).
    destruct (rank x <? rank y) eqn:E.
    + apply Z.ltb_lt in E. constructor; [now apply IH|].
      eapply Permutation_Forall; [symmetry; apply insert_perm|].
      constructor; [unfold desc; lia | assumption].
    + apply Z.ltb_ge in E. constructor; [assumption|].
      constructor; [exact E|].
      eapply Forall_impl; [|exact Hall]. unfold desc. intros; lia.
Qed.

Lemma sort_sorted l : Forall P l -> StronglySorted desc (sort cmp l).
Proof.
  induction l as [|x r IH]; intros Pl; simpl; [constructor|].
  inversion Pl; subst. apply insert_sorted; auto.
  eapply Permutation_Forall; [symmetry; apply sort_perm | assumption].
Qed.

Lemma filter_sorted (keep : A -> bool) l :
  StronglySorted desc l -> StronglySorted desc (filter keep l).
Proof.
  induction 1 as [|x r Hs IH Hall]; simpl; [constructor|].
  destruct (keep x); [|assumption].
  constructor; [assumption|].
  apply Forall_forall. intros y Hy. apply filter_In in Hy.
  rewrite Forall_forall in Hall. apply Hall, Hy.
Qed.

Lemma sorted_head_max x l :
  StronglySorted desc (x :: l) -> forall y, In y (x :: l) -> rank y <= rank x.
Proof.
  intros Hs y [<-|Hy]; [lia|].
  inversion Hs as [|? ? _ Hall]; subst.
  rewrite Forall_forall in Hall. now apply Hall.
Qed.
End Keyed.
End Sort.
End JsArrayFacts.

(* ------------------------------------------------------------------ *)
(** ** Facts about [num] *)

Module JsNumFacts.

Lemma ge_ofZ a b : (ofZ a >=? ofZ b)%num = (b <=? a).
Proof.
  unfold JsNum.ge, JsNum.le, ofZ.
  destruct (b <=? a) eqn:E.
  - apply Qle_bool_iff. rewrite <- Zle_Qle. now apply Z.leb_le.
  - apply Z.leb_gt in E. destruct (Qle_bool (inject_Z b) (inject_Z a)) eqn:Q; auto.
    apply Qle_bool_iff in Q. rewrite <- Zle_Qle in Q. lia.
Qed.

Lemma Qred_inject_Z z : Qred (inject_Z z) = inject_Z z.
Proof. apply Qred_identity. simpl. apply Z.gcd_1_r. Qed.

Lemma sub_ofZ a b : (ofZ a - ofZ b)%num = ofZ (a - b).
Proof.
  unfold JsNum.sub, ofZ. f_equal.
  rewrite <- (Qred_inject_Z (a - b)).
  apply Qred_complete.
  unfold Qminus, Z.sub. now rewrite inject_Z_plus, inject_Z_opp.
Qed.

Lemma gt_ofZ_0 a : (ofZ a >? n0)%num = (0 <? a).
Proof.
  unfold JsNum.gt, JsNum.lt, n0, ofZ.
  destruct (0 <? a) eqn:E.
  - apply Z.ltb_lt in E. apply negb_true_iff.
    destruct (Qle_bool (inject_Z a) (inject_Z 0)) eqn:Q; auto.
    apply Qle_bool_iff in Q. rewrite <- Zle_Qle in Q. lia.
  - apply Z.ltb_ge in E. apply negb_false_iff.
    apply Qle_bool_iff. rewrite <- Zle_Qle. lia.
Qed.

End JsNumFacts.

(* ------------------------------------------------------------------ *)
(** ** XBRL fact extraction *)

Module XbrlFacts.
Import Xbrl.

(** *** The year-to-date step, key by key *)

Section Resolve.
Variable st : Series.

Lemma settled_start : settled st (quarterValues st).
Proof.
  intros k. unfold resolvedAt.
  destruct (JsMap.get k (quarterValues st)) eqn:E; [left | right]; auto.
Qed.

Lemma settled_prior result k :
  settled st result ->
  JsMap.get (priorKey k) (ytdValues st) = None ->
  JsMap.get (priorKey k) result = JsMap.get (priorKey k) (quarterValues st).
Proof.
  intros Hs Hy. destruct (Hs (priorKey k)) as [H|[H H']]; [|congruence].
  rewrite H. unfold resolvedAt. rewrite Hy.
  now destruct (JsMap.get (priorKey k) (quarterValues st)).
Qed.

Lemma resolveKey_step result key :
  settled st result ->
  settled st (resolveKey (ytdValues st) result key) /\
  JsMap.get key (resolveKey (ytdValues st) result key) = resolvedAt st key /\
  (forall k, JsMap.get k result = resolvedAt st k ->
             JsMap.get k (resolveKey (ytdValues st) result key) = resolvedAt st k).
Proof.
  intros Hs. unfold resolveKey.
  destruct (JsMap.has key result) eqn:Hhas.
  - repeat split; auto.
    destruct (Hs key) as [H|[H _]]; auto.
    unfold JsMap.has in Hhas. rewrite H in Hhas. discriminate.
  - apply JsMapFacts.has_false_get in Hhas.
    assert (Hq : JsMap.get key (quarterValues st) = None).
    { destruct (Hs key) as [H|[_ H]]; auto.
      rewrite Hhas in H. unfold resolvedAt in H.
      now destruct (JsMap.get key (quarterValues st)). }
    destruct (JsMap.get key (ytdValues st)) as [current|] eqn:Hy.
    + pose proof (settled_prior result key Hs) as Hp.
      assert (Hfinal : resolvedAt st key = Some (derived st key current)).
      { unfold resolvedAt. now rewrite Hq, Hy. }
      unfold derived, priorDatum, priorKey in Hfinal.
      unfold priorKey in Hp.
      destruct (parseQuarterKey key) as [yr qt]. simpl snd in Hfinal.
      match goal with
      | |- context [JsMap.set key ?d result] =>
          assert (Hd : resolvedAt st key = Some d)
      end.
      { rewrite Hfinal. do 2 f_equal.
        destruct (JsMap.get (showZ yr ++ "Q" ++ showZ (qt - 1)) (ytdValues st)); auto.
        now rewrite Hp. }
      rewrite Hd.
      repeat split.
      * intros k. destruct (String.eqb key k) eqn:E.
        -- apply String.eqb_eq in E. subst k. left.
           now rewrite JsMapFacts.get_set_same.
        -- apply String.eqb_neq in E. rewrite JsMapFacts.get_set_other by assumption.
           apply Hs.
      * apply JsMapFacts.get_set_same.
      * intros k Hk'. destruct (String.eqb key k) eqn:E.
        -- apply String.eqb_eq in E. subst k. rewrite Hd.
           apply JsMapFacts.get_set_same.
        -- apply String.eqb_neq in E. now rewrite JsMapFacts.get_set_other.
    + repeat split; auto.
      rewrite Hhas. unfold resolvedAt. now rewrite Hq, Hy.
Qed.

Lemma resolve_fold keys_ : forall result,
  settled st result ->
  let final := fold_left (resolveKey (ytdValues st)) keys_ result in
  settled st final /\
  forall k, In k keys_ \/ JsMap.get k result = resolvedAt st k ->
            JsMap.get k final = resolvedAt st k.
Proof.
  induction keys_ as [|key rest IH]; intros result Hs; simpl.
  - split; auto. intros k [[]|H]; auto.
  - destruct (resolveKey_step result key Hs) as (Hs' & Hkey & Hmono).
    destruct (IH _ Hs') as (Hf & Hall).
    split; auto.
    intros k [[<-|Hin]|H]; apply Hall; auto.
Qed.

(** Every key of the result of the year-to-date step, characterised
    independently of the order in which the loop visits the keys. *)
Lemma resolveYtd_get : forall k, JsMap.get k (resolveYtd st) = resolvedAt st k.
Proof.
  intros k. unfold resolveYtd.
  destruct (resolve_fold (sort quarterSortAsc (JsMap.keys (ytdValues st))) (quarterValues st) settled_start)
    as (Hf & Hall).
  destruct (JsMap.get k (quarterValues st)) eqn:Hq.
  - apply Hall. right. unfold resolvedAt. now rewrite Hq.
  - destruct (JsMap.get k (ytdValues st)) eqn:Hy.
    + apply Hall. left. apply JsArrayFacts.In_sort.
      apply JsMapFacts.In_keys_get. congruence.
    + destruct (Hf k) as [H|[H _]]; auto.
      rewrite H. unfold resolvedAt. now rewrite Hq, Hy.
Qed.
End Resolve.

(** *** Replacement of a stored datum *)

(** C6.  Where a key already holds a datum and both filing dates parse, the
    stored datum is replaced exactly when the new filing date is not older
    than the stored one; on equal dates the datum seen later stays; no other
    key changes.  (Extraction is a function of the document, the configs and
    the two date readers: nothing else enters a tie.) *)
Theorem updateQuarterDatum_replaces_iff_not_older
    (getTime : string -> num) (m : JsMap.t QuarterDatum) (key : string)
    (existing datum : QuarterDatum) (fe fd : string) (te tn : Z)
    (Hget : JsMap.get key m = Some existing)
    (Hfe : d_filed existing = Some fe) (Hfe' : fe <> "") (Hte : getTime fe = ofZ te)
    (Hfd : d_filed datum = Some fd) (Hfd' : fd <> "") (Htn : getTime fd = ofZ tn) :
  let m' := updateQuarterDatum getTime m key datum in
  JsMap.get key m' = Some (if te <=? tn then datum else existing) /\
  (te = tn -> JsMap.get key m' = Some datum) /\
  (forall k, k <> key -> JsMap.get k m' = JsMap.get k m).
Proof.
  cbv zeta. unfold updateQuarterDatum, filedTime.
  rewrite Hget, Hfe, Hfd.
  apply String.eqb_neq in Hfe'. apply String.eqb_neq in Hfd'.
  rewrite Hfe', Hfd', Hte, Htn, JsNumFacts.ge_ofZ.
  destruct (te <=? tn) eqn:E.
  - rewrite JsMapFacts.get_set_same. repeat split; auto.
    intros k Hk. apply JsMapFacts.get_set_other. congruence.
  - repeat split; auto.
    intros ->. rewrite Z.leb_refl in E. discriminate.
Qed.

(** Two facts of 2024Q1 filed on the same day: the one seen later is kept. *)
Lemma updateQuarterDatum_tie_witness :
  JsMap.get "2024Q1"
    (updateQuarterDatum isoTime Examples.oneQuarter "2024Q1" Examples.seenLater)
  = Some Examples.seenLater.
Proof.
  refine (proj1 (proj2
    (updateQuarterDatum_replaces_iff_not_older isoTime Examples.oneQuarter "2024Q1"
       Examples.storedFirst Examples.seenLater "2024-05-01" "2024-05-01"
       1714521600000 1714521600000
       eq_refl eq_refl _ eq_refl eq_refl _ eq_refl)) eq_refl);
    discriminate.
Defined.

(** *** Year-to-date decomposition *)

(** C4.  In duration mode a key that holds only a year-to-date datum gets,
    whatever the order of the scan, the cumulative value less the value of
    the preceding quarter: that quarter's year-to-date datum when there is
    one, else its quarterly datum; the value is kept when the key is a first
    quarter (or there is nothing to subtract).  Cumulative 100, 250, 400
    give 100, 150, 150. *)
Theorem ytd_only_key_gets_delta
    (st : Series) (key : string) (current : QuarterDatum) (yr qt : Z)
    (Hq : JsMap.get key (quarterValues st) = None)
    (Hy : JsMap.get key (ytdValues st) = Some current)
    (Hk : parseQuarterKey key = (yr, qt)) :
  let prevKey := showZ yr ++ "Q" ++ showZ (qt - 1) in
  (exists d,
     JsMap.get key (resolveYtd st) = Some d /\
     d_end d = d_end current /\ d_filed d = d_filed current /\
     (qt <= 1 -> value d = value current) /\
     (1 < qt -> forall prev, JsMap.get prevKey (ytdValues st) = Some prev ->
                value d = (value current - value prev)%num) /\
     (1 < qt -> JsMap.get prevKey (ytdValues st) = None ->
                forall prev, JsMap.get prevKey (quarterValues st) = Some prev ->
                value d = (value current - value prev)%num) /\
     (1 < qt -> JsMap.get prevKey (ytdValues st) = None ->
                JsMap.get prevKey (quarterValues st) = None ->
                value d = value current)) /\
  Examples.valuesOf (resolveYtd Examples.ytdSeries)
    = [("2024Q1", ofZ 100); ("2024Q2", ofZ 150); ("2024Q3", ofZ 150)] /\
  Examples.valuesOf (resolveYtd Examples.ytdOnlySeries)
    = [("2024Q1", ofZ 100); ("2024Q2", ofZ 150); ("2024Q3", ofZ 150)].
Proof.
  cbv zeta. split; [|split; reflexivity].
  exists (derived st key current).
  rewrite resolveYtd_get. unfold resolvedAt. rewrite Hq, Hy.
  unfold derived, priorDatum, priorKey. rewrite Hk. simpl.
  repeat split.
  - intros Hle. apply Z.ltb_ge in Hle. now rewrite Hle.
  - intros Hlt prev Hp. apply Z.ltb_lt in Hlt. now rewrite Hlt, Hp.
  - intros Hlt Hnone prev Hp. apply Z.ltb_lt in Hlt. now rewrite Hlt, Hnone, Hp.
  - intros Hlt Hnone Hnone'. apply Z.ltb_lt in Hlt. now rewrite Hlt, Hnone, Hnone'.
Qed.

(** The third quarter of the example: 400 less the 250 of the second. *)
Lemma ytd_third_quarter_witness :
  exists d,
    JsMap.get "2024Q3" (resolveYtd Examples.ytdSeries) = Some d /\
    value d = (ofZ 400 - ofZ 250)%num.
Proof.
  destruct (proj1 (ytd_only_key_gets_delta Examples.ytdSeries "2024Q3"
                     (Examples.datumOf 400 "2024-11-01") 2024 3
                     eq_refl eq_refl eq_refl))
    as (d & Hd & _ & _ & _ & Hprev & _).
  exists d. split; [exact Hd|].
  apply (Hprev eq_refl (Examples.datumOf 250 "2024-08-01")). reflexivity.
Defined.

(** *** Facts without a start date *)

(** C10.  In duration mode a fact that passes the filters, whose end date
    resolves and whose start date does not, leaves the quarterly data alone
    and is offered to the year-to-date data under its quarter key.  In the
    result a key with a quarterly datum keeps that datum, so the fact yields
    the entry of its key only when no quarterly fact holds the key, and then
    through the subtraction of the preceding quarter. *)
Theorem fact_without_start_is_year_to_date
    (parse : string -> Dayjs) (getTime Number_ : string -> num)
    (unit : string) (st : Series) (entry : Entry)
    (formName endIso : string) (valueRaw : num) (endDay : Moment)
    (Hform : form entry = Some formName)
    (Hallowed : isAllowedForm formName = true)
    (Hval : safeNum (val entry) = Some valueRaw)
    (Hend : toISODate parse (end_ entry) = Some endIso)
    (HendDay : parse endIso = Some endDay)
    (Hstart : toISODate parse (start entry) = None) :
  let st' := scanEntry parse getTime Number_ duration unit st entry in
  let key := quarterKey (fst (fiscalKey Number_ entry formName endDay))
                        (snd (fiscalKey Number_ entry formName endDay)) in
  let datum :=
    {| value := normalizeValue valueRaw unit;
       d_end := Some (isoString endDay);
       d_filed := Some (match filed entry with
                        | Some f => f
                        | None => isoString endDay
                        end);
       d_start := None |} in
  quarterValues st' = quarterValues st /\
  ytdValues st' = updateQuarterDatum getTime (ytdValues st) key datum /\
  (forall k d, JsMap.get k (quarterValues st') = Some d ->
               JsMap.get k (resolveYtd st') = Some d) /\
  (forall k c, JsMap.get k (quarterValues st') = None ->
               JsMap.get k (ytdValues st') = Some c ->
               JsMap.get k (resolveYtd st') = Some (derived st' k c)).
Proof.
  cbv zeta.
  assert (Hscan :
    scanEntry parse getTime Number_ duration unit st entry
    = {| quarterValues := quarterValues st;
         ytdValues :=
           updateQuarterDatum getTime (ytdValues st)
             (quarterKey (fst (fiscalKey Number_ entry formName endDay))
                         (snd (fiscalKey Number_ entry formName endDay)))
             {| value := normalizeValue valueRaw unit;
                d_end := Some (isoString endDay);
                d_filed := Some (match filed entry with
                                 | Some f => f
                                 | None => isoString endDay
                                 end);
                d_start := None |} |}).
  { unfold scanEntry. rewrite Hform, Hallowed, Hval, Hend, HendDay, Hstart.
    simpl. now destruct (fiscalKey Number_ entry formName endDay). }
  rewrite Hscan. simpl. repeat split.
  - intros k d Hk. rewrite resolveYtd_get. unfold resolvedAt. simpl. now rewrite Hk.
  - intros k c Hk Hc. rewrite resolveYtd_get. unfold resolvedAt. simpl.
    now rewrite Hk, Hc.
Qed.

(** A second-quarter fact without a start date lands in the year-to-date
    data. *)
Lemma fact_without_start_witness :
  let st' := scanEntry isoParse isoTime numberOfDigits duration "USD"
               Examples.emptySeries Examples.factWithoutStart in
  quarterValues st' = [] /\
  Examples.valuesOf (ytdValues st') = [("2024Q2", ofZ 250)].
Proof.
  cbv zeta.
  destruct (fact_without_start_is_year_to_date isoParse isoTime numberOfDigits "USD"
              Examples.emptySeries Examples.factWithoutStart
              "10-Q" "2024-06-30T00:00:00.000Z" (ofZ 250)
              {| year := 2024; month := 5; date := 30; msOfDay := 0 |}
              eq_refl eq_refl eq_refl eq_refl eq_refl eq_refl)
    as (Hq & Hy & _).
  split; [exact Hq|]. rewrite Hy. reflexivity.
Defined.

End XbrlFacts.

(* ------------------------------------------------------------------ *)
(** ** HTTP response handling *)

Module HttpFacts.
Import Http.

(** C8, as stated, fails: a 401 answer whose body is not JSON is reported
    by the FMP adapter with reason "parse", not "unauthorized", the body being
    parsed before the status is read. *)
Lemma unauthorized_html_is_parse_error :
  status Examples.unauthorizedHtml = 401 /\
  exists e,
    handleResponse FMP (Responded Examples.unauthorizedHtml) = Throw e /\
    recoverable e = Some true /\
    reason e = Some "parse" /\
    reason e <> Some "unauthorized".
Proof.
  split; [reflexivity|].
  eexists. split; [reflexivity|].
  repeat split. discriminate.
Qed.

(** C8, amended.  For the two commercial adapters a 401 or 403 answer whose
    body is empty or JSON gives a recoverable error with reason
    "unauthorized".  For the three adapters alike: a rejected request gives
    "network"; a body that is not JSON gives "parse", whatever the status;
    with a readable body, 429 gives "quota", any status from 400 on other
    than 401, 403 and 429 gives "http-" followed by the status, and a status
    below 400 returns the payload.  All these errors are recoverable. *)
Theorem response_handling_contract (Json : Type) :
  (forall (a : Adapter) (r : Response Json),
     a <> SEC -> status r = 401 \/ status r = 403 -> readable (body r) ->
     exists e, handleResponse a (Responded r) = Throw e /\
               recoverable e = Some true /\ reason e = Some "unauthorized" /\
               provider e = Some (adapterName a)) /\
  (forall (a : Adapter) (msg : string),
     exists e, handleResponse (Json := Json) a (Rejected msg) = Throw e /\
               recoverable e = Some true /\ reason e = Some "network") /\
  (forall (a : Adapter) (r : Response Json),
     ~ readable (body r) ->
     exists e, handleResponse a (Responded r) = Throw e /\
               recoverable e = Some true /\ reason e = Some "parse") /\
  (forall (a : Adapter) (r : Response Json),
     status r = 429 -> readable (body r) ->
     exists e, handleResponse a (Responded r) = Throw e /\
               recoverable e = Some true /\ reason e = Some "quota") /\
  (forall (a : Adapter) (r : Response Json),
     400 <= status r -> status r <> 401 -> status r <> 403 -> status r <> 429 ->
     readable (body r) ->
     exists e, handleResponse a (Responded r) = Throw e /\
               recoverable e = Some true /\
               reason e = Some ("http-" ++ showZ (status r))) /\
  (forall (a : Adapter) (r : Response Json),
     status r < 400 -> readable (body r) ->
     handleResponse a (Responded r) = Ok (payloadOf (body r))).
Proof.
  repeat split.
  - intros a [st stx b] Ha Hs Hb; simpl in *.
    destruct a; [congruence| |];
      (destruct b; [| |contradiction]; destruct Hs as [-> | ->];
       eexists; (split; [reflexivity|]); repeat split).
  - intros a msg. destruct a; eexists; (split; [reflexivity|]); split; reflexivity.
  - intros a [st stx b] Hb; simpl in *.
    destruct b; try (exfalso; apply Hb; exact I).
    destruct a; eexists; (split; [reflexivity|]); split; reflexivity.
  - intros a [st stx b] Hs Hb; simpl in *. subst st.
    destruct a; (destruct b; [| |contradiction]);
      eexists; (split; [reflexivity|]); split; reflexivity.
  - intros a [st stx b] H400 H401 H403 H429 Hb; simpl in *.
    assert (E429 : (st =? 429) = false) by now apply Z.eqb_neq.
    assert (E401 : (st =? 401) = false) by now apply Z.eqb_neq.
    assert (E403 : (st =? 403) = false) by now apply Z.eqb_neq.
    assert (E400 : (400 <=? st) = true) by now apply Z.leb_le.
    destruct a; (destruct b; [| |contradiction]);
      unfold handleResponse, fetchJson, fetchJsonWithHeaders; simpl;
      rewrite ?E429, ?E401, ?E403, ?E400; simpl;
      eexists; (split; [reflexivity|]); split; reflexivity.
  - intros a [st stx b] Hlt Hb; simpl in *.
    assert (E429 : (st =? 429) = false) by (apply Z.eqb_neq; lia).
    assert (E401 : (st =? 401) = false) by (apply Z.eqb_neq; lia).
    assert (E403 : (st =? 403) = false) by (apply Z.eqb_neq; lia).
    assert (E400 : (400 <=? st) = false) by (apply Z.leb_gt; lia).
    destruct a; (destruct b; [| |contradiction]);
      unfold handleResponse, fetchJson, fetchJsonWithHeaders; simpl;
      rewrite ?E429, ?E401, ?E403, ?E400; reflexivity.
Qed.

(** A 403 answer without a body, seen by the Finnhub adapter. *)
Lemma forbidden_without_body_witness :
  exists e, handleResponse Finnhub (Responded Examples.forbiddenEmpty) = Throw e /\
            recoverable e = Some true /\ reason e = Some "unauthorized" /\
            provider e = Some "Finnhub".
Proof.
  refine (proj1 (response_handling_contract unit) Finnhub Examples.forbiddenEmpty
            _ (or_intror eq_refl) I).
  discriminate.
Defined.

End HttpFacts.

(* ------------------------------------------------------------------ *)
(** ** Fallback orchestrator *)

Module FallbackFacts.
Import Http Fallback.

(** C2.  [fetchFundamentals] runs the SEC adapter on the incoming world, the
    FMP adapter on the world the SEC adapter leaves, the Finnhub adapter on
    the world the FMP adapter leaves.  The first success is returned and the
    world is the one that adapter left: the later adapters, which may be any
    functions, are not run.  A recoverable error is recorded (and warned
    about) and the next adapter runs; an error that is not recoverable is
    thrown again as it is, at once.  When the three fail recoverably the
    error thrown is not recoverable, has reason "exhausted" and its message
    carries the three recorded messages joined by the delimiter. *)
Theorem fetchFundamentals_fallback
    (World : Type) (sec fmp fin : Handler World) (ticker_ : string) (w : World) :
  let symbol := Str.toUpperCase ticker_ in
  let run := fetchFundamentals World sec fmp fin ticker_ w in
  (forall f w1, sec symbol w = (Ok f, w1) ->
     run = (Ok f, {| world := w1; errors := []; console := [] |})) /\
  (forall e1 w1, sec symbol w = (Throw e1, w1) -> recoverable e1 <> Some true ->
     run = (Throw e1, {| world := w1; errors := [message e1]; console := [warned e1] |})) /\
  (forall e1 w1, sec symbol w = (Throw e1, w1) -> recoverable e1 = Some true ->
     (forall f w2, fmp symbol w1 = (Ok f, w2) ->
        run = (Ok f, {| world := w2; errors := [message e1]; console := [warned e1] |})) /\
     (forall e2 w2, fmp symbol w1 = (Throw e2, w2) -> recoverable e2 <> Some true ->
        run = (Throw e2, {| world := w2; errors := [message e1; message e2];
                            console := [warned e1; warned e2] |})) /\
     (forall e2 w2, fmp symbol w1 = (Throw e2, w2) -> recoverable e2 = Some true ->
        (forall f w3, fin symbol w2 = (Ok f, w3) ->
           run = (Ok f, {| world := w3; errors := [message e1; message e2];
                           console := [warned e1; warned e2] |})) /\
        (forall e3 w3, fin symbol w2 = (Throw e3, w3) -> recoverable e3 <> Some true ->
           run = (Throw e3, {| world := w3;
                               errors := [message e1; message e2; message e3];
                               console := [warned e1; warned e2; warned e3] |})) /\
        (forall e3 w3, fin symbol w2 = (Throw e3, w3) -> recoverable e3 = Some true ->
           exists err,
             run = (Throw err, {| world := w3;
                                  errors := [message e1; message e2; message e3];
                                  console := [warned e1; warned e2; warned e3] |}) /\
             recoverable err = Some false /\
             reason err = Some "exhausted" /\
             provider err = Some "DATA" /\
             message err = "[DATA] 所有外部財報來源皆失敗："
                             ++ message e1 ++ "｜" ++ message e2 ++ "｜" ++ message e3))).
Proof.
  cbv zeta. unfold fetchFundamentals, providers. simpl.
  assert (Hnot : forall (e : ProviderError) (A : Type) (x y : A),
            recoverable e <> Some true ->
            match recoverable e with Some true => x | _ => y end = y).
  { intros e A x y H. destruct (recoverable e) as [[|]|]; congruence. }
  split; [|split].
  - intros f w1 H1. now rewrite H1.
  - intros e1 w1 H1 Hr. rewrite H1. simpl. now rewrite Hnot.
  - intros e1 w1 H1 Hr1. rewrite H1. simpl. rewrite Hr1.
    split; [|split].
    + intros f w2 H2. now rewrite H2.
    + intros e2 w2 H2 Hr. rewrite H2. simpl. now rewrite Hnot.
    + intros e2 w2 H2 Hr2. rewrite H2. simpl. rewrite Hr2.
      split; [|split].
      * intros f w3 H3. now rewrite H3.
      * intros e3 w3 H3 Hr. rewrite H3. simpl. now rewrite Hnot.
      * intros e3 w3 H3 Hr3. rewrite H3. simpl. rewrite Hr3.
        eexists. split; [reflexivity|]. repeat split.
Qed.

(** Adapter A fails with "quota", adapter B with "missing-key", adapter C
    answers: the answer of C comes back, after the three ran in order. *)
Lemma fallback_third_adapter_witness :
  fetchFundamentals (list string)
    (Examples.answering "SEC" (Throw Examples.quotaError))
    (Examples.answering "FMP" (Throw Examples.missingKeyError))
    (Examples.answering "Finnhub" (Ok Examples.finnhubAnswer))
    "nvda" []
  = (Ok Examples.finnhubAnswer,
     {| world := ["SEC"; "FMP"; "Finnhub"];
        errors := [message Examples.quotaError; message Examples.missingKeyError];
        console := [warned Examples.quotaError; warned Examples.missingKeyError] |}).
Proof.
  destruct (fetchFundamentals_fallback (list string)
              (Examples.answering "SEC" (Throw Examples.quotaError))
              (Examples.answering "FMP" (Throw Examples.missingKeyError))
              (Examples.answering "Finnhub" (Ok Examples.finnhubAnswer))
              "nvda" []) as (_ & _ & Hsec).
  destruct (Hsec Examples.quotaError ["SEC"] eq_refl eq_refl) as (_ & _ & Hfmp).
  destruct (Hfmp Examples.missingKeyError ["SEC"; "FMP"] eq_refl eq_refl) as (Hfin & _).
  exact (Hfin Examples.finnhubAnswer ["SEC"; "FMP"; "Finnhub"] eq_refl).
Defined.

End FallbackFacts.

(* ------------------------------------------------------------------ *)
(** ** Facts about the dayjs operations *)

Module DayjsFacts.

Lemma inRange_bounded m : bounded 270000 m -> inRange m = true.
Proof.
  intros (Hy & Hm & Hd & Ht).
  unfold inRange, timeOf, daysFromCivil, msPerDay, maxTime in *.
  apply andb_true_iff. rewrite !Z.leb_le.
  destruct (month m + 1 <=? 2) eqn:E1; destruct (2 <? month m + 1) eqn:E2;
    rewrite ?Z.leb_le, ?Z.leb_gt, ?Z.ltb_lt, ?Z.ltb_ge in *;
    Z.to_euclidean_division_equations; lia.
Qed.

Lemma mk_bounded m : bounded 270000 m -> mk m = Some m.
Proof. intros H. unfold mk. now rewrite inRange_bounded. Qed.

Lemma bounded_weaken B B' m : B <= B' -> bounded B m -> bounded B' m.
Proof. unfold bounded. intros; lia. Qed.

Lemma daysInMonth_bounds y mo : 28 <= daysInMonth y mo <= 31.
Proof.
  unfold daysInMonth.
  destruct (mo =? 1); [destruct (isLeap y); lia|].
  destruct ((mo =? 3) || (mo =? 5) || (mo =? 8) || (mo =? 10)); lia.
Qed.

Lemma ctorYear_bounds B y : 1999 <= B -> - B <= y <= B -> - B <= ctorYear y <= B.
Proof.
  intros HB Hy. unfold ctorYear.
  destruct ((0 <=? y) && (y <=? 99)) eqn:E; [|lia].
  apply andb_true_iff in E. rewrite !Z.leb_le in E. lia.
Qed.

Lemma setMonth_bounded B m arg :
  bounded B m -> 0 <= B -> B + 1 <= 270000 -> -12 <= arg <= 23 ->
  exists m',
    setMonth m arg = Some m' /\
    year m' = year m + arg / 12 /\ month m' = arg mod 12 /\
    bounded (B + 1) m'.
Proof.
  intros (Hy & Hm & Hd & Ht) HB HB' Harg.
  assert (Hq : -1 <= arg / 12 <= 1) by (Z.to_euclidean_division_equations; lia).
  assert (Hr : 0 <= arg mod 12 <= 11) by (Z.to_euclidean_division_equations; lia).
  pose proof (daysInMonth_bounds (ctorYear (year m + arg / 12)) (arg mod 12)) as Hdim.
  pose proof (ctorYear_bounds 270000 (year m + arg / 12) ltac:(lia) ltac:(lia)) as Hc.
  unfold setMonth, endOfMonth.
  rewrite mk_bounded by (unfold bounded; simpl; lia).
  rewrite mk_bounded by (unfold bounded; simpl; lia).
  cbn [year month date msOfDay].
  rewrite mk_bounded by (unfold bounded, msPerDay; simpl; lia).
  cbn [year month date msOfDay].
  rewrite mk_bounded by (unfold bounded; simpl; lia).
  eexists. split; [reflexivity|]. unfold bounded. simpl.
  repeat split; lia.
Qed.

Lemma ctorYear_from_100 y : 100 <= y -> ctorYear y = y.
Proof.
  intros Hy. unfold ctorYear.
  replace (y <=? 99) with false by (symmetry; apply Z.leb_gt; lia).
  now rewrite andb_false_r.
Qed.

Lemma endOfQuarter_bounded B m :
  bounded B m -> 1999 <= B -> B + 1 <= 270000 ->
  exists m',
    endOfQuarter (Some m) = Some m' /\
    year m' = ctorYear (year m) /\
    quarterOfMonth (month m') = quarterOfMonth (month m) /\
    bounded (B + 1) m'.
Proof.
  intros Hb HB HB'. pose proof Hb as (Hy & Hm & Hd & Ht).
  unfold endOfQuarter.
  assert (Harg : 2 <= (quarterOfMonth (month m) - 1) * 3 + 2 <= 11)
    by (unfold quarterOfMonth; Z.to_euclidean_division_equations; lia).
  destruct (setMonth_bounded B m ((quarterOfMonth (month m) - 1) * 3 + 2)
              Hb ltac:(lia) HB' ltac:(lia))
    as (m1 & -> & Hy1 & Hm1 & Hb1).
  rewrite Z.div_small in Hy1 by lia. rewrite Z.mod_small in Hm1 by lia.
  pose proof (ctorYear_bounds B (year m1) HB ltac:(lia)) as Hc.
  pose proof (daysInMonth_bounds (ctorYear (year m1)) (month m1)) as Hdim.
  unfold endOfMonth.
  rewrite mk_bounded
    by (unfold bounded, msPerDay; simpl; destruct Hb1 as (_ & ? & _ & _); lia).
  eexists. split; [reflexivity|]. simpl.
  split; [f_equal; lia|]. split.
  - rewrite Hm1. unfold quarterOfMonth. Z.to_euclidean_division_equations; lia.
  - unfold bounded, msPerDay; simpl. destruct Hb1 as (_ & ? & _ & _). lia.
Qed.

Lemma subtractQuarter_bounded B m :
  bounded B m -> 0 <= B -> B + 1 <= 270000 ->
  exists m', subtractQuarter (Some m) = Some m' /\ bounded (B + 1) m'.
Proof.
  intros Hb HB HB'. pose proof Hb as (Hy & Hm & Hd & Ht).
  destruct (setMonth_bounded B m (month m - 3) Hb HB HB' ltac:(lia))
    as (m' & E & _ & _ & Hb').
  exists m'. now split.
Qed.

End DayjsFacts.

(* ------------------------------------------------------------------ *)
(** ** Scoring engine: the timeline *)

Module TimelineFacts.
Import Scoring.

Section WithDayjs.
Variable parse : string -> Dayjs.

(** The period of the quarter parses. *)
Let readable (q : Quarter) : Prop := exists m, parse (period q) = Some m.

Lemma byPeriodDesc_rank x y :
  readable x -> readable y ->
  (byPeriodDesc parse x y >? n0)%num = (periodTime parse x <? periodTime parse y).
Proof.
  intros [mx Hx] [my Hy]. unfold byPeriodDesc, periodTime. rewrite Hx, Hy. unfold valueOf.
  rewrite JsNumFacts.sub_ofZ, JsNumFacts.gt_ofZ_0.
  destruct (timeOf mx <? timeOf my) eqn:E.
  - apply Z.ltb_lt in E. apply Z.ltb_lt. lia.
  - apply Z.ltb_ge in E. apply Z.ltb_ge. lia.
Qed.

Lemma sorted_perm f : Permutation (sorted parse f) (quarters f).
Proof. apply JsArrayFacts.sort_perm. Qed.

Lemma sorted_newestFirst f :
  Forall readable (quarters f) ->
  StronglySorted (newestFirst parse) (sorted parse f).
Proof.
  intros H.
  apply (JsArrayFacts.sort_sorted (byPeriodDesc parse) readable (periodTime parse)
           byPeriodDesc_rank _ H).
Qed.

Lemma filter_perm {A} (keep : A -> bool) (l l' : list A) :
  Permutation l l' -> Permutation (filter keep l) (filter keep l').
Proof.
  induction 1 as [|x l l' _ IH|x y l|l l' l'' _ IH1 _ IH2]; simpl.
  - constructor.
  - destruct (keep x); [now constructor | assumption].
  - destruct (keep x), (keep y); try reflexivity. apply perm_swap.
  - now transitivity (filter keep l').
Qed.

Lemma usable_perm today f :
  Permutation (usable parse today f) (filter (nonFuture parse today) (quarters f)).
Proof. unfold usable. apply filter_perm, sorted_perm. Qed.

Lemma usable_newestFirst today f :
  Forall readable (quarters f) ->
  StronglySorted (newestFirst parse) (usable parse today f).
Proof.
  intros H. unfold usable.
  apply (JsArrayFacts.filter_sorted (periodTime parse)), sorted_newestFirst, H.
Qed.

(** The known quarters: those not in the future when there are four of
    them, all of them otherwise; most recent first. *)
Lemma base_spec today f :
  Forall readable (quarters f) ->
  Permutation (base parse today f)
    (if (4 <=? List.length (filter (nonFuture parse today) (quarters f)))%nat
     then filter (nonFuture parse today) (quarters f) else quarters f) /\
  StronglySorted (newestFirst parse) (base parse today f).
Proof.
  intros H. unfold base.
  rewrite (Permutation_length (usable_perm today f)).
  destruct (4 <=? List.length (filter (nonFuture parse today) (quarters f)))%nat.
  - split; [apply usable_perm | now apply usable_newestFirst].
  - split; [apply sorted_perm | now apply sorted_newestFirst].
Qed.

Lemma latestKnown_head today f : latestKnown parse today f = hd_error (base parse today f).
Proof.
  unfold latestKnown. destruct (base parse today f) eqn:E; [|reflexivity].
  unfold base in E.
  destruct (4 <=? List.length (usable parse today f))%nat eqn:L.
  - rewrite E in L. discriminate.
  - now rewrite E.
Qed.

(** [labelMap.get(label)] is the first record with that calendar label. *)
Lemma buildLabelMap_get records l :
  JsMap.get l (buildLabelMap parse records)
  = find (fun q => String.eqb (toCalendarQuarterLabel parse (period q)) l) records.
Proof.
  unfold buildLabelMap.
  assert (G : forall acc,
    JsMap.get l
      (fold_left
         (fun labelMap record =>
            let calLabel := toCalendarQuarterLabel parse (period record) in
            if JsMap.has calLabel labelMap then labelMap
            else JsMap.set calLabel record labelMap) records acc)
    = match JsMap.get l acc with
      | Some q => Some q
      | None => find (fun q => String.eqb (toCalendarQuarterLabel parse (period q)) l)
                     records
      end).
  { induction records as [|r rest IH]; intros acc; simpl.
    - now destruct (JsMap.get l acc).
    - rewrite IH. clear IH.
      set (c := toCalendarQuarterLabel parse (period r)).
      destruct (String.eqb c l) eqn:E.
      + apply String.eqb_eq in E. subst l.
        unfold JsMap.has. destruct (JsMap.get c acc) eqn:G; [now rewrite G|].
        now rewrite JsMapFacts.get_set_same.
      + apply String.eqb_neq in E.
        destruct (JsMap.has c acc); [reflexivity|].
        now rewrite JsMapFacts.get_set_other. }
  rewrite G. reflexivity.
Qed.

(** From a valid cursor well inside the range of [Date] the loop runs to its
    end: it yields [n] entries, the first labelled by the cursor, each filled
    from the label map or synthesised. *)
Lemma timelineLoop_ok records : forall n B m,
  bounded B m -> 0 <= B -> B + Z.of_nat n <= 270000 ->
  exists tl,
    timelineLoop n (buildLabelMap parse records) (Some m) = Ok tl /\
    List.length tl = n /\
    (n <> O -> option_map label (hd_error tl) = Some (labelOf (Some m))) /\
    Forall (filledFrom parse records) tl.
Proof.
  induction n as [|n IH]; intros B m Hb HB Hn.
  - exists []. simpl. repeat split; auto. congruence.
  - destruct (DayjsFacts.subtractQuarter_bounded B m Hb HB ltac:(lia)) as (m' & Es & Hb').
    destruct (IH (B + 1) m' Hb' ltac:(lia) ltac:(lia)) as (rest & Er & Hl & _ & Hf).
    cbn [timelineLoop]. rewrite Es, Er. unfold timelineStep.
    pose proof (buildLabelMap_get records (labelOf (Some m))) as Hg.
    destruct (JsMap.get (labelOf (Some m)) (buildLabelMap parse records)) as [q|] eqn:G.
    + eexists. split; [reflexivity|]. simpl. repeat split; auto.
      constructor; [|exact Hf].
      unfold filledFrom. simpl. rewrite <- Hg. eauto.
    + eexists. split; [reflexivity|]. simpl. repeat split; auto.
      constructor; [|exact Hf].
      unfold filledFrom. simpl. rewrite <- Hg. eauto.
Qed.

(** With valid periods in an ordinary range the timeline is built: the
    anchor is the end of the quarter of the first known quarter (of the
    present moment when none is known). *)
Lemma timeline_defined today f :
  bounded 200000 today ->
  (forall q, In q (quarters f) -> exists m, parse (period q) = Some m /\ bounded 200000 m) ->
  exists tl m0 m',
    (match base parse today f with
     | q :: _ => parse (period q) = Some m0
     | [] => m0 = today
     end) /\
    bounded 200000 m0 /\
    year m' = ctorYear (year m0) /\
    quarterOfMonth (month m') = quarterOfMonth (month m0) /\
    timeline parse today f = Ok tl /\
    List.length tl = 16%nat /\
    option_map label (hd_error tl) = Some (labelOf (Some m')) /\
    Forall (filledFrom parse (base parse today f)) tl.
Proof.
  intros Htoday Hperiods.
  assert (Hread : Forall readable (quarters f)).
  { apply Forall_forall. intros q Hq. destruct (Hperiods q Hq) as (m & Hm & _).
    now exists m. }
  destruct (base_spec today f Hread) as (Hperm & _).
  assert (Hin : forall q, In q (base parse today f) -> In q (quarters f)).
  { intros q Hq. apply (Permutation_in _ Hperm) in Hq.
    destruct (4 <=? List.length (filter (nonFuture parse today) (quarters f)))%nat; auto.
    now apply filter_In in Hq. }
  assert (Hanchor : exists m0,
    (match base parse today f with
     | q :: _ => parse (period q) = Some m0
     | [] => m0 = today
     end) /\ bounded 200000 m0 /\
    anchorMoment parse today f = endOfQuarter (Some m0)).
  { unfold anchorMoment. rewrite latestKnown_head.
    destruct (base parse today f) as [|q0 rest] eqn:Eb; simpl.
    - exists today. auto.
    - destruct (Hperiods q0 (Hin q0 (or_introl eq_refl))) as (m0 & Hm0 & Hb0).
      exists m0. rewrite Hm0. auto. }
  destruct Hanchor as (m0 & Hsrc & Hb0 & Ha).
  destruct (DayjsFacts.endOfQuarter_bounded 200000 m0 Hb0 ltac:(lia) ltac:(lia))
    as (m' & Ee & Hy & Hq & Hb').
  destruct (timelineLoop_ok (base parse today f) 16 (200000 + 1) m' Hb'
              ltac:(lia) ltac:(simpl; lia))
    as (tl & Et & Hl & Hh & Hf).
  exists tl, m0, m'. unfold timeline, MAX_TIMELINE. rewrite Ha, Ee.
  refine (conj Hsrc (conj Hb0 (conj Hy (conj Hq (conj Et (conj Hl (conj _ Hf))))))).
  apply Hh. discriminate.
Qed.
End WithDayjs.

(** C3, as stated, fails: with one quarter behind the present moment and
    one ahead of it the timeline is anchored at the quarter ahead, although a
    quarter that is not in the future exists. *)
Lemma anchor_not_most_recent_non_future :
  exists tl q,
    timeline isoParse Examples.today0 Examples.futureAndPast = Ok tl /\
    In q (quarters Examples.futureAndPast) /\
    nonFuture isoParse Examples.today0 q = true /\
    (forall q', In q' (quarters Examples.futureAndPast) ->
                nonFuture isoParse Examples.today0 q' = true ->
                periodTime isoParse q' <= periodTime isoParse q) /\
    option_map label (hd_error tl) = Some "2024Q3" /\
    toCalendarQuarterLabel isoParse (period q) = "2024Q1".
Proof.
  eexists. exists Examples.pastQuarter.
  split; [vm_compute; reflexivity|].
  split; [right; left; reflexivity|].
  split; [reflexivity|].
  split; [|split; reflexivity].
  intros q' [<-|[<-|[]]]; [discriminate | intros _; apply Z.le_refl].
Qed.

(** C3, amended.  With periods that parse to ordinary dates the timeline has
    exactly 16 entries.  The known quarters are the quarters that are not in
    the future when at least four of them are not, and all the quarters
    otherwise, most recent first; the timeline is anchored at the calendar
    quarter of the first known quarter, or of the present moment when no
    quarter is known; every entry is filled by the first known quarter with
    its label and has [hasData] set, or else is a placeholder, all figures
    unknown and [hasData] cleared. *)
Theorem timeline_sixteen_anchored
    (parse : string -> Dayjs) (today : Moment) (f : Fundamentals)
    (Htoday : civil today)
    (Hperiods : forall q, In q (quarters f) ->
                  exists m, parse (period q) = Some m /\ civil m) :
  exists tl,
    timeline parse today f = Ok tl /\
    List.length tl = 16%nat /\
    let known := base parse today f in
    Permutation known
      (if (4 <=? List.length (filter (nonFuture parse today) (quarters f)))%nat
       then filter (nonFuture parse today) (quarters f) else quarters f) /\
    StronglySorted (newestFirst parse) known /\
    option_map label (hd_error tl)
      = Some (match known with
              | q :: _ => toCalendarQuarterLabel parse (period q)
              | [] => labelOf (Some today)
              end) /\
    Forall (filledFrom parse known) tl.
Proof.
  assert (Hread : Forall (fun q => exists m, parse (period q) = Some m) (quarters f)).
  { apply Forall_forall. intros q Hq. destruct (Hperiods q Hq) as (m & Hm & _).
    now exists m. }
  destruct (base_spec parse today f Hread) as (Hperm & Hsorted).
  assert (Hin : forall q, In q (base parse today f) -> In q (quarters f)).
  { intros q Hq. apply (Permutation_in _ Hperm) in Hq.
    destruct (4 <=? List.length (filter (nonFuture parse today) (quarters f)))%nat; auto.
    now apply filter_In in Hq. }
  destruct (timeline_defined parse today f (proj1 Htoday)) as
    (tl & m0 & m' & Hsrc & _ & Hy & Hq & Et & Hl & Hh & Hf).
  { intros q Hq. destruct (Hperiods q Hq) as (m & Hm & Hc & _). eauto. }
  exists tl. cbv zeta. repeat split; auto.
  rewrite Hh. f_equal.
  assert (Hlab : 100 <= year m0 -> labelOf (Some m') = labelOf (Some m0)).
  { intros H100. unfold labelOf, yearOf, quarterOf.
    now rewrite Hy, Hq, DayjsFacts.ctorYear_from_100. }
  destruct (base parse today f) as [|q0 rest] eqn:Eb.
  - subst m0. apply Hlab, Htoday.
  - destruct (Hperiods q0 (Hin q0 (or_introl eq_refl))) as (m & Hm & _ & H100).
    unfold toCalendarQuarterLabel. rewrite Hsrc.
    apply Hlab. congruence.
Qed.

(** Four quarters behind the present moment: sixteen entries from 2024Q1. *)
Lemma timeline_four_quarters_witness :
  exists tl,
    timeline isoParse Examples.today0 Examples.valuationFundamentals = Ok tl /\
    List.length tl = 16%nat /\
    option_map label (hd_error tl) = Some "2024Q1".
Proof.
  destruct (timeline_sixteen_anchored isoParse Examples.today0
              Examples.valuationFundamentals) as (tl & Et & Hl & _ & _ & Hh & _).
  - unfold civil, bounded, msPerDay. simpl. lia.
  - intros q [<-|[<-|[<-|[<-|[]]]]]; eexists; (split; [reflexivity|]);
      unfold civil, bounded, msPerDay; simpl; lia.
  - exists tl. repeat split; auto.
Defined.

End TimelineFacts.

(* ------------------------------------------------------------------ *)
(** ** Scoring engine: share normalisation, rules and score *)

Module ScoreFacts.
Import Scoring.
Local Open Scope list_scope.

(** *** Rule 6 *)

(** C7.  With the three ratios EV/EBITDA, EV/FCF and PEG checked against 25,
    35 and 2, rule 6 is [null] when fewer than two of them are computable
    and otherwise passes exactly when at least two of them are within their
    limit; so EV/EBITDA = 20, EV/FCF = 40 and no PEG make the rule fail. *)
Theorem valuation_rule_two_of_computable (mc : num) (tl : list TimelineEntry) :
  let e := evToEbitda mc tl in
  let f := evToFcf mc tl in
  let p := peg mc tl in
  let computable := countTrue [isFinite e; isFinite f; isFinite p] in
  let passing :=
    countTrue [isFinite e && (e <=? ofZ 25)%num;
               isFinite f && (f <=? ofZ 35)%num;
               isFinite p && (p <=? ofZ 2)%num] in
  pass (rule6 mc tl)
    = (if (computable <? 2)%nat then None else Some (2 <=? passing)%nat) /\
  (e = ofZ 20 -> f = ofZ 40 -> p = NaN -> pass (rule6 mc tl) = Some false).
Proof.
  cbv zeta.
  assert (H : pass (rule6 mc tl)
    = (if (countTrue [isFinite (evToEbitda mc tl); isFinite (evToFcf mc tl);
                      isFinite (peg mc tl)] <? 2)%nat
       then None
       else Some (2 <=? countTrue
                          [isFinite (evToEbitda mc tl)
                             && (evToEbitda mc tl <=? ofZ 25)%num;
                           isFinite (evToFcf mc tl)
                             && (evToFcf mc tl <=? ofZ 35)%num;
                           isFinite (peg mc tl) && (peg mc tl <=? ofZ 2)%num])%nat)).
  { unfold rule6, valuationPass, valuationPassCount, valuationAvailableCount,
      valuationAvailable, valuationChecks, evEbitdaPass, evFcfPass, pegPass,
      underLimit, VAL_EBITDA_LIMIT, VAL_FCF_LIMIT, VAL_PEG_LIMIT, countTrue.
    cbn [pass].
    destruct (isFinite (evToEbitda mc tl));
      destruct (isFinite (evToFcf mc tl));
      destruct (isFinite (peg mc tl)); cbn;
      try destruct (evToEbitda mc tl <=? ofZ 25)%num;
      try destruct (evToFcf mc tl <=? ofZ 35)%num;
      try destruct (peg mc tl <=? ofZ 2)%num; reflexivity. }
  split; [exact H|].
  intros He Hf Hp. rewrite H, He, Hf, Hp. reflexivity.
Qed.

(** Market capitalisation 400 over EBITDA 20 and free cash flow 10, net
    income negative: one check of two passes. *)
Lemma valuation_one_of_two_witness :
  pass (rule6 (ofZ 400) Examples.valuationTimeline) = Some false.
Proof.
  apply (proj2 (valuation_rule_two_of_computable (ofZ 400) Examples.valuationTimeline));
    vm_compute; reflexivity.
Defined.

(** *** Share normalisation *)

Lemma normalizeSharesFrom_length : forall series factor prevRaw,
  List.length (normalizeSharesFrom factor prevRaw series) = List.length series.
Proof.
  induction series as [|raw rest IH]; intros factor prevRaw; simpl; [reflexivity|].
  destruct (negb (isFinite raw) || (raw <=? n0)%num); simpl; now rewrite IH.
Qed.

Lemma not_positive_guard raw :
  negb (isFinite raw) || (raw <=? n0)%num = negb (isPositive raw).
Proof.
  unfold isPositive, JsNum.gt, JsNum.lt, JsNum.le, n0, ofZ.
  destruct raw as [|q]; simpl; [reflexivity|].
  now destruct (Qle_bool q (inject_Z 0)).
Qed.

Lemma at_middle pre (x : num) rest : at_ (pre ++ x :: rest) (List.length pre) = x.
Proof. unfold at_. rewrite app_nth2 by lia. now rewrite Nat.sub_diag. Qed.

Lemma prevOf_snoc pre x : prevOf (pre ++ [x]) = if isPositive x then Some x else None.
Proof. unfold prevOf. now rewrite rev_app_distr. Qed.

Lemma normalizeSharesFrom_cells : forall rest pre i,
  (i < List.length rest)%nat ->
  nth i (normalizeSharesFrom (factorAt (pre ++ rest) (pred (List.length pre)))
                             (prevOf pre) rest) NaN
  = cell (pre ++ rest) (List.length pre + i).
Proof.
  induction rest as [|raw rest IH]; intros pre i Hi; [simpl in Hi; lia|].
  cbn [normalizeSharesFrom]. rewrite not_positive_guard.
  assert (Hsnoc : pre ++ raw :: rest = (pre ++ [raw]) ++ rest)
    by now rewrite <- app_assoc.
  assert (Hlen : List.length (pre ++ [raw]) = S (List.length pre))
    by (rewrite length_app; simpl; lia).
  assert (Hfac : factorAt (pre ++ raw :: rest) (List.length pre)
    = match prevOf pre with
      | Some prev =>
          if isPositive raw && inSplitBand (prev / raw)%num
          then (factorAt (pre ++ raw :: rest) (pred (List.length pre)) * (prev / raw))%num
          else factorAt (pre ++ raw :: rest) (pred (List.length pre))
      | None => factorAt (pre ++ raw :: rest) (pred (List.length pre))
      end).
  { destruct pre as [|p0 pre'] using rev_ind; [reflexivity|].
    rewrite prevOf_snoc, length_app. simpl List.length.
    replace (List.length pre' + 1)%nat with (S (List.length pre')) by lia.
    cbn [factorAt pred].
    rewrite <- app_assoc. simpl app.
    rewrite at_middle.
    replace (at_ (pre' ++ p0 :: raw :: rest) (S (List.length pre'))) with raw.
    2:{ change (p0 :: raw :: rest) with ([p0] ++ raw :: rest).
        rewrite app_assoc.
        replace (S (List.length pre')) with (List.length (pre' ++ [p0]))
          by (rewrite length_app; simpl; lia).
        now rewrite at_middle. }
    destruct (isPositive p0); [|reflexivity].
    simpl andb. reflexivity. }
  destruct (isPositive raw) eqn:Hraw; cbn [negb].
  - (* a positive value: the factor is updated and applied *)
    assert (Hnew :
      match prevOf pre with
      | Some prev =>
          if isFinite prev && (prev >? n0)%num
          then
            if ((prev / raw >? lit 9 2)%num && (prev / raw <? lit 23 2)%num)
            then (factorAt (pre ++ raw :: rest) (pred (List.length pre)) * (prev / raw))%num
            else if ((prev / raw <? lit 11 50)%num && (prev / raw >? lit 2 25)%num)
            then (factorAt (pre ++ raw :: rest) (pred (List.length pre)) * (prev / raw))%num
            else factorAt (pre ++ raw :: rest) (pred (List.length pre))
          else factorAt (pre ++ raw :: rest) (pred (List.length pre))
      | None => factorAt (pre ++ raw :: rest) (pred (List.length pre))
      end = factorAt (pre ++ raw :: rest) (List.length pre)).
    { rewrite Hfac. unfold prevOf.
      destruct (rev pre) as [|x ?]; [reflexivity|].
      destruct (isPositive x) eqn:Hx; [|reflexivity].
      change (isFinite x && (x >? n0)%num) with (isPositive x). rewrite Hx.
      simpl andb. unfold inSplitBand.
      destruct ((x / raw >? lit 9 2)%num && (x / raw <? lit 23 2)%num); [reflexivity|].
      simpl orb.
      now destruct ((x / raw <? lit 11 50)%num && (x / raw >? lit 2 25)%num). }
    cbv zeta. rewrite Hnew.
    destruct i as [|i].
    + cbn [nth]. unfold cell. rewrite Nat.add_0_r, at_middle, Hraw. reflexivity.
    + cbn [nth].
      replace (Some raw) with (prevOf (pre ++ [raw])) by (now rewrite prevOf_snoc, Hraw).
      replace (List.length pre) with (pred (List.length (pre ++ [raw]))) at 1
        by (rewrite Hlen; reflexivity).
      rewrite Hsnoc, IH by (simpl in Hi; lia).
      f_equal. lia.
  - (* a value that is not positive: NaN, and the chain of ratios is cut *)
    destruct i as [|i].
    + cbn [nth]. unfold cell. now rewrite Nat.add_0_r, at_middle, Hraw.
    + cbn [nth].
      assert (Hkeep : factorAt (pre ++ raw :: rest) (pred (List.length pre))
                      = factorAt (pre ++ raw :: rest) (List.length pre)).
      { rewrite Hfac. destruct (prevOf pre); reflexivity. }
      rewrite Hkeep.
      replace None with (prevOf (pre ++ [raw])) by (now rewrite prevOf_snoc, Hraw).
      replace (List.length pre) with (pred (List.length (pre ++ [raw]))) at 1
        by (rewrite Hlen; reflexivity).
      rewrite Hsnoc, IH by (simpl in Hi; lia).
      f_equal. lia.
Qed.

(** C5, as stated, fails on its own example: the third and fourth values
    come out as 1000 and 19200/19 (about 1010.5), neither within five percent
    of 950 and 960. *)
Lemma normalizeShares_split_example_not_950_960 :
  let normalized := normalizeShares [ofZ 1000; ofZ 1000; ofZ 9500; ofZ 9600] in
  nth 2 normalized NaN = ofZ 1000 /\
  approx (nth 2 normalized NaN) (ofZ 950) = false /\
  nth 3 normalized NaN = Fin (19200 # 19) /\
  approx (nth 3 normalized NaN) (ofZ 960) = false.
Proof. cbv zeta. repeat split. Qed.

(** C5, amended.  [normalizeShares] keeps the length of the series; a value
    that is not finite and positive becomes [NaN]; every other value is
    multiplied by the factor in force at its position, the product of the
    ratios of a newer (previous) value to the next older (current) one, both
    positive, that fell in (4.5, 11.5) or in (0.08, 0.22) from the newest
    value down to that position.  The series 1000, 1000, 9500, 9600 becomes
    1000, 1000, 1000, 19200/19, the factor 2/19 applying to the older two. *)
Theorem normalizeShares_applies_running_factor (series : list num) :
  List.length (normalizeShares series) = List.length series /\
  (forall i, (i < List.length series)%nat ->
     nth i (normalizeShares series) NaN
     = if isPositive (at_ series i)
       then (at_ series i * factorAt series i)%num else NaN) /\
  normalizeShares [ofZ 1000; ofZ 1000; ofZ 9500; ofZ 9600]
    = [ofZ 1000; ofZ 1000; ofZ 1000; Fin (19200 # 19)] /\
  factorAt [ofZ 1000; ofZ 1000; ofZ 9500; ofZ 9600] 3 = Fin (2 # 19).
Proof.
  split; [apply normalizeSharesFrom_length|].
  split; [|split; reflexivity].
  intros i Hi.
  exact (normalizeSharesFrom_cells series [] i Hi).
Qed.

(** *** The score *)

Lemma basePass_bounds (rs : list (string * RuleResult)) : forall acc,
  acc <= fold_left (fun acc kr => acc + (if isTrue (pass (snd kr)) then 1 else 0)) rs acc
      <= acc + Z.of_nat (List.length rs).
Proof.
  induction rs as [|r rest IH]; intros acc; simpl List.length; simpl fold_left; [lia|].
  specialize (IH (acc + (if isTrue (pass (snd r)) then 1 else 0))).
  destruct (isTrue (pass (snd r))); lia.
Qed.

Lemma total_bounds mc tl : 0 <= total mc tl <= 10.
Proof.
  unfold total, basePass, bonus.
  pose proof (basePass_bounds (rules mc tl) 0) as H.
  change (Z.of_nat (List.length (rules mc tl))) with 10 in H. lia.
Qed.

(** Sixteen placeholders give ten unknown rules and no point. *)
Lemma placeholders_score_nothing parse mc tl :
  List.length tl = 16%nat ->
  Forall (filledFrom parse []) tl ->
  total mc tl = 0 /\ Forall (fun kr => pass (snd kr) = None) (rules mc tl).
Proof.
  intros Hl Hf.
  do 16 (destruct tl as [|[? ? ?] tl]; [discriminate Hl|]).
  destruct tl; [|discriminate Hl]. clear Hl.
  repeat match goal with
         | H : Forall _ (_ :: _) |- _ => inversion H; subst; clear H
         | H : Forall _ [] |- _ => clear H
         | H : filledFrom _ [] _ |- _ =>
             unfold filledFrom in H; simpl in H;
             destruct H as (_ & ? & ? & ->)
         end.
  destruct mc; split; try reflexivity; repeat constructor.
Qed.

(** C1, as stated, fails: a quarter whose period does not parse makes
    [toISOString] throw on the invalid anchor. *)
Lemma scoreCompany_throws_on_unreadable_period :
  scoreCompany isoParse Examples.today0 Examples.unreadablePeriod
  = Throw InvalidTimeValue.
Proof. reflexivity. Qed.

(** C1, amended.  For a [Fundamentals] whose periods all parse to valid
    dates (fields in range, year within 200000 of zero) [scoreCompany]
    returns: it yields a result with its ten rules and a score between 0 and
    10, whatever the market capitalisation.  With no quarter at all the
    score is 0 and the [pass] of every rule is [null]. *)
Theorem scoreCompany_returns
    (parse : string -> Dayjs) (today : Moment) (f : Fundamentals)
    (Htoday : bounded 200000 today)
    (Hperiods : forall q, In q (quarters f) ->
                  exists m, parse (period q) = Some m /\ bounded 200000 m) :
  exists r,
    scoreCompany parse today f = Ok r /\
    r_ticker r = ticker f /\
    map fst (r_rules r) = ruleKeys /\
    0 <= total_score r <= 10 /\
    (quarters f = [] ->
       total_score r = 0 /\
       Forall (fun kr => pass (snd kr) = None) (r_rules r)).
Proof.
  destruct (TimelineFacts.timeline_defined parse today f Htoday Hperiods)
    as (tl & m0 & m' & _ & _ & _ & _ & Et & Hl & _ & Hf).
  unfold scoreCompany. rewrite Et. cbn [bindR].
  eexists. split; [reflexivity|]. cbn.
  split; [reflexivity|]. split; [reflexivity|].
  split; [apply total_bounds|].
  intros Hempty.
  assert (Hbase : base parse today f = []).
  { unfold base, usable, sorted. rewrite Hempty. reflexivity. }
  rewrite Hbase in Hf.
  now apply (placeholders_score_nothing parse).
Qed.

(** The degraded input of the route: no quarter, market capitalisation
    unknown. *)
Lemma scoreCompany_degraded_witness :
  exists r,
    scoreCompany isoParse Examples.today0 Examples.degraded = Ok r /\
    total_score r = 0 /\
    Forall (fun kr => pass (snd kr) = None) (r_rules r).
Proof.
  destruct (scoreCompany_returns isoParse Examples.today0 Examples.degraded)
    as (r & Er & _ & _ & _ & Hzero).
  - unfold bounded, msPerDay. simpl. lia.
  - intros q [].
  - exists r. destruct (Hzero eq_refl). auto.
Defined.

End ScoreFacts.

(* ------------------------------------------------------------------ *)
(** ** The quarter store: lookups, invariant, order of patches *)

Module StoreFacts.
Import Merge Store.
Local Open Scope list_scope.

Lemma get_In_pair (V : Type) k (v : V) m : JsMap.get k m = Some v -> In (k, v) m.
Proof.
  induction m as [|[k0 v0] r IH]; simpl; [discriminate|].
  destruct (String.eqb k k0) eqn:E.
  - apply String.eqb_eq in E. intros [= ->]. subst. now left.
  - intros H. right. auto.
Qed.

Lemma set_In (V : Type) k (v : V) m k' v' :
  In (k', v') (JsMap.set k v m) -> (k' = k /\ v' = v) \/ In (k', v') m.
Proof.
  induction m as [|[k0 v0] r IH]; simpl.
  - intros [H|[]]. inversion H. auto.
  - destruct (String.eqb k k0) eqn:E; simpl.
    + intros [H|H]; [inversion H; auto | auto].
    + intros [H|H]; [auto|]. destruct (IH H); auto.
Qed.

Lemma set_keys (V : Type) k (v : V) m :
  JsMap.keys (JsMap.set k v m)
  = if JsMap.has k m then JsMap.keys m else JsMap.keys m ++ [k].
Proof.
  unfold JsMap.keys, JsMap.has. induction m as [|[k0 v0] r IH]; simpl; [reflexivity|].
  destruct (String.eqb k k0) eqn:E; simpl.
  - apply String.eqb_eq in E. now subst.
  - rewrite IH. now destruct (JsMap.get k r).
Qed.

Lemma set_NoDup (V : Type) k (v : V) m :
  NoDup (JsMap.keys m) -> NoDup (JsMap.keys (JsMap.set k v m)).
Proof.
  intros H. rewrite set_keys. destruct (JsMap.has k m) eqn:E; [assumption|].
  apply NoDup_app; [assumption | repeat constructor; intros [] |].
  intros x Hx [<-|[]].
  apply JsMapFacts.In_keys_get in Hx. apply JsMapFacts.has_false_get in E. congruence.
Qed.

(** What [applyPatch] leaves at every key. *)
Lemma applyPatch_get byDate iso patch k :
  JsMap.get k (applyPatch byDate iso patch)
  = match iso with
    | Some key =>
        if negb (String.eqb key "") && String.eqb key k
        then Some (patched (recordAt byDate key) patch)
        else JsMap.get k byDate
    | None => JsMap.get k byDate
    end.
Proof.
  unfold applyPatch, ensureQuarter, recordAt. destruct iso as [key|]; [|reflexivity].
  destruct (String.eqb key "") eqn:Ee; simpl; [reflexivity|].
  destruct (String.eqb key k) eqn:Ek.
  - apply String.eqb_eq in Ek. subst k.
    destruct (JsMap.get key byDate); now rewrite JsMapFacts.get_set_same.
  - apply String.eqb_neq in Ek.
    destruct (JsMap.get key byDate);
      now rewrite ?JsMapFacts.get_set_other by assumption.
Qed.

(** X1.  After [applyPatch] at a period key the store holds there the record it
    had (or the fresh all-unknown record) with the patch applied; every other
    key is as before and the store has grown by the key at most; with [null]
    or the empty string for a key the store is untouched. *)
Theorem applyPatch_lookup
    (byDate : JsMap.t Quarter) (iso : option string) (patch : QuarterPatch) :
  (forall key, namesPeriod iso key ->
     JsMap.get key (applyPatch byDate iso patch)
       = Some (patched (recordAt byDate key) patch) /\
     (forall k, k <> key ->
        JsMap.get k (applyPatch byDate iso patch) = JsMap.get k byDate) /\
     JsMap.keys (applyPatch byDate iso patch)
       = if JsMap.has key byDate then JsMap.keys byDate
         else JsMap.keys byDate ++ [key]) /\
  (iso = None \/ iso = Some "" -> applyPatch byDate iso patch = byDate).
Proof.
  split.
  - intros key [-> Hne]. apply String.eqb_neq in Hne.
    split; [|split].
    + now rewrite applyPatch_get, Hne, String.eqb_refl.
    + intros k Hk. rewrite applyPatch_get, Hne. simpl.
      destruct (String.eqb key k) eqn:E; [|reflexivity].
      apply String.eqb_eq in E. congruence.
    + unfold applyPatch, ensureQuarter. rewrite Hne.
      unfold JsMap.has. destruct (JsMap.get key byDate) eqn:G.
      * rewrite set_keys. unfold JsMap.has. now rewrite G.
      * rewrite !set_keys. unfold JsMap.has.
        now rewrite G, JsMapFacts.get_set_same.
  - intros [-> | ->]; reflexivity.
Qed.

(** A store filled by the second-quarter patch of the examples. *)
Lemma applyPatch_lookup_witness :
  JsMap.get "2024-06-30"
    (applyPatch [] (Some "2024-06-30") (mkPatch (Some (ofZ 7)) None None None None
       None None None None None None None None None None))
  = Some (patched (emptyQuarter "2024-06-30")
            (mkPatch (Some (ofZ 7)) None None None None
               None None None None None None None None None None)).
Proof.
  refine (proj1 (proj1 (applyPatch_lookup [] (Some "2024-06-30") _) "2024-06-30" _)).
  split; [reflexivity | discriminate].
Defined.

Lemma applyPatch_keyed byDate iso patch :
  keyedByPeriod byDate -> keyedByPeriod (applyPatch byDate iso patch).
Proof.
  intros [Hnd Hk]. unfold applyPatch, ensureQuarter.
  destruct iso as [key|]; [|now split].
  destruct (String.eqb key "") eqn:Ee; [now split|].
  apply String.eqb_neq in Ee.
  destruct (JsMap.get key byDate) as [existing|] eqn:G.
  - split; [now apply set_NoDup|].
    intros k q Hin. apply set_In in Hin. destruct Hin as [[-> ->]|Hin]; [|auto].
    split; [|assumption]. simpl.
    apply (Hk key existing), get_In_pair, G.
  - split; [now apply set_NoDup, set_NoDup|].
    intros k q Hin. apply set_In in Hin. destruct Hin as [[-> ->]|Hin]; [now split|].
    apply set_In in Hin. destruct Hin as [[-> ->]|Hin]; [now split | auto].
Qed.

(** X2.  Whatever patches an adapter applies to a store that starts empty, every
    record stays filed under its own period, under a key that is not empty,
    and no key occurs twice: the periods of the records are pairwise
    distinct. *)
Theorem applyAll_keyedByPeriod (patches : list (option string * QuarterPatch)) :
  keyedByPeriod (applyAll patches []) /\
  NoDup (map period (JsMap.values (applyAll patches []))).
Proof.
  assert (H : forall s, keyedByPeriod s -> keyedByPeriod (applyAll patches s)).
  { unfold applyAll. induction patches as [|[iso p] rest IH]; intros s Hs; simpl; auto.
    apply IH, applyPatch_keyed, Hs. }
  assert (H0 : keyedByPeriod (applyAll patches [])).
  { apply H. split; [constructor | intros k q []]. }
  split; [exact H0|].
  destruct H0 as [Hnd Hk].
  replace (map period (JsMap.values (applyAll patches [])))
    with (JsMap.keys (applyAll patches [])); [assumption|].
  unfold JsMap.keys, JsMap.values. rewrite map_map.
  apply map_ext_in. intros [k q] Hin. simpl. symmetry. apply (Hk k q Hin).
Qed.

Lemma assignFinite_comm old a b :
  absentIn a b ->
  assignFinite (assignFinite old a) b = assignFinite (assignFinite old b) a.
Proof. intros [-> | ->]; reflexivity. Qed.

Lemma assignFiniteO_comm old a b :
  absentIn a b ->
  assignFiniteO (assignFiniteO old a) b = assignFiniteO (assignFiniteO old b) a.
Proof. intros [-> | ->]; reflexivity. Qed.

Lemma assignDefined_comm old a b :
  absentIn a b ->
  assignDefined (assignDefined old a) b = assignDefined (assignDefined old b) a.
Proof. intros [-> | ->]; reflexivity. Qed.

Lemma patched_comm q p1 p2 :
  disjointPatches p1 p2 -> patched (patched q p1) p2 = patched (patched q p2) p1.
Proof.
  intros (H1 & H2 & H3 & H4 & H5 & H6 & H7 & H8 & H9 & H10 & H11 & H12 & H13 & H14 & H15).
  unfold patched. simpl.
  rewrite (assignFinite_comm _ _ _ H1), (assignFinite_comm _ _ _ H2),
    (assignFinite_comm _ _ _ H3), (assignFinite_comm _ _ _ H4),
    (assignFinite_comm _ _ _ H5), (assignFinite_comm _ _ _ H6),
    (assignFinite_comm _ _ _ H7), (assignFinite_comm _ _ _ H8),
    (assignFiniteO_comm _ _ _ H9), (assignFiniteO_comm _ _ _ H10),
    (assignFiniteO_comm _ _ _ H11), (assignFiniteO_comm _ _ _ H12),
    (assignFiniteO_comm _ _ _ H13), (assignDefined_comm _ _ _ H14),
    (assignDefined_comm _ _ _ H15).
  reflexivity.
Qed.

Lemma recordAt_applyPatch byDate iso patch key :
  recordAt (applyPatch byDate iso patch) key
  = match iso with
    | Some k0 =>
        if negb (String.eqb k0 "") && String.eqb k0 key
        then patched (recordAt byDate k0) patch
        else recordAt byDate key
    | None => recordAt byDate key
    end.
Proof.
  unfold recordAt at 1. rewrite applyPatch_get.
  destruct iso as [k0|]; [|reflexivity].
  now destruct (negb (String.eqb k0 "") && String.eqb k0 key).
Qed.

(** X3.  Two patches can be applied in either order, with the same record at
    every key, when they go to different periods or set no field in
    common. *)
Theorem applyPatch_order_irrelevant
    (byDate : JsMap.t Quarter) (iso1 iso2 : option string) (p1 p2 : QuarterPatch)
    (Hfree : iso1 <> iso2 \/ disjointPatches p1 p2) :
  forall k,
    JsMap.get k (applyPatch (applyPatch byDate iso1 p1) iso2 p2)
    = JsMap.get k (applyPatch (applyPatch byDate iso2 p2) iso1 p1).
Proof.
  intros k. rewrite !applyPatch_get.
  destruct iso1 as [k1|], iso2 as [k2|]; rewrite ?applyPatch_get; try reflexivity.
  rewrite !recordAt_applyPatch.
  destruct (String.eqb k1 "") eqn:E1, (String.eqb k2 "") eqn:E2; simpl; try reflexivity.
  destruct (String.eqb k1 k) eqn:A, (String.eqb k2 k) eqn:B; try reflexivity.
  - apply String.eqb_eq in A, B. subst k1 k2.
    rewrite String.eqb_refl.
    destruct Hfree as [Hne | Hd]; [congruence|].
    now rewrite patched_comm.
  - apply String.eqb_eq in A. subst k1. now rewrite B.
  - apply String.eqb_eq in B. subst k2. now rewrite A.
Qed.

(** The income-statement patch and the cash-flow patch of one period. *)
Lemma applyPatch_order_witness :
  let income := mkPatch (Some (ofZ 300)) (Some (ofZ 150)) None None None
                  None None None None None None None None None None in
  let cashflow := mkPatch None None None None (Some (ofZ 30)) (Some (ofZ 5))
                  None None None None None None None None None in
  JsMap.get "2024-03-31"
    (applyPatch (applyPatch [] (Some "2024-03-31") income) (Some "2024-03-31") cashflow)
  = JsMap.get "2024-03-31"
    (applyPatch (applyPatch [] (Some "2024-03-31") cashflow) (Some "2024-03-31") income).
Proof.
  cbv zeta.
  apply (applyPatch_order_irrelevant [] (Some "2024-03-31") (Some "2024-03-31")).
  right. unfold disjointPatches, absentIn. simpl. tauto.
Defined.

End StoreFacts.

(* ------------------------------------------------------------------ *)
(** ** What an adapter hands over *)

Module FinalizeFacts.
Import Store Scoring.
Local Open Scope list_scope.

Lemma In_firstn_incl {A} (x : A) n : forall l, In x (firstn n l) -> In x l.
Proof.
  induction n as [|n IH]; intros [|a r]; simpl; try tauto.
  intros [H|H]; auto.
Qed.

Lemma In_skipn_incl {A} (x : A) n : forall l, In x (skipn n l) -> In x l.
Proof.
  induction n as [|n IH]; intros [|a r]; simpl; try tauto.
  intros H. right. now apply IH.
Qed.

Lemma firstn_sorted {A} (R : A -> A -> Prop) n : forall l,
  StronglySorted R l -> StronglySorted R (firstn n l).
Proof.
  induction n as [|n IH]; intros l H; simpl; [constructor|].
  destruct l as [|x r]; [constructor|].
  inversion H as [|? ? Hs Hall]; subst. constructor; [now apply IH|].
  apply Forall_forall. intros y Hy. rewrite Forall_forall in Hall.
  apply Hall. eapply In_firstn_incl. exact Hy.
Qed.

Lemma sorted_cut {A} (R : A -> A -> Prop) n : forall l,
  StronglySorted R l ->
  forall x y, In x (firstn n l) -> In y (skipn n l) -> R x y.
Proof.
  induction n as [|n IH]; intros l H x y Hx Hy; simpl in *; [contradiction|].
  destruct l as [|a r]; [contradiction|].
  inversion H as [|? ? Hs Hall]; subst.
  destruct Hx as [<-|Hx].
  - rewrite Forall_forall in Hall. apply Hall. eapply In_skipn_incl. exact Hy.
  - now apply (IH r).
Qed.

Lemma finalizeQuarters_kept (parse : string -> Dayjs) (byDate : JsMap.t Quarter) :
  (List.length (finalizeQuarters parse byDate) <= 8)%nat /\
  Forall (fun q => isValid (parse (period q)) = true /\ In q (JsMap.values byDate))
         (finalizeQuarters parse byDate).
Proof.
  unfold finalizeQuarters, slice. simpl skipn. simpl Nat.sub.
  split; [rewrite length_firstn; lia|].
  apply Forall_forall. intros q Hq. apply In_firstn_incl in Hq.
  apply JsArrayFacts.In_sort in Hq. apply filter_In in Hq. tauto.
Qed.

(** X4.  [finalizeQuarters] hands over at most eight quarters, all of them records
    of the store whose period parses, most recent first; a record of the
    store with a period that parses is dropped only when eight are kept, and
    then none of those kept is older than it. *)
Theorem finalizeQuarters_newest_eight
    (parse : string -> Dayjs) (byDate : JsMap.t Quarter) :
  let kept := finalizeQuarters parse byDate in
  (List.length kept <= 8)%nat /\
  Forall (fun q => isValid (parse (period q)) = true /\ In q (JsMap.values byDate)) kept /\
  StronglySorted (newestFirst parse) kept /\
  (forall q, In q (JsMap.values byDate) -> isValid (parse (period q)) = true ->
     In q kept \/
     (List.length kept = 8%nat /\
      forall q', In q' kept -> periodTime parse q <= periodTime parse q')).
Proof.
  cbv zeta. unfold finalizeQuarters, slice. simpl skipn. simpl Nat.sub.
  set (valid := filter (fun q => isValid (parse (period q))) (JsMap.values byDate)).
  set (ordered := sort (byPeriodDesc parse) valid).
  assert (Hvalid : Forall (fun q => exists m, parse (period q) = Some m) valid).
  { apply Forall_forall. intros q Hq. apply filter_In in Hq. destruct Hq as [_ Hq].
    destruct (parse (period q)) as [m|]; [now exists m | discriminate]. }
  assert (Hsorted : StronglySorted (newestFirst parse) ordered).
  { apply (JsArrayFacts.sort_sorted (byPeriodDesc parse)
             (fun q => exists m, parse (period q) = Some m) (periodTime parse)
             (TimelineFacts.byPeriodDesc_rank parse) _ Hvalid). }
  split; [rewrite length_firstn; lia|].
  split; [|split].
  - apply Forall_forall. intros q Hq. apply In_firstn_incl in Hq.
    apply JsArrayFacts.In_sort in Hq. apply filter_In in Hq. tauto.
  - now apply firstn_sorted.
  - intros q Hq Hv.
    assert (Hin : In q ordered).
    { apply JsArrayFacts.In_sort. apply filter_In. now split. }
    rewrite <- (firstn_skipn 8 ordered) in Hin. apply in_app_or in Hin.
    destruct Hin as [Hin|Hin]; [now left|]. right. split.
    + rewrite length_firstn.
      destruct (Nat.le_gt_cases 8 (List.length ordered)) as [Hl|Hl]; [lia|].
      rewrite skipn_all2 in Hin by lia. contradiction.
    + intros q' Hq'. apply (sorted_cut _ 8 ordered Hsorted q' q Hq' Hin).
Qed.

(** X5.  When the closing steps of a commercial adapter succeed, the result
    carries the symbol, a finite market capitalisation and four to eight
    quarters, and [scoreCompany] returns on it; when they fail, the error is
    recoverable, with reason "missing-market-cap" or "insufficient-data". *)
Theorem finishCommercial_scorable
    (parse : string -> Dayjs) (today : Moment) (prov symbol : string)
    (byDate : JsMap.t Quarter) (cap : option num)
    (Htoday : bounded 200000 today)
    (Hdates : forall q m, In q (JsMap.values byDate) ->
                parse (period q) = Some m -> bounded 200000 m) :
  match finishCommercial parse prov symbol byDate cap with
  | Ok f =>
      ticker f = symbol /\ isFinite (marketCap f) = true /\
      (4 <= List.length (quarters f) <= 8)%nat /\
      exists r, scoreCompany parse today f = Ok r
  | Throw e =>
      Http.recoverable e = Some true /\ Http.provider e = Some prov /\
      (Http.reason e = Some "missing-market-cap" \/
       Http.reason e = Some "insufficient-data")
  end.
Proof.
  unfold finishCommercial.
  destruct cap as [mc|]; [|simpl; auto].
  destruct (isFinite mc) eqn:Hmc; simpl; [|auto].
  destruct (finalizeQuarters_kept parse byDate) as (Hlen & Hall).
  destruct (List.length (finalizeQuarters parse byDate) <? 4)%nat eqn:H4; [simpl; auto|].
  apply Nat.ltb_ge in H4. simpl.
  split; [reflexivity|]. split; [assumption|]. split; [lia|].
  destruct (TimelineFacts.timeline_defined parse today
              {| ticker := symbol; marketCap := mc;
                 quarters := finalizeQuarters parse byDate |} Htoday)
    as (tl & _ & _ & _ & _ & _ & _ & Et & _).
  - simpl. intros q Hq. rewrite Forall_forall in Hall.
    destruct (Hall q Hq) as [Hv Hin].
    destruct (parse (period q)) as [m|] eqn:Hm; [|discriminate].
    exists m. split; [reflexivity|]. now apply (Hdates q m).
  - unfold scoreCompany. rewrite Et. simpl. eauto.
Qed.

(** Five stored periods, one unreadable: four quarters are handed over and
    scored. *)
Lemma finishCommercial_witness :
  exists f r,
    finishCommercial isoParse "FMP" "NVDA" MoreExamples.fiveQuarterStore (Some (ofZ 400))
      = Ok f /\
    List.length (quarters f) = 4%nat /\
    scoreCompany isoParse Examples.today0 f = Ok r.
Proof.
  pose proof (finishCommercial_scorable isoParse Examples.today0 "FMP" "NVDA"
                MoreExamples.fiveQuarterStore (Some (ofZ 400))) as H.
  destruct (finishCommercial isoParse "FMP" "NVDA" MoreExamples.fiveQuarterStore
              (Some (ofZ 400))) as [f|e] eqn:E; [|discriminate E].
  destruct H as (_ & _ & _ & r & Hr).
  - unfold bounded, msPerDay. simpl. lia.
  - intros q m [<-|[<-|[<-|[<-|[<-|[]]]]]] Hm; vm_compute in Hm;
      try discriminate Hm; inversion Hm; subst m;
      unfold bounded, msPerDay; simpl; lia.
  - exists f, r. split; [reflexivity|]. split; [|exact Hr].
    inversion E. reflexivity.
Defined.

End FinalizeFacts.

(* ------------------------------------------------------------------ *)
(** ** Series of facts: keys, order, recency, completeness *)

Module SeriesFacts.
Import Xbrl Series.

Lemma upto_spec p n : forall y z,
  upto p n y = true -> y <= z < y + Z.of_nat n -> p z = true.
Proof.
  induction n as [|n IH]; intros y z H Hz; [lia|].
  cbn [upto] in H. apply andb_true_iff in H. destruct H as [Hy Hrest].
  destruct (Z.eq_dec z y) as [->|Hne]; [exact Hy|].
  apply (IH (y + 1)); [exact Hrest|lia].
Qed.

Lemma fourDigits_all : upto fourDigits (Z.to_nat 9000) 1000 = true.
Proof. vm_compute. reflexivity. Qed.

Lemma showNum_ofZ z : showNum (ofZ z) = showZ z.
Proof.
  unfold showNum, ofZ. rewrite JsNumFacts.Qred_inject_Z. reflexivity.
Qed.

Lemma quarterKey_ofZ y q : quarterKey (ofZ y) (ofZ q) = (showZ y ++ "Q" ++ showZ q)%string.
Proof. unfold quarterKey. now rewrite !showNum_ofZ. Qed.

Lemma parseQuarterKey_written y q :
  fourDigits y = true -> 1 <= q <= 4 ->
  parseQuarterKey (showZ y ++ "Q" ++ showZ q)%string = (y, q).
Proof.
  unfold fourDigits. intros Hy Hq.
  destruct (showZ y) as [|a [|b [|c [|d [|e r]]]]]; try discriminate.
  apply andb_true_iff in Hy. destruct Hy as [Hy Hval].
  apply andb_true_iff in Hy. destruct Hy as [Hy Hd].
  apply andb_true_iff in Hy. destruct Hy as [Hy Hc].
  apply andb_true_iff in Hy. destruct Hy as [Ha Hb].
  apply Z.eqb_eq in Hval.
  assert (Hcases : q = 1 \/ q = 2 \/ q = 3 \/ q = 4) by lia.
  destruct Hcases as [-> | [-> | [-> | ->]]]; cbn;
    rewrite Ha, Hb, Hc, Hd; cbn; now rewrite Hval.
Qed.

(** X6.  For a four-digit year and a quarter 1 to 4 the key written by the scan is
    read back by [parseQuarterKey] as that year and quarter, and from the
    second quarter on the key the year-to-date step subtracts is the key of
    the quarter before, in the same year. *)
Theorem quarterKey_round_trip (y q : Z)
    (Hy : 1000 <= y <= 9999) (Hq : 1 <= q <= 4) :
  parseQuarterKey (quarterKey (ofZ y) (ofZ q)) = (y, q) /\
  (1 < q -> priorKey (quarterKey (ofZ y) (ofZ q)) = quarterKey (ofZ y) (ofZ (q - 1))).
Proof.
  assert (Hr : fourDigits y = true).
  { apply (upto_spec fourDigits (Z.to_nat 9000) 1000 y fourDigits_all).
    rewrite Z2Nat.id; lia. }
  assert (Hread : parseQuarterKey (quarterKey (ofZ y) (ofZ q)) = (y, q)).
  { rewrite quarterKey_ofZ. now apply parseQuarterKey_written. }
  split; [exact Hread|].
  intros _. unfold priorKey. rewrite Hread. now rewrite quarterKey_ofZ.
Qed.

(** The third quarter of 2024. *)
Lemma quarterKey_round_trip_witness :
  parseQuarterKey (quarterKey (ofZ 2024) (ofZ 3)) = (2024, 3) /\
  priorKey (quarterKey (ofZ 2024) (ofZ 3)) = "2024Q2".
Proof.
  destruct (quarterKey_round_trip 2024 3 ltac:(lia) ltac:(lia)) as [H1 H2].
  split; [exact H1|]. rewrite (H2 ltac:(lia)). reflexivity.
Defined.

(** *** Every extracted datum is complete *)

Section Complete.
Variable parse : string -> Dayjs.
Variable getTime : string -> num.
Variable Number_ : string -> num.

Lemma normalizeValue_finite v unit :
  isFinite v = true -> isFinite (normalizeValue v unit) = true.
Proof.
  destruct v as [|q]; [discriminate|]. intros _. unfold normalizeValue.
  repeat match goal with |- context [if ?c then _ else _] => destruct c end;
    reflexivity.
Qed.

Lemma updateQuarterDatum_complete m key datum :
  allComplete m -> complete datum ->
  allComplete (updateQuarterDatum getTime m key datum).
Proof.
  intros Hm Hd. unfold updateQuarterDatum.
  assert (Hset : allComplete (JsMap.set key datum m)).
  { intros k d. destruct (String.eqb key k) eqn:E.
    - apply String.eqb_eq in E. subst k. rewrite JsMapFacts.get_set_same.
      intros [= <-]. exact Hd.
    - apply String.eqb_neq in E. rewrite JsMapFacts.get_set_other by assumption.
      apply Hm. }
  destruct (JsMap.get key m); [|exact Hset].
  cbv zeta. now destruct (_ >=? _)%num.
Qed.

Lemma scanEntry_complete mode unit st entry :
  bothComplete st -> bothComplete (scanEntry parse getTime Number_ mode unit st entry).
Proof.
  intros [Hq Hy]. unfold scanEntry.
  destruct (form entry) as [formName|]; [|now split].
  destruct (negb (isAllowedForm formName)); [now split|].
  destruct (val entry) as [v|]; simpl safeNum; [|now split].
  destruct (isFinite v) eqn:Hv; [|now split].
  destruct (toISODate parse (end_ entry)) as [endIso|]; [|now split].
  destruct (parse endIso) as [endDay|]; [|now split].
  destruct (fiscalKey Number_ entry formName endDay) as [yr qt].
  match goal with
  | |- context [updateQuarterDatum getTime _ _ ?d] =>
      assert (Hd : complete d)
  end.
  { split; [now apply normalizeValue_finite|]. split; [now exists endDay|].
    simpl. now destruct (filed entry). }
  destruct mode.
  - split; simpl; [now apply updateQuarterDatum_complete | assumption].
  - destruct (durationDaysOf parse endDay (toISODate parse (start entry))) as [days|].
    + destruct (days <=? ofZ 120)%num; split; simpl; auto;
        now apply updateQuarterDatum_complete.
    + split; simpl; [assumption | now apply updateQuarterDatum_complete].
Qed.

Lemma fold_complete {A} (f : Series -> A -> Series) (l : list A) :
  (forall st a, bothComplete st -> bothComplete (f st a)) ->
  forall st, bothComplete st -> bothComplete (fold_left f l st).
Proof.
  intros Hf. induction l as [|a r IH]; intros st Hst; simpl; auto.
Qed.

Lemma scan_complete mode facts configs :
  bothComplete (scan parse getTime Number_ mode facts configs).
Proof.
  unfold scan. apply fold_complete.
  - intros st cfg Hst. unfold scanConfig.
    destruct (JsMap.get (taxonomy cfg) facts) as [taxonomyFacts|]; [|assumption].
    apply fold_complete; [|assumption].
    intros st' concept Hst'. unfold scanConcept.
    destruct (JsMap.get concept taxonomyFacts) as [conceptData|]; [|assumption].
    destruct (cd_units conceptData) as [us|]; [|assumption].
    apply fold_complete; [|assumption].
    intros st'' ue Hst''. apply fold_complete; [|assumption].
    intros. now apply scanEntry_complete.
  - split; intros k d; discriminate.
Qed.

Lemma sub_finite a b :
  isFinite a = true -> isFinite b = true -> isFinite (a - b)%num = true.
Proof. destruct a, b; simpl; congruence. Qed.

Lemma resolvedAt_complete st k d :
  bothComplete st -> resolvedAt st k = Some d -> complete d.
Proof.
  intros [Hq Hy]. unfold resolvedAt.
  destruct (JsMap.get k (quarterValues st)) as [q|] eqn:Eq.
  - intros [= <-]. eapply Hq, Eq.
  - destruct (JsMap.get k (ytdValues st)) as [current|] eqn:Ey; [|discriminate].
    intros [= <-]. destruct (Hy _ _ Ey) as (Hv & He & Hf).
    split; [|now split].
    unfold derived. simpl.
    destruct (1 <? snd (parseQuarterKey k)); [|assumption].
    unfold priorDatum.
    destruct (JsMap.get (priorKey k) (ytdValues st)) as [p|] eqn:Ep.
    + apply sub_finite; [assumption|]. eapply Hy, Ep.
    + destruct (JsMap.get (priorKey k) (quarterValues st)) as [p|] eqn:Ep';
        [|assumption].
      apply sub_finite; [assumption|]. eapply Hq, Ep'.
Qed.


(** X10.  In duration mode a key that has a quarterly fact keeps exactly that fact,
    whatever the year-to-date facts say, and the result has no key beyond
    those of the quarterly and the year-to-date facts. *)
Theorem collectFactSeries_quarterly_first facts configs k :
  let st := scan parse getTime Number_ duration facts configs in
  let result := collectFactSeries parse getTime Number_ facts configs duration in
  (forall d, JsMap.get k (quarterValues st) = Some d -> JsMap.get k result = Some d) /\
  (JsMap.get k result = None <->
   JsMap.get k (quarterValues st) = None /\ JsMap.get k (ytdValues st) = None).
Proof.
  cbv zeta. unfold collectFactSeries. rewrite XbrlFacts.resolveYtd_get.
  unfold resolvedAt. split.
  - intros d ->. reflexivity.
  - destruct (JsMap.get k (quarterValues _)); [split; [discriminate|intros [? _]; discriminate]|].
    destruct (JsMap.get k (ytdValues _)); split; try discriminate; auto.
    intros [_ ?]; discriminate.
Qed.
End Complete.


(** *** The order of the keys *)

Lemma parseQuarterKey_quarter key : 0 <= snd (parseQuarterKey key) <= 4.
Proof.
  unfold parseQuarterKey.
  destruct key as [|a [|b [|c [|d [|q [|e [|g r]]]]]]];
    try (simpl; lia).
  - destruct q as [[] [] [] [] [] [] [] []]; try (simpl; lia).
  - destruct q as [[] [] [] [] [] [] [] []]; try (simpl; lia).
    destruct (Str.isDigit a && Str.isDigit b && Str.isDigit c && Str.isDigit d);
      [|simpl; lia].
    cbn [andb].
    destruct (1 <=? Str.digitVal e) eqn:H1; [|simpl; lia].
    destruct (Str.digitVal e <=? 4) eqn:H4; [|simpl; lia].
    apply Z.leb_le in H1, H4. simpl. lia.
  - destruct q as [[] [] [] [] [] [] [] []]; try (simpl; lia).
Qed.

Lemma StronglySorted_weaken {A} (R S : A -> A -> Prop) l :
  (forall a b, R a b -> S a b) -> StronglySorted R l -> StronglySorted S l.
Proof.
  intros HRS. induction 1 as [|x r Hs IH Hall]; constructor; auto.
  eapply Forall_impl; [|exact Hall]. intros; now apply HRS.
Qed.

Lemma keyBefore_lex a b :
  5 * fst (parseQuarterKey a) + snd (parseQuarterKey a)
    <= 5 * fst (parseQuarterKey b) + snd (parseQuarterKey b) ->
  keyBefore a b.
Proof.
  intros H. unfold keyBefore.
  pose proof (parseQuarterKey_quarter a). pose proof (parseQuarterKey_quarter b). lia.
Qed.

Lemma quarterSortAsc_sorted (keys_ : list string) :
  StronglySorted keyBefore (sort quarterSortAsc keys_).
Proof.
  eapply StronglySorted_weaken;
    [|apply (JsArrayFacts.sort_sorted quarterSortAsc (fun _ => True)
               (fun k => - (5 * fst (parseQuarterKey k) + snd (parseQuarterKey k))))].
  - cbv beta. intros a b H. apply keyBefore_lex. lia.
  - intros x y _ _. unfold quarterSortAsc. cbv zeta.
    pose proof (parseQuarterKey_quarter x). pose proof (parseQuarterKey_quarter y).
    destruct (Z.eqb_spec (fst (parseQuarterKey x)) (fst (parseQuarterKey y)));
      rewrite JsNumFacts.gt_ofZ_0;
      apply eq_true_iff_eq; rewrite !Z.ltb_lt; lia.
  - apply Forall_forall. auto.
Qed.

Lemma quarterSortDesc_sorted (keys_ : list string) :
  StronglySorted (fun a b => keyBefore b a) (sort quarterSortDesc keys_).
Proof.
  eapply StronglySorted_weaken;
    [|apply (JsArrayFacts.sort_sorted quarterSortDesc (fun _ => True)
               (fun k => 5 * fst (parseQuarterKey k) + snd (parseQuarterKey k)))].
  - cbv beta. intros a b H. apply keyBefore_lex. lia.
  - intros x y _ _. unfold quarterSortDesc. cbv zeta.
    pose proof (parseQuarterKey_quarter x). pose proof (parseQuarterKey_quarter y).
    destruct (Z.eqb_spec (fst (parseQuarterKey x)) (fst (parseQuarterKey y)));
      rewrite JsNumFacts.gt_ofZ_0;
      apply eq_true_iff_eq; rewrite !Z.ltb_lt; lia.
  - apply Forall_forall. auto.
Qed.

(** X7.  Sorting with [quarterSortAsc] rearranges the keys into ascending order of
    year, then quarter, as [parseQuarterKey] reads them (a key that is not of
    the form YYYYQn counting as year 0, quarter 0); [quarterSortDesc] gives
    the descending order. *)
Theorem quarterSort_orders (keys_ : list string) :
  (Permutation (sort quarterSortAsc keys_) keys_ /\
   StronglySorted keyBefore (sort quarterSortAsc keys_)) /\
  (Permutation (sort quarterSortDesc keys_) keys_ /\
   StronglySorted (fun a b => keyBefore b a) (sort quarterSortDesc keys_)).
Proof.
  split; (split; [apply JsArrayFacts.sort_perm|]).
  - apply quarterSortAsc_sorted.
  - apply quarterSortDesc_sorted.
Qed.

(** *** Which fact a key ends up with *)

Section Latest.
Variable getTime : string -> num.

Lemma updateQuarterDatum_other m key datum k :
  key <> k ->
  JsMap.get k (updateQuarterDatum getTime m key datum) = JsMap.get k m.
Proof.
  intros Hne. unfold updateQuarterDatum.
  destruct (JsMap.get key m); cbv zeta;
    [destruct (_ >=? _)%num|]; auto using JsMapFacts.get_set_other.
Qed.

Lemma offerEach_snoc offers kd m :
  offerEach getTime (offers ++ [kd])%list m =
  updateQuarterDatum getTime (offerEach getTime offers m) (fst kd) (snd kd).
Proof. unfold offerEach. now rewrite fold_left_app. Qed.

Lemma offeredTo_snoc key offers kd :
  offeredTo key (offers ++ [kd])%list =
  (offeredTo key offers ++ (if String.eqb (fst kd) key then [snd kd] else []))%list.
Proof.
  unfold offeredTo. rewrite filter_app, map_app. simpl.
  now destruct (String.eqb (fst kd) key).
Qed.

Lemma num_le_trans a b c :
  (a <=? b)%num = true -> (b <=? c)%num = true -> (a <=? c)%num = true.
Proof.
  unfold JsNum.le. destruct a, b, c; try discriminate.
  rewrite !Qle_bool_iff. apply Qle_trans.
Qed.

Lemma num_lt_le a b : (a <? b)%num = true -> (a <=? b)%num = true.
Proof.
  unfold JsNum.lt, JsNum.le. destruct a, b; try discriminate.
  intros H. apply negb_true_iff in H. apply Qle_bool_iff.
  destruct (Qlt_le_dec q q0) as [Hlt|Hle]; [now apply Qlt_le_weak|].
  apply Qle_bool_iff in Hle. congruence.
Qed.

Lemma num_ge_false a b :
  isFinite a = true -> isFinite b = true ->
  (a >=? b)%num = false -> (a <? b)%num = true.
Proof.
  unfold JsNum.ge, JsNum.le, JsNum.lt. destruct a, b; try discriminate.
  intros _ _ H. now rewrite H.
Qed.

(** X8.  What a key holds after a run of [updateQuarterDatum] over an empty map,
    the filing times of the facts offered under the key being finite: nothing
    if no fact was offered under it, and otherwise the last of the facts with
    the latest filing time: no fact before it was filed later, and every fact
    after it was filed strictly earlier. *)
Theorem offerEach_keeps_latest offers key
    (Hfin : Forall (fun d => isFinite (filedAt getTime d) = true)
                   (offeredTo key offers)) :
  match JsMap.get key (offerEach getTime offers JsMap.empty) with
  | None => offeredTo key offers = []
  | Some d =>
      exists pre post,
        offeredTo key offers = (pre ++ d :: post)%list /\
        Forall (fun x => (filedAt getTime x <=? filedAt getTime d)%num = true) pre /\
        Forall (fun x => (filedAt getTime x <? filedAt getTime d)%num = true) post
  end.
Proof.
  induction offers as [|[k x] offers IH] using rev_ind; [reflexivity|].
  rewrite offeredTo_snoc in Hfin. rewrite offerEach_snoc, offeredTo_snoc.
  apply Forall_app in Hfin. destruct Hfin as [Hl Hx]. specialize (IH Hl).
  cbn [fst snd] in *.
  destruct (String.eqb_spec k key) as [->|Hne].
  - inversion Hx as [|? ? Hxfin _]; subst.
    unfold updateQuarterDatum.
    destruct (JsMap.get key (offerEach getTime offers JsMap.empty)) as [e|] eqn:Eg.
    + destruct IH as (pre & post & Hsplit & Hpre & Hpost). cbv zeta.
      assert (Hefin : isFinite (filedAt getTime e) = true).
      { rewrite Forall_forall in Hl. apply Hl. rewrite Hsplit.
        apply in_or_app. right. now left. }
      fold (filedAt getTime e). fold (filedAt getTime x).
      destruct (filedAt getTime x >=? filedAt getTime e)%num eqn:Hge.
      * rewrite JsMapFacts.get_set_same.
        exists (pre ++ e :: post)%list, []. split; [now rewrite Hsplit|].
        split; [|constructor].
        unfold JsNum.ge in Hge.
        apply Forall_app. split; [|constructor].
        -- eapply Forall_impl; [|exact Hpre]. cbv beta. intros a Ha.
           eapply num_le_trans; eassumption.
        -- exact Hge.
        -- eapply Forall_impl; [|exact Hpost]. cbv beta. intros a Ha.
           eapply num_le_trans; [apply num_lt_le|]; eassumption.
      * rewrite Eg. exists pre, (post ++ [x])%list.
        split; [rewrite Hsplit, <- app_assoc; reflexivity|].
        split; [assumption|].
        apply Forall_app. split; [assumption|].
        constructor; [|constructor]. now apply num_ge_false.
    + rewrite JsMapFacts.get_set_same. exists [], []. rewrite IH.
      repeat split; constructor.
  - rewrite updateQuarterDatum_other by assumption. rewrite app_nil_r. exact IH.
Qed.
End Latest.

(** Of the four facts offered under 2024Q1 the third stays: it is the later
    of the two filed on the latest day. *)
Lemma offerEach_restated_witness :
  option_map value (JsMap.get "2024Q1" (offerEach isoTime restated JsMap.empty))
    = Some (ofZ 105) /\
  match JsMap.get "2024Q1" (offerEach isoTime restated JsMap.empty) with
  | None => offeredTo "2024Q1" restated = []
  | Some d =>
      exists pre post,
        offeredTo "2024Q1" restated = (pre ++ d :: post)%list /\
        Forall (fun x => (filedAt isoTime x <=? filedAt isoTime d)%num = true) pre /\
        Forall (fun x => (filedAt isoTime x <? filedAt isoTime d)%num = true) post
  end.
Proof.
  split; [vm_compute; reflexivity|].
  apply (offerEach_keeps_latest isoTime restated "2024Q1").
  repeat constructor.
Defined.

End SeriesFacts.

(* ------------------------------------------------------------------ *)
(** ** The scoring route *)

Module RouteFacts.
Import Http Fallback Scoring Route.

Lemma upperChar_idempotent c : Str.upperChar (Str.upperChar c) = Str.upperChar c.
Proof.
  unfold Str.upperChar. destruct (Str.isLower c) eqn:E; [|now rewrite E].
  unfold Str.isLower in *. apply andb_true_iff in E. destruct E as [E1 E2].
  apply Nat.leb_le in E1, E2.
  rewrite nat_ascii_embedding by lia.
  replace (97 <=? nat_of_ascii c - 32)%nat with false; [reflexivity|].
  symmetry. apply Nat.leb_gt. lia.
Qed.

Lemma toUpperCase_idempotent s : Str.toUpperCase (Str.toUpperCase s) = Str.toUpperCase s.
Proof.
  induction s as [|c r IH]; simpl; [reflexivity|].
  now rewrite upperChar_idempotent, IH.
Qed.

Lemma tickerOf_upper param : Str.toUpperCase (tickerOf param) = tickerOf param.
Proof. unfold tickerOf. apply toUpperCase_idempotent. Qed.

(** The empty fundamentals of the degraded path are always scored: no point,
    every rule unknown. *)
Lemma scoreCompany_empty parse today symbol :
  bounded 200000 today ->
  exists r,
    scoreCompany parse today {| ticker := symbol; marketCap := NaN; quarters := [] |}
      = Ok r /\
    r_ticker r = symbol /\ total_score r = 0 /\
    Forall (fun kr => pass (snd kr) = None) (r_rules r).
Proof.
  intros Htoday.
  set (f := {| ticker := symbol; marketCap := NaN; quarters := [] |}).
  destruct (TimelineFacts.timeline_defined parse today f Htoday)
    as (tl & m0 & m' & _ & _ & _ & _ & Et & Hl & _ & Hf).
  { intros q []. }
  unfold scoreCompany. rewrite Et. cbn [bindR].
  eexists. split; [reflexivity|]. cbn.
  split; [reflexivity|].
  change (base parse today f) with (@nil Quarter) in Hf.
  now apply (ScoreFacts.placeholders_score_nothing parse).
Qed.

Section Route.
Variable parse : string -> Dayjs.
Variable today : Moment.
Variable World : Type.
Variables sec fmp fin : Handler World.

(** X16.  Whatever the adapters do, the route answers (the present moment being a
    date within 200000 years of year zero).  It hands on the run of
    [fetchFundamentals] and answers: the score of the fetched data, without
    warning; or, when [fetchFundamentals] threw with reason "exhausted", the
    score of the empty fundamentals, which is 0 with every rule unknown,
    under status 200; or status 502 with the single message of what was
    thrown, by [fetchFundamentals] for another reason or by [scoreCompany]
    on the fetched data. *)
Theorem GET_always_answers (param : option string) (w : World)
    (Htoday : bounded 200000 today) :
  let symbol := tickerOf param in
  let fetched := fetchFundamentals World sec fmp fin symbol w in
  exists a,
    GET parse today World sec fmp fin param w = (Ok a, snd fetched) /\
    match a with
    | Live r ws =>
        statusOf a = 200 /\ ws = [] /\
        exists f, fst fetched = Ok f /\ scoreCompany parse today f = Ok r
    | Degraded r ws =>
        statusOf a = 200 /\
        (exists e, fst fetched = Throw e /\ reason e = Some "exhausted" /\
                   ws = [message e]) /\
        r_ticker r = symbol /\ total_score r = 0 /\
        Forall (fun kr => pass (snd kr) = None) (r_rules r)
    | Failed t ws =>
        statusOf a = 502 /\ t = symbol /\
        ((exists e, fst fetched = Throw e /\ reason e <> Some "exhausted" /\
                    ws = [message e]) \/
         (exists f, fst fetched = Ok f /\
                    scoreCompany parse today f = Throw InvalidTimeValue /\
                    ws = ["Invalid time value"]))
    end.
Proof.
  cbv zeta. unfold GET.
  destruct (fetchFundamentals World sec fmp fin (tickerOf param) w) as [[f|e] run].
  - destruct (scoreCompany parse today f) as [r|[]] eqn:Es.
    + exists (Live r []). simpl. eauto 6.
    + exists (Failed (tickerOf param) ["Invalid time value"]). simpl.
      repeat split; auto. right. eauto.
  - unfold recover. cbn [caughtReason caughtMessage].
    destruct (reason e) as [why|] eqn:Er.
    + destruct (String.eqb_spec why "exhausted") as [->|Hne].
      * destruct (scoreCompany_empty parse today (tickerOf param) Htoday)
          as (r & -> & Ht & Hz & Hr).
        cbn [bindR]. exists (Degraded r [message e]). simpl.
        repeat split; eauto.
      * exists (Failed (tickerOf param) [message e]). simpl.
        repeat split; auto. left. exists e. repeat split; auto. congruence.
    + exists (Failed (tickerOf param) [message e]). simpl.
      repeat split; auto. left. exists e. repeat split; auto. congruence.
Qed.

(** X17.  When the three adapters fail recoverably in turn, the route answers
    under status 200 with the score of the empty fundamentals and one
    warning, the aggregate message with the three recorded messages; each
    adapter was called with the upper-cased ticker. *)
Theorem GET_degrades_when_exhausted (param : option string) (w w1 w2 w3 : World)
    (e1 e2 e3 : ProviderError)
    (Htoday : bounded 200000 today)
    (Hsec : sec (tickerOf param) w = (Throw e1, w1)) (Hr1 : recoverable e1 = Some true)
    (Hfmp : fmp (tickerOf param) w1 = (Throw e2, w2)) (Hr2 : recoverable e2 = Some true)
    (Hfin : fin (tickerOf param) w2 = (Throw e3, w3)) (Hr3 : recoverable e3 = Some true) :
  exists r,
    GET parse today World sec fmp fin param w
    = (Ok (Degraded r ["[DATA] 所有外部財報來源皆失敗："
                         ++ message e1 ++ "｜" ++ message e2 ++ "｜" ++ message e3]),
       {| world := w3;
          errors := [message e1; message e2; message e3];
          console := [warned e1; warned e2; warned e3] |}) /\
    r_ticker r = tickerOf param /\ total_score r = 0 /\
    r_rating r = DoesNotMeetProfile.
Proof.
  destruct (scoreCompany_empty parse today (tickerOf param) Htoday)
    as (r & Es & Ht & Hz & _).
  exists r. unfold GET, fetchFundamentals, providers.
  rewrite tickerOf_upper. cbn [tryProviders handler world errors console].
  rewrite Hsec. cbn [tryProviders handler world errors console app]. rewrite Hr1.
  cbn [tryProviders handler world errors console app].
  rewrite Hfmp. cbn [tryProviders handler world errors console app]. rewrite Hr2.
  cbn [tryProviders handler world errors console app].
  rewrite Hfin. cbn [tryProviders handler world errors console app]. rewrite Hr3.
  cbn [tryProviders handler world errors console app].
  unfold recover. cbn [caughtReason caughtMessage exhausted createProviderError reason message].
  rewrite Es. cbn [bindR String.eqb Ascii.eqb Bool.eqb].
  split; [reflexivity|]. split; [assumption|]. split; [assumption|].
  clear - Es Hz. unfold scoreCompany in Es.
  destruct (timeline parse today _) as [tl|]; [|discriminate].
  cbn [bindR] in Es. injection Es as <-. cbn in *.
  unfold rating. now rewrite Hz.
Qed.
End Route.

(** Three adapters that fail recoverably, on the ticker "nvda". *)
Lemma GET_degraded_witness :
  exists r,
    GET isoParse Examples.today0 (list string)
      (Examples.answering "SEC" (Throw Examples.quotaError))
      (Examples.answering "FMP" (Throw Examples.missingKeyError))
      (Examples.answering "Finnhub" (Throw Examples.quotaError))
      (Some "nvda") []
    = (Ok (Degraded r ["[DATA] 所有外部財報來源皆失敗："
                         ++ message Examples.quotaError ++ "｜"
                         ++ message Examples.missingKeyError ++ "｜"
                         ++ message Examples.quotaError]),
       {| world := ["SEC"; "FMP"; "Finnhub"];
          errors := [message Examples.quotaError; message Examples.missingKeyError;
                     message Examples.quotaError];
          console := [warned Examples.quotaError; warned Examples.missingKeyError;
                      warned Examples.quotaError] |}) /\
    r_ticker r = "NVDA" /\ total_score r = 0 /\ r_rating r = DoesNotMeetProfile.
Proof.
  apply (GET_degrades_when_exhausted isoParse Examples.today0 (list string)
           (Examples.answering "SEC" (Throw Examples.quotaError))
           (Examples.answering "FMP" (Throw Examples.missingKeyError))
           (Examples.answering "Finnhub" (Throw Examples.quotaError))
           (Some "nvda") [] ["SEC"] ["SEC"; "FMP"] ["SEC"; "FMP"; "Finnhub"]
           Examples.quotaError Examples.missingKeyError Examples.quotaError);
    try reflexivity.
  unfold bounded, msPerDay. simpl. lia.
Defined.

(** The ticker parameter absent, adapters that answer at once. *)
Lemma GET_answers_witness :
  exists a,
    GET isoParse Examples.today0 (list string)
      (Examples.answering "SEC" (Ok Examples.valuationFundamentals))
      (Examples.answering "FMP" (Throw Examples.missingKeyError))
      (Examples.answering "Finnhub" (Throw Examples.quotaError))
      None []
    = (Ok a, {| world := ["SEC"]; errors := []; console := [] |}) /\
    statusOf a = 200 /\ warningsOf a = [].
Proof.
  destruct (GET_always_answers isoParse Examples.today0 (list string)
              (Examples.answering "SEC" (Ok Examples.valuationFundamentals))
              (Examples.answering "FMP" (Throw Examples.missingKeyError))
              (Examples.answering "Finnhub" (Throw Examples.quotaError))
              None [])
    as (a & Ea & Ha).
  - unfold bounded, msPerDay. simpl. lia.
  - exists a. split; [exact Ea|].
    destruct a as [r ws|r ws|t ws].
    + destruct Ha as (Hs & -> & _). now split.
    + destruct Ha as (_ & (e & He & _) & _). discriminate He.
    + destruct Ha as (_ & _ & [(e & He & _)|(f & Hf & Hs & _)]).
      * discriminate He.
      * injection Hf as <-. vm_compute in Hs. discriminate Hs.
Defined.

End RouteFacts.

(* ------------------------------------------------------------------ *)
(** ** The timeline covers consecutive calendar quarters *)

Module CalendarFacts.
Import Scoring Calendar.

Lemma labelOf_labelAt m :
  0 <= month m <= 11 -> labelOf (Some m) = labelAt (quarterIndex m).
Proof.
  intros Hm. unfold labelOf, labelAt, quarterIndex, yearOf, quarterOf, quarterOfMonth.
  rewrite !SeriesFacts.showNum_ofZ.
  replace ((4 * year m + month m / 3) / 4) with (year m)
    by (Z.to_euclidean_division_equations; lia).
  replace ((4 * year m + month m / 3) mod 4 + 1) with (month m / 3 + 1)
    by (Z.to_euclidean_division_equations; lia).
  reflexivity.
Qed.

Lemma subtractQuarter_index B m :
  bounded B m -> 0 <= B -> B + 1 <= 270000 ->
  exists m',
    subtractQuarter (Some m) = Some m' /\ bounded (B + 1) m' /\
    quarterIndex m' = quarterIndex m - 1.
Proof.
  intros Hb HB HB'. pose proof Hb as (Hy & Hm & Hd & Ht).
  destruct (DayjsFacts.setMonth_bounded B m (month m - 3) Hb HB HB' ltac:(lia))
    as (m' & E & Hy' & Hm' & Hb').
  exists m'. split; [exact E|]. split; [exact Hb'|].
  unfold quarterIndex. rewrite Hy', Hm'.
  Z.to_euclidean_division_equations; lia.
Qed.

Section WithDayjs.
Variable parse : string -> Dayjs.

Lemma timelineLoop_labels records : forall n B m tl,
  bounded B m -> 0 <= B -> B + Z.of_nat n <= 270000 ->
  timelineLoop n (buildLabelMap parse records) (Some m) = Ok tl ->
  forall i, (i < n)%nat ->
    option_map label (nth_error tl i) = Some (labelAt (quarterIndex m - Z.of_nat i)).
Proof.
  induction n as [|n IH]; intros B m tl Hb HB Hn Hloop i Hi; [lia|].
  destruct (subtractQuarter_index B m Hb HB ltac:(lia)) as (m' & Es & Hb' & Hidx).
  cbn [timelineLoop] in Hloop. rewrite Es in Hloop.
  destruct (timelineStep (buildLabelMap parse records) (Some m)) as [entry|] eqn:Estep;
    [|discriminate].
  cbn [bindR] in Hloop.
  destruct (timelineLoop n (buildLabelMap parse records) (Some m')) as [rest|] eqn:Er;
    [|discriminate].
  cbn [bindR] in Hloop. injection Hloop as <-.
  destruct i as [|i].
  - cbn [nth_error option_map]. f_equal.
    rewrite Z.sub_0_r. rewrite <- labelOf_labelAt by apply Hb.
    unfold timelineStep in Estep.
    destruct (JsMap.get (labelOf (Some m)) (buildLabelMap parse records)).
    + injection Estep as <-. reflexivity.
    + destruct (toISOString (Some m)); [|discriminate].
      cbn [bindR] in Estep. injection Estep as <-. reflexivity.
  - cbn [nth_error].
    rewrite (IH (B + 1) m' rest Hb' ltac:(lia) ltac:(lia) Er i ltac:(lia)).
    do 2 f_equal. lia.
Qed.

(** The timeline under valid dates of ordinary calendar years: sixteen
    entries, labelled by consecutive quarters from the anchor back, each
    filled from the known quarters. *)
Lemma timeline_labelled (today : Moment) (f : Fundamentals) :
  civil today ->
  (forall q, In q (quarters f) -> exists m, parse (period q) = Some m /\ civil m) ->
  exists tl m0,
    timeline parse today f = Ok tl /\
    anchoredAt parse today f m0 /\
    List.length tl = 16%nat /\
    Forall (filledFrom parse (base parse today f)) tl /\
    forall i, (i < 16)%nat ->
      option_map label (nth_error tl i)
        = Some (labelAt (quarterIndex m0 - Z.of_nat i)).
Proof.
  intros Htoday Hperiods.
  destruct (TimelineFacts.timeline_defined parse today f (proj1 Htoday))
    as (tl & m0 & m' & Hsrc & Hb0 & Hy & Hq & Et & Hl & Hh & Hf).
  { intros q Hq. destruct (Hperiods q Hq) as (m & Hm & Hc & _). eauto. }
  fold (anchoredAt parse today f m0) in Hsrc.
  exists tl, m0. split; [exact Et|]. split; [exact Hsrc|].
  split; [exact Hl|]. split; [exact Hf|].
  assert (H100 : 100 <= year m0).
  { unfold anchoredAt in Hsrc.
    destruct (base parse today f) as [|q0 rest] eqn:Eb.
    - subst m0. apply Htoday.
    - assert (Hin : In q0 (quarters f)).
      { assert (Hq0 : In q0 (base parse today f)) by (rewrite Eb; now left).
        unfold base in Hq0.
        destruct (4 <=? List.length (usable parse today f))%nat.
        - unfold usable in Hq0. apply filter_In in Hq0. destruct Hq0 as [Hq0 _].
          unfold sorted in Hq0. now apply JsArrayFacts.In_sort in Hq0.
        - unfold sorted in Hq0. now apply JsArrayFacts.In_sort in Hq0. }
      destruct (Hperiods q0 Hin) as (m & Hm & _ & H100).
      congruence. }
  unfold timeline, MAX_TIMELINE in Et.
  assert (Ha : anchorMoment parse today f = endOfQuarter (Some m0)).
  { unfold anchorMoment. rewrite TimelineFacts.latestKnown_head.
    unfold anchoredAt in Hsrc.
    destruct (base parse today f) as [|q0 rest]; simpl.
    - now subst m0.
    - now rewrite Hsrc. }
  destruct (DayjsFacts.endOfQuarter_bounded 200000 m0 Hb0 ltac:(lia) ltac:(lia))
    as (m1 & Ee & Hy1 & Hq1 & Hb1).
  rewrite Ha, Ee in Et.
  intros i Hi.
  rewrite (timelineLoop_labels (base parse today f) 16 (200000 + 1) m1 tl Hb1
             ltac:(lia) ltac:(simpl; lia) Et i Hi).
  do 2 f_equal. unfold quarterIndex.
  rewrite Hy1, DayjsFacts.ctorYear_from_100 by assumption.
  unfold quarterOfMonth in Hq1. lia.
Qed.

(** X18.  With the present moment and the periods of the quarters valid dates of
    ordinary calendar years, the sixteen entries of the timeline are labelled
    by sixteen consecutive calendar quarters, going back one quarter at a
    time from the quarter of the first known period (of the present moment
    when no quarter is known). *)
Theorem timeline_consecutive_quarters (today : Moment) (f : Fundamentals)
    (Htoday : civil today)
    (Hperiods : forall q, In q (quarters f) ->
                  exists m, parse (period q) = Some m /\ civil m) :
  exists tl m0,
    timeline parse today f = Ok tl /\
    anchoredAt parse today f m0 /\
    List.length tl = 16%nat /\
    forall i, (i < 16)%nat ->
      option_map label (nth_error tl i)
        = Some (labelAt (quarterIndex m0 - Z.of_nat i)).
Proof.
  destruct (timeline_labelled today f Htoday Hperiods)
    as (tl & m0 & Et & Hsrc & Hl & _ & Hlab).
  exists tl, m0. auto.
Qed.

(** *** Labels are told apart *)

Lemma occurs_uint d : occurs "Q" (NilEmpty.string_of_uint d) = false.
Proof. induction d; simpl; auto. Qed.

Lemma occurs_showZ z : occurs "Q" (showZ z) = false.
Proof.
  unfold showZ, NilZero.string_of_int, NilZero.string_of_uint.
  destruct (Z.to_int z) as [d|d].
  - destruct d; try apply (occurs_uint (_ d)); try reflexivity; apply occurs_uint.
  - cbn [occurs]. destruct d; try reflexivity; apply occurs_uint.
Qed.

Lemma showZ_inj a b : showZ a = showZ b -> a = b.
Proof.
  unfold showZ. intros H.
  assert (Hnn : forall z, Z.to_int z <> Decimal.Pos Decimal.Nil /\
                          Z.to_int z <> Decimal.Neg Decimal.Nil).
  { intros z. split; intros E;
      pose proof (DecimalZ.of_to z) as Hz; rewrite E in Hz; cbn in Hz; subst z;
      discriminate E. }
  apply DecimalZ.to_int_inj.
  assert (Some (Z.to_int a) = Some (Z.to_int b)) as [= ->]; [|reflexivity].
  rewrite <- (NilZero.isi (Z.to_int a)) by apply Hnn.
  rewrite <- (NilZero.isi (Z.to_int b)) by apply Hnn.
  now rewrite H.
Qed.

Lemma split_at_mark c : forall s s' t t',
  occurs c s = false -> occurs c s' = false ->
  (s ++ String c t)%string = (s' ++ String c t')%string -> s = s' /\ t = t'.
Proof.
  induction s as [|x s IH]; intros [|x' s'] t t' Hs Hs' E; simpl in *.
  - injection E as <-. auto.
  - injection E as <- _. rewrite Ascii.eqb_refl in Hs'. discriminate.
  - injection E as -> _. rewrite Ascii.eqb_refl in Hs. discriminate.
  - injection E as <- E. apply orb_false_iff in Hs, Hs'.
    destruct (IH s' t t' (proj2 Hs) (proj2 Hs') E) as [-> ->]. auto.
Qed.

Lemma NoDup_map_injective {A B} (g : A -> B) (l : list A) :
  (forall x y, g x = g y -> x = y) -> NoDup l -> NoDup (map g l).
Proof.
  intros Hinj. induction 1 as [|x l Hx Hnd IH]; simpl; constructor; auto.
  intros Hin. apply in_map_iff in Hin. destruct Hin as (y & Hy & Hin).
  apply Hinj in Hy. now subst y.
Qed.

Lemma labelAt_inj k k' : labelAt k = labelAt k' -> k = k'.
Proof.
  unfold labelAt. intros E.
  apply split_at_mark in E; try apply occurs_showZ.
  destruct E as [E1 E2]. apply showZ_inj in E1, E2.
  Z.to_euclidean_division_equations; lia.
Qed.


End WithDayjs.

(** *** Growth needs eight quarters *)

Section Growth.
Variable parse : string -> Dayjs.

Lemma base_length today f :
  (List.length (base parse today f) <= List.length (quarters f))%nat.
Proof.
  unfold base, usable, sorted.
  destruct (4 <=? _)%nat.
  - etransitivity; [apply filter_length_le|]. now rewrite JsArrayFacts.length_sort.
  - now rewrite JsArrayFacts.length_sort.
Qed.

Lemma filled_with_revenue known e :
  filledFrom parse known e ->
  isFinite (revenue (quarter e)) = true ->
  In (label e) (map (fun q => toCalendarQuarterLabel parse (period q)) known).
Proof.
  unfold filledFrom. intros Hf Hrev.
  destruct (find _ known) as [q|] eqn:E.
  - apply find_some in E. destruct E as [Hin Heq].
    apply String.eqb_eq in Heq. rewrite <- Heq.
    apply (in_map (fun q => toCalendarQuarterLabel parse (period q))), Hin.
  - destruct Hf as (_ & iso & cursor & Hq). rewrite Hq in Hrev. discriminate.
Qed.

(** X19.  With fewer than eight quarters (their periods and the present moment
    valid dates of ordinary calendar years) the result has no growth figure
    and rule 1 has no verdict: the eight latest timeline quarters cannot all
    carry a revenue. *)
Theorem growth_needs_eight_quarters (today : Moment) (f : Fundamentals)
    (Htoday : civil today)
    (Hperiods : forall q, In q (quarters f) ->
                  exists m, parse (period q) = Some m /\ civil m)
    (Hfew : (List.length (quarters f) < 8)%nat) :
  exists r,
    scoreCompany parse today f = Ok r /\
    r_cagr1y r = NaN /\
    option_map (fun kr => (fst kr, pass (snd kr))) (hd_error (r_rules r))
      = Some ("1_growth_cagr", None).
Proof.
  destruct (timeline_labelled parse today f Htoday Hperiods)
    as (tl & m0 & Et & _ & Hl & Hf & Hlab).
  assert (Hno : hasCagrData tl = false).
  { destruct (hasCagrData tl) eqn:E; [exfalso|reflexivity].
    unfold hasCagrData in E.
    apply andb_true_iff in E. destruct E as [E _].
    apply andb_true_iff in E. destruct E as [HL HE].
    pose proof (base_length today f) as Hbase.
    set (known := base parse today f) in *.
    set (k0 := quarterIndex m0) in *.
    do 16 (destruct tl as [|? tl]; [discriminate Hl|]).
    destruct tl; [|discriminate Hl]. clear Hl.
    unfold hasRevenueLatest, hasRevenueEarlier, revenueLatest, revenueEarlier,
      latest4, earlier4, timelineQuarters, slice in HL, HE.
    cbn [map skipn firstn Nat.sub List.length Nat.eqb forallb andb] in HL, HE.
    repeat match goal with
           | H : (_ && _) = true |- _ =>
               apply andb_true_iff in H; destruct H
           end.
    repeat match goal with
           | H : Forall _ (_ :: _) |- _ => inversion H; subst; clear H
           end.
    pose proof (Hlab 0%nat ltac:(lia)) as L0. pose proof (Hlab 1%nat ltac:(lia)) as L1.
    pose proof (Hlab 2%nat ltac:(lia)) as L2. pose proof (Hlab 3%nat ltac:(lia)) as L3.
    pose proof (Hlab 4%nat ltac:(lia)) as L4. pose proof (Hlab 5%nat ltac:(lia)) as L5.
    pose proof (Hlab 6%nat ltac:(lia)) as L6. pose proof (Hlab 7%nat ltac:(lia)) as L7.
    clear Hlab.
    cbn [nth_error option_map] in L0, L1, L2, L3, L4, L5, L6, L7.
    injection L0 as L0. injection L1 as L1. injection L2 as L2. injection L3 as L3.
    injection L4 as L4. injection L5 as L5. injection L6 as L6. injection L7 as L7.
    assert (Hincl : incl (map labelAt [k0 - 0; k0 - 1; k0 - 2; k0 - 3;
                                       k0 - 4; k0 - 5; k0 - 6; k0 - 7])
                         (map (fun q => toCalendarQuarterLabel parse (period q)) known)).
    { intros l Hin. cbn [map In] in Hin. cbn [Z.of_nat Pos.of_succ_nat Pos.succ] in *.
      repeat (destruct Hin as [<-|Hin];
              [match goal with
               | L : label ?e = labelAt ?k |- In (labelAt ?k) _ =>
                   rewrite <- L; apply filled_with_revenue; assumption
               end|]).
      contradiction. }
    assert (Hnd : NoDup (map labelAt [k0 - 0; k0 - 1; k0 - 2; k0 - 3;
                                      k0 - 4; k0 - 5; k0 - 6; k0 - 7])).
    { apply NoDup_map_injective; [exact labelAt_inj|].
      repeat constructor; cbn [In]; lia. }
    pose proof (NoDup_incl_length Hnd Hincl) as Hlen.
    rewrite !length_map in Hlen. cbn [List.length] in Hlen. lia. }
  unfold scoreCompany. rewrite Et. cbn [bindR].
  eexists. split; [reflexivity|].
  cbn [r_cagr1y r_rules rules hd_error option_map fst snd].
  unfold cagr1y, rule1. rewrite Hno. split; reflexivity.
Qed.
End Growth.

(** Four quarters are not enough for the growth rule. *)
Lemma growth_four_quarters_witness :
  exists r,
    scoreCompany isoParse Examples.today0 Examples.valuationFundamentals = Ok r /\
    r_cagr1y r = NaN /\
    option_map (fun kr => (fst kr, pass (snd kr))) (hd_error (r_rules r))
      = Some ("1_growth_cagr", None).
Proof.
  apply (growth_needs_eight_quarters isoParse Examples.today0
           Examples.valuationFundamentals).
  - unfold civil, bounded, msPerDay. simpl. lia.
  - intros q Hq. simpl in Hq.
    destruct Hq as [<-|[<-|[<-|[<-|[]]]]]; eexists; (split; [reflexivity|]);
      unfold civil, bounded, msPerDay; simpl; lia.
  - simpl. lia.
Defined.

(** The four quarters of the valuation example: the timeline runs back from
    2024Q1. *)
Lemma timeline_consecutive_witness :
  exists tl m0,
    timeline isoParse Examples.today0 Examples.valuationFundamentals = Ok tl /\
    anchoredAt isoParse Examples.today0 Examples.valuationFundamentals m0 /\
    List.length tl = 16%nat /\
    forall i, (i < 16)%nat ->
      option_map label (nth_error tl i)
        = Some (labelAt (quarterIndex m0 - Z.of_nat i)).
Proof.
  apply (timeline_consecutive_quarters isoParse Examples.today0
           Examples.valuationFundamentals).
  - unfold civil, bounded, msPerDay. simpl. lia.
  - intros q Hq. simpl in Hq.
    destruct Hq as [<-|[<-|[<-|[<-|[]]]]]; eexists; (split; [reflexivity|]);
      unfold civil, bounded, msPerDay; simpl; lia.
Defined.

End CalendarFacts.

(* ------------------------------------------------------------------ *)
(** ** Sums, averages, the growth rule and the red flags *)

Module RuleFacts.
Import Scoring.
Local Open Scope list_scope.

(** *** Sums and averages over series with gaps *)

Lemma add_n0_reduced a : (Fin (Qred a) + n0)%num = Fin (Qred a).
Proof.
  unfold JsNum.add, n0, ofZ. f_equal.
  rewrite <- (Qred_involutive a) at 2. apply Qred_complete.
  apply Qplus_0_r.
Qed.

Lemma sum_from_reduced arr : forall a,
  exists s,
    fold_left (fun a b => (a + (if isFinite b then b else n0))%num) arr (Fin (Qred a))
      = Fin (Qred s) /\
    fold_left (fun a b => (a + (if isFinite b then b else n0))%num)
              (filter isFinite arr) (Fin (Qred a))
      = Fin (Qred s).
Proof.
  induction arr as [|b rest IH]; intros a.
  - exists a. auto.
  - destruct b as [|q]; cbn [fold_left filter isFinite].
    + rewrite add_n0_reduced. apply IH.
    + apply (IH (Qred a + q)%Q).
Qed.

Lemma sum_reduced arr :
  exists s, sum arr = Fin (Qred s) /\ sum (filter isFinite arr) = Fin (Qred s).
Proof. unfold sum. apply (sum_from_reduced arr 0%Q). Qed.

Lemma sum_finite arr : isFinite (sum arr) = true.
Proof. destruct (sum_reduced arr) as (s & -> & _). reflexivity. Qed.

Lemma lengthOf_cons_nonzero {A} (x : A) l :
  exists q, lengthOf (x :: l) = Fin q /\ Qeq_bool q 0 = false.
Proof.
  unfold lengthOf, ofZ. eexists. split; [reflexivity|].
  destruct (Qeq_bool (inject_Z (Z.of_nat (List.length (x :: l)))) 0) eqn:E;
    [|reflexivity].
  apply Qeq_bool_eq in E. unfold Qeq in E. simpl in E. lia.
Qed.


(** *** The growth rule *)


(** *** Red flags against the rules *)

Lemma In_red_flags tl flag :
  In flag (red_flags tl) ->
  match flag with
  | OcfNegativeAndWeakening => ocfFlag tl = true
  | ArInventoryOutpacesRevenue => arInvFlag tl = true
  | GrossMarginDrop => gmDropFlag tl = true
  | ShareDilution => dilutionFlag tl = true
  end.
Proof.
  unfold red_flags. intros H.
  repeat (apply in_app_or in H; destruct H as [H|H]);
    match type of H with
    | In _ (if ?c then _ else _) => destruct c eqn:E
    end;
    simpl in H; try contradiction;
    destruct H as [<-|[]]; exact E || reflexivity.
Qed.

(** X22.  A red flag never stands beside a pass of the rule on the same figure: when
    the cash-flow flag is raised rule 3 fails, and when the dilution flag is
    raised rule 9 fails (neither passes nor stays unknown). *)
Theorem red_flags_fail_their_rules (tl : list TimelineEntry) :
  (In OcfNegativeAndWeakening (red_flags tl) -> pass (rule3 tl) = Some false) /\
  (In ShareDilution (red_flags tl) -> pass (rule9 tl) = Some false).
Proof.
  split; intros H; apply In_red_flags in H.
  - unfold ocfFlag in H.
    repeat (apply andb_true_iff in H; destruct H as [H ?]).
    unfold rule3. cbn [pass].
    unfold ocfL4, ocfN2 in *.
    destruct (hasOcfTotals tl); [|discriminate].
    destruct (hasOcfTrend tl); [|discriminate].
    cbn [andb]. f_equal.
    destruct (sum_reduced (ocfValues tl)) as (s & Es & _).
    rewrite Es in *.
    unfold JsNum.gt, JsNum.lt, n0, ofZ in *.
    apply negb_true_iff in H1.
    replace (Qle_bool (Qred s) (inject_Z 0)) with true; [reflexivity|].
    symmetry. apply Qle_bool_iff.
    destruct (Qlt_le_dec (Qred s) (inject_Z 0)) as [Hlt|Hle];
      [now apply Qlt_le_weak|].
    apply Qle_bool_iff in Hle. congruence.
  - unfold dilutionFlag in H. unfold rule9, passDilution. cbn [pass].
    destruct (dilutionYoY tl) as [d|]; [|discriminate]. f_equal.
    unfold JsNum.gt, JsNum.lt, lit in *. destruct d as [|q]; [discriminate|].
    apply negb_true_iff in H. apply negb_false_iff.
    apply Qle_bool_iff.
    destruct (Qlt_le_dec (10 # 100) q) as [Hlt|Hle]; [now apply Qlt_le_weak|].
    apply Qle_bool_iff in Hle. congruence.
Qed.

(** The troubled company raises both flags and fails both rules; its revenue
    is flat, so rule 1 has a verdict and fails. *)
Lemma red_flags_troubled_witness :
  In OcfNegativeAndWeakening (red_flags Troubled.timeline) /\
  In ShareDilution (red_flags Troubled.timeline) /\
  pass (rule3 Troubled.timeline) = Some false /\
  pass (rule9 Troubled.timeline) = Some false.
Proof.
  assert (H1 : In OcfNegativeAndWeakening (red_flags Troubled.timeline))
    by (vm_compute; left; reflexivity).
  assert (H2 : In ShareDilution (red_flags Troubled.timeline))
    by (vm_compute; right; left; reflexivity).
  destruct (red_flags_fail_their_rules Troubled.timeline) as [Hocf Hdil].
  split; [exact H1|]. split; [exact H2|]. split; [exact (Hocf H1) | exact (Hdil H2)].
Defined.


End RuleFacts.

(* ------------------------------------------------------------------ *)
(** ** Quarter records of the SEC adapter *)

Module RecordsFacts.
Import Xbrl Series Records Http.
Local Open Scope list_scope.

Lemma StronglySorted_filter {A} (R : A -> A -> Prop) (keep : A -> bool) l :
  StronglySorted R l -> StronglySorted R (filter keep l).
Proof.
  induction 1 as [|x r Hs IH Hall]; simpl; [constructor|].
  destruct (keep x); [|assumption].
  constructor; [assumption|].
  apply Forall_forall. intros y Hy. apply filter_In in Hy.
  rewrite Forall_forall in Hall. apply Hall, Hy.
Qed.

Lemma length_slice {A} (from to : nat) (l : list A) :
  (List.length (slice from to l) <= to - from)%nat.
Proof. unfold slice. apply firstn_le_length. Qed.

Section Build.
Variable parse : string -> Dayjs.
Variable today : Moment.
Variable revenueSeries : JsMap.t QuarterDatum.
Variable metricSeries : MetricSeries.
Hypothesis Hends : forall k d,
  JsMap.get k revenueSeries = Some d ->
  exists e m, d_end d = Some e /\ e <> "" /\ parse e = Some m.

Lemma buildFrom_ok (keys_ : list string) :
  exists qs,
    buildFrom parse today revenueSeries metricSeries keys_ = Ok qs /\
    Forall2 (builtFor parse revenueSeries metricSeries)
            (filter (hasRevenue revenueSeries) keys_) qs.
Proof.
  induction keys_ as [|key rest (qs & IH & Hall)]; cbn [buildFrom filter].
  - exists []. split; [reflexivity|constructor].
  - unfold hasRevenue at 1.
    destruct (JsMap.get key revenueSeries) as [revDatum|] eqn:Eg; [|eauto].
    destruct (isFinite (value revDatum)) eqn:Ev; cbn [negb]; [|eauto].
    destruct (Hends key revDatum Eg) as (e & m & He & Hne & Hm).
    destruct (parseQuarterKey key) as [yr qt] eqn:Ek.
    unfold periodEndOf. rewrite He.
    apply String.eqb_neq in Hne. rewrite Hne, Hm.
    cbn [toISOString bindR]. rewrite IH. cbn [bindR].
    eexists. split; [reflexivity|].
    constructor; [|exact Hall].
    exists revDatum, e, m. rewrite Ek. auto 6.
Qed.

(** X11.  Where every revenue datum has an end date that reads as a valid date,
    [buildQuarterRecords] returns: its records correspond, one to one and in
    order, to those of the sixteen latest keys of the revenue series
    (latest fiscal year and quarter first) that hold a finite revenue; each
    is built from the datum of its key.  There are at most sixteen, all with
    a finite revenue, so that the filter on the revenue which follows in
    [fetchFromSec] removes none. *)
Theorem buildQuarterRecords_latest_sixteen :
  exists qs keys_,
    buildQuarterRecords parse today revenueSeries metricSeries = Ok qs /\
    keys_ = filter (hasRevenue revenueSeries)
              (slice 0 16 (sort quarterSortDesc (JsMap.keys revenueSeries))) /\
    Forall2 (builtFor parse revenueSeries metricSeries) keys_ qs /\
    StronglySorted (fun a b => keyBefore b a) keys_ /\
    (List.length qs <= 16)%nat /\
    Forall (fun q => isFinite (revenue q) = true) qs /\
    validQuartersOf qs = slice 0 12 qs.
Proof.
  unfold buildQuarterRecords.
  destruct (buildFrom_ok (slice 0 16 (sort quarterSortDesc (JsMap.keys revenueSeries))))
    as (qs & Eb & Hall).
  exists qs, (filter (hasRevenue revenueSeries)
                (slice 0 16 (sort quarterSortDesc (JsMap.keys revenueSeries)))).
  split; [exact Eb|]. split; [reflexivity|]. split; [exact Hall|].
  assert (Hfin : Forall (fun q => isFinite (revenue q) = true) qs).
  { clear Eb. induction Hall as [|key q ks qs' Hq _ IH]; constructor; [|exact IH].
    destruct Hq as (d & e & m & _ & Hv & _ & _ & ->). exact Hv. }
  split; [|split; [|split; [exact Hfin|]]].
  - apply StronglySorted_filter. unfold slice. cbn [skipn].
    apply FinalizeFacts.firstn_sorted, SeriesFacts.quarterSortDesc_sorted.
  - rewrite <- (Forall2_length Hall).
    etransitivity; [apply filter_length_le|].
    etransitivity; [apply length_slice|]. simpl. lia.
  - unfold validQuartersOf.
    assert (Hkeep : forall l : list Quarter,
              Forall (fun q => isFinite (revenue q) = true) l ->
              filter (fun item => isFinite (revenue item)) l = l).
    { induction 1 as [|x l Hx _ IH]; simpl; [reflexivity|]. now rewrite Hx, IH. }
    rewrite Hkeep.
    + unfold slice. cbn [skipn Nat.sub]. apply firstn_firstn.
    + unfold slice. cbn [skipn]. apply Forall_forall. intros q Hq.
      rewrite Forall_forall in Hfin. apply Hfin.
      eapply FinalizeFacts.In_firstn_incl, Hq.
Qed.
End Build.

(** Two of the three sample quarters carry a revenue: two records, the later
    fiscal quarter first. *)
Lemma buildQuarterRecords_witness :
  option_map (map (fun q => (period q, revenue q, ocf q, totalDebt q)))
    (match buildQuarterRecords isoParse Examples.today0 sampleRevenue sampleMetrics with
     | Ok qs => Some qs
     | Throw _ => None
     end)
  = Some [("2024-03-31T00:00:00.000Z", ofZ 320, ofZ 40, Some (ofZ 7));
          ("2023-12-31T00:00:00.000Z", ofZ 300, NaN, Some NaN)] /\
  exists qs keys_,
    buildQuarterRecords isoParse Examples.today0 sampleRevenue sampleMetrics = Ok qs /\
    keys_ = filter (hasRevenue sampleRevenue)
              (slice 0 16 (sort quarterSortDesc (JsMap.keys sampleRevenue))) /\
    Forall2 (builtFor isoParse sampleRevenue sampleMetrics) keys_ qs /\
    StronglySorted (fun a b => keyBefore b a) keys_ /\
    (List.length qs <= 16)%nat /\
    Forall (fun q => isFinite (revenue q) = true) qs /\
    validQuartersOf qs = slice 0 12 qs.
Proof.
  split; [vm_compute; reflexivity|].
  apply (buildQuarterRecords_latest_sixteen isoParse Examples.today0
           sampleRevenue sampleMetrics).
  intros k d Hget. unfold sampleRevenue in Hget. cbn [JsMap.get] in Hget.
  repeat match type of Hget with
         | (if ?c then _ else _) = _ => destruct c
         end;
    try discriminate Hget; injection Hget as <-;
    eexists; eexists; (split; [reflexivity|]); (split; [discriminate|]);
    vm_compute; reflexivity.
Defined.

(** *** The closing steps of the SEC adapter *)

Lemma supplemented_onlyFills parse finnhubMap q :
  onlyFills q (supplemented parse finnhubMap q).
Proof.
  unfold supplemented, onlyFills.
  destruct (JsMap.get (calendarKey parse q) finnhubMap) as [fb|].
  - cbn [period revenue grossProfit sga rnd ocf capex inventory receivables cash
         totalDebt dilutedShares ebitda netIncome fiscalYear fiscalQuarter].
    split; [reflexivity|].
    split; [intros ->; reflexivity|]. split; [intros ->; reflexivity|]. split.
    + destruct (isFinite (ocf q)); cbn [negb andb]; auto.
      destruct (isFinite (ocf fb)) eqn:E; auto.
    + destruct (isFinite (capex q)); cbn [negb andb]; auto.
      destruct (capex fb) as [|c]; cbn [isFinite]; auto.
      right. unfold JsNum.abs, JsNum.ge, JsNum.le, n0, ofZ.
      apply Qle_bool_iff. apply Qabs.Qabs_nonneg.
  - destruct q. cbn. repeat split; auto.
Qed.


End RecordsFacts.

(* ------------------------------------------------------------------ *)
(** ** The JSON readers of the adapters *)

Module JsonFacts.
Import Json.
Local Open Scope list_scope.

Section Readers.
Variable Number_ : Value -> num.

Lemma safeNum_finite value n :
  safeNum Number_ value = Some n -> isFinite n = true.
Proof.
  unfold safeNum. destruct value as [v|]; [|discriminate].
  destruct v; try discriminate;
    repeat match goal with
           | |- context [if ?c then _ else _] => destruct c eqn:?
           end; try discriminate; intros [= <-]; assumption.
Qed.

Lemma extractFrom_yields section concepts_ :
  match extractFrom Number_ section concepts_ with
  | Some value =>
      exists before concept after,
        concepts_ = before ++ concept :: after /\
        Forall (fun c => yields Number_ section c = None) before /\
        yields Number_ section concept = Some value
  | None => Forall (fun c => yields Number_ section c = None) concepts_
  end.
Proof.
  induction concepts_ as [|concept rest IH]; cbn [extractFrom]; [constructor|].
  assert (Hskip :
    yields Number_ section concept = None ->
    match extractFrom Number_ section rest with
    | Some value =>
        exists before c after,
          concept :: rest = before ++ c :: after /\
          Forall (fun c => yields Number_ section c = None) before /\
          yields Number_ section c = Some value
    | None => Forall (fun c => yields Number_ section c = None) (concept :: rest)
    end).
  { intros Hnone. destruct (extractFrom Number_ section rest) as [value|].
    - destruct IH as (before & c & after & -> & Hb & Hc).
      exists (concept :: before), c, after. repeat split; auto.
    - constructor; assumption. }
  unfold yields in Hskip at 1.
  destruct (find (hasConcept concept) section) as [match_|] eqn:Ef; [|now apply Hskip].
  destruct (safeNum Number_ (member "value" match_)) as [value|] eqn:Es;
    [|now apply Hskip].
  exists [], concept, rest. repeat split; [constructor|].
  unfold yields. now rewrite Ef.
Qed.

(** X14.  [extractConcept] returns the number of the first concept, in the order
    given, that yields one, a concept yielding the number read by [safeNum]
    from the [value] of the first item that carries it (later items of the
    same concept are not looked at); it returns [undefined] when no concept
    yields a number or the section is no array.  What it returns is a finite
    number. *)
Theorem extractConcept_first_yield (section : option (list Value))
    (concepts_ : list string) :
  match extractConcept Number_ section concepts_ with
  | Some value =>
      isFinite value = true /\
      exists items before concept after,
        section = Some items /\
        concepts_ = before ++ concept :: after /\
        Forall (fun c => yields Number_ items c = None) before /\
        yields Number_ items concept = Some value
  | None =>
      match section with
      | Some items => Forall (fun c => yields Number_ items c = None) concepts_
      | None => True
      end
  end.
Proof.
  unfold extractConcept. destruct section as [items|]; [|exact I].
  pose proof (extractFrom_yields items concepts_) as H.
  destruct (extractFrom Number_ items concepts_) as [value|]; [|exact H].
  destruct H as (before & concept & after & Hc & Hb & Hy).
  split.
  - unfold yields in Hy. destruct (find (hasConcept concept) items); [|discriminate].
    eapply safeNum_finite, Hy.
  - exists items, before, concept, after. auto.
Qed.

(** X15.  [safeNum] gives a finite number or [undefined]: [undefined] for [null],
    for an absent value and for a blank text (of which [Number] would make
    0), and otherwise [Number(value)] when that is finite.  [firstDefined]
    gives the value of the first key, in the order given, whose member is
    present and not [null], whether a number can be read from it or not. *)
Theorem readers_contract (value : option Value) (record : JsMap.t Value)
    (keys_ : list string) :
  (match safeNum Number_ value with
   | Some n =>
       isFinite n = true /\
       exists v, value = Some v /\ v <> Null /\ n = Number_ v /\
                 (forall s, v = Text s -> Str.trim s <> "")
   | None =>
       value = None \/ value = Some Null \/
       (exists s, value = Some (Text s) /\ Str.trim s = "") \/
       (exists v, value = Some v /\ isFinite (Number_ v) = false)
   end) /\
  (match firstDefined (Some record) keys_ with
   | Some v =>
       v <> Null /\
       exists before key after,
         keys_ = before ++ key :: after /\
         JsMap.get key record = Some v /\
         Forall (fun k => JsMap.get k record = None \/
                          JsMap.get k record = Some Null) before
   | None =>
       Forall (fun k => JsMap.get k record = None \/
                        JsMap.get k record = Some Null) keys_
   end).
Proof.
  split.
  - unfold safeNum. destruct value as [v|]; [|auto].
    destruct v; auto;
      try (destruct (isFinite (Number_ _)) eqn:E;
           [split; [exact E|]; eexists; repeat split; try discriminate
           | right; right; right; eexists; split; [reflexivity|exact E]]).
    destruct (String.eqb_spec (Str.trim s) "") as [Hb|Hb].
    + right; right; left. eauto.
    + destruct (isFinite (Number_ (Text s))) eqn:E.
      * split; [exact E|]. eexists. repeat split; try discriminate.
        intros s' [= <-]. exact Hb.
      * right; right; right. eauto.
  - cbn [firstDefined].
    induction keys_ as [|key rest IH]; cbn [firstDefinedIn]; [constructor|].
    assert (Hskip :
      (JsMap.get key record = None \/ JsMap.get key record = Some Null) ->
      match firstDefinedIn record rest with
      | Some v =>
          v <> Null /\
          exists before k after,
            key :: rest = before ++ k :: after /\
            JsMap.get k record = Some v /\
            Forall (fun k => JsMap.get k record = None \/
                             JsMap.get k record = Some Null) before
      | None =>
          Forall (fun k => JsMap.get k record = None \/
                           JsMap.get k record = Some Null) (key :: rest)
      end).
    { intros Hk. destruct (firstDefinedIn record rest) as [v|].
      - destruct IH as (Hv & before & k & after & -> & Hg & Hb).
        split; [exact Hv|]. exists (key :: before), k, after. repeat split; auto.
      - constructor; assumption. }
    destruct (JsMap.get key record) as [v|] eqn:Eg; [|apply Hskip; auto].
    destruct v; try (apply Hskip; auto; fail);
      (split; [discriminate|]; exists [], key, rest; repeat split; auto).
Qed.
End Readers.

(** The revenue concept comes first but its first item has no number: the
    sales concept is read, not the second revenue item. *)
Lemma extractConcept_witness :
  extractConcept numberOfValue (Some incomeSection)
    ["us-gaap_Revenues"; "us-gaap_SalesRevenueNet"] = Some (ofZ 115) /\
  exists items before concept after,
    Some incomeSection = Some items /\
    ["us-gaap_Revenues"; "us-gaap_SalesRevenueNet"] = before ++ concept :: after /\
    Forall (fun c => yields numberOfValue items c = None) before /\
    yields numberOfValue items concept = Some (ofZ 115).
Proof.
  pose proof (extractConcept_first_yield numberOfValue (Some incomeSection)
                ["us-gaap_Revenues"; "us-gaap_SalesRevenueNet"]) as H.
  assert (E : extractConcept numberOfValue (Some incomeSection)
                ["us-gaap_Revenues"; "us-gaap_SalesRevenueNet"] = Some (ofZ 115))
    by (vm_compute; reflexivity).
  rewrite E in H. split; [exact E | exact (proj2 H)].
Defined.

End JsonFacts.

(* ------------------------------------------------------------------ *)
(** ** The ticker table of the SEC adapter *)

Module TickersFacts.
Import Http Json Tickers.
Local Open Scope list_scope.

Lemma length_zeros k : String.length (zeros k) = k.
Proof. induction k; simpl; auto. Qed.

Lemma length_append s t : String.length (s ++ t)%string = (String.length s + String.length t)%nat.
Proof. induction s; simpl; auto. Qed.

Lemma length_padStart w s : (w <= String.length (padStart w s))%nat.
Proof. unfold padStart. rewrite length_append, length_zeros. lia. Qed.

(** Every identifier in a table built by [tableOf] has ten characters or
    more. *)
Lemma addEntry_padded map_ entry :
  (forall t c, JsMap.get t map_ = Some c -> (10 <= String.length c)%nat) ->
  forall t c, JsMap.get t (addEntry map_ entry) = Some c -> (10 <= String.length c)%nat.
Proof.
  intros Hm t c. unfold addEntry.
  destruct (tickerOfEntry entry) as [ticker|]; [|apply Hm].
  destruct (cikOfEntry entry) as [cik|] eqn:Ec; [|apply Hm].
  destruct (String.eqb ticker "" || String.eqb cik ""); [apply Hm|].
  destruct (String.eqb_spec ticker t) as [->|Hne].
  - rewrite JsMapFacts.get_set_same. intros [= <-].
    unfold cikOfEntry in Ec.
    destruct (member "cik_str" entry) as [[| | n | | |]|]; try discriminate.
    injection Ec as <-. apply length_padStart.
  - rewrite JsMapFacts.get_set_other by assumption. apply Hm.
Qed.

Lemma tableOf_padded data t c :
  JsMap.get t (tableOf data) = Some c -> (10 <= String.length c)%nat.
Proof.
  assert (Hfold : forall items map_,
    (forall t c, JsMap.get t map_ = Some c -> (10 <= String.length c)%nat) ->
    forall t c, JsMap.get t (fold_left addEntry items map_) = Some c ->
                (10 <= String.length c)%nat).
  { induction items as [|entry rest IH]; intros map_ Hm; simpl; [exact Hm|].
    apply IH. now apply addEntry_padded. }
  unfold tableOf. destruct data as [[| | | | items | members]|]; try discriminate.
  - apply Hfold. discriminate.
  - apply Hfold. discriminate.
Qed.

Section Cache.
Variable World : Type.
Variable userAgentOf : World -> option string.
Variable fetchTickers : string -> World -> FetchOutcome Value * World.

Lemma load_cases (st : State World) :
  secTickerCache World st = None ->
  match loadSecTickerCache World userAgentOf fetchTickers st with
  | (Ok map_, st') =>
      secTickerCache World st' = Some map_ /\ map_ <> [] /\
      (forall t c, JsMap.get t map_ = Some c -> (10 <= String.length c)%nat)
  | (Throw e, st') =>
      secTickerCache World st' = None /\
      provider e = Some "SEC" /\ recoverable e = Some true
  end.
Proof.
  intros Hnone. unfold loadSecTickerCache. rewrite Hnone.
  unfold getSecUserAgent.
  destruct (userAgentOf (outside World st)) as [ua|]; [|now cbn].
  destruct (String.eqb ua "" || String.eqb (Str.trim ua) ""); [now cbn|].
  destruct (fetchTickers (Str.trim ua) (outside World st)) as [outcome w].
  destruct outcome as [msg|r]; cbn [fetchJsonWithHeaders]; [now cbn|].
  destruct (body r) as [|j|text]; cbn [bindR]; [| |now cbn].
  - destruct (status r =? 429); [now cbn|].
    destruct (400 <=? status r); [now cbn|]. cbn. auto.
  - destruct (status r =? 429); [now cbn|].
    destruct (400 <=? status r); [now cbn|].
    pose proof (tableOf_padded (Some j)) as Hpad.
    destruct (tableOf (Some j)) as [|kv rest]; cbn [JsMap.size List.length Nat.eqb];
      [now cbn|].
    cbn [secTickerCache]. repeat split; [discriminate|exact Hpad].
Qed.

End Cache.


End TickersFacts.

(* ------------------------------------------------------------------ *)
(** ** The revenue series of the result *)

Module SeriesOutFacts.
Import Scoring Calendar.
Local Open Scope list_scope.

(** X23.  For fundamentals whose periods, like the present moment, are valid
    dates of ordinary calendar years, the result names the same eight
    calendar quarters three times over: [latest_periods] are the anchor
    quarter and the three before it, [previous_periods] the four before
    those, and [quarterly_revenue] lists the eight, oldest first, each with
    a finite revenue or [null].  The quarters counted in [data_quality] are
    no more than the input has. *)
Theorem scoreCompany_revenue_series
    (parse : string -> Dayjs) (today : Moment) (f : Fundamentals)
    (Htoday : civil today)
    (Hperiods : forall q, In q (quarters f) ->
                  exists m, parse (period q) = Some m /\ civil m) :
  exists r m0,
    scoreCompany parse today f = Ok r /\
    anchoredAt parse today f m0 /\
    latest_periods r
      = map (fun i => labelAt (quarterIndex m0 - i)) [0; 1; 2; 3] /\
    previous_periods r
      = map (fun i => labelAt (quarterIndex m0 - i)) [4; 5; 6; 7] /\
    map fst (quarterly_revenue r)
      = rev (latest_periods r ++ previous_periods r) /\
    Forall (fun lr => match snd lr with
                      | Some v => isFinite v = true
                      | None => True
                      end) (quarterly_revenue r) /\
    (dq_quarters r <= List.length (quarters f))%nat.
Proof.
  destruct (CalendarFacts.timeline_labelled parse today f Htoday Hperiods)
    as (tl & m0 & Et & Hsrc & Hl & _ & Hlab).
  unfold scoreCompany. rewrite Et. cbn [bindR].
  eexists. exists m0. split; [reflexivity|]. split; [exact Hsrc|].
  cbn [latest_periods previous_periods quarterly_revenue dq_quarters].
  do 16 (destruct tl as [|[] tl]; [discriminate Hl|]).
  destruct tl; [|discriminate Hl]. clear Hl.
  pose proof (Hlab 0%nat ltac:(lia)) as L0. pose proof (Hlab 1%nat ltac:(lia)) as L1.
  pose proof (Hlab 2%nat ltac:(lia)) as L2. pose proof (Hlab 3%nat ltac:(lia)) as L3.
  pose proof (Hlab 4%nat ltac:(lia)) as L4. pose proof (Hlab 5%nat ltac:(lia)) as L5.
  pose proof (Hlab 6%nat ltac:(lia)) as L6. pose proof (Hlab 7%nat ltac:(lia)) as L7.
  clear Hlab.
  cbn [nth_error option_map label] in L0, L1, L2, L3, L4, L5, L6, L7.
  cbn [Z.of_nat Pos.of_succ_nat Pos.succ] in L0, L1, L2, L3, L4, L5, L6, L7.
  injection L0 as ->. injection L1 as ->. injection L2 as ->. injection L3 as ->.
  injection L4 as ->. injection L5 as ->. injection L6 as ->. injection L7 as ->.
  unfold cagrLatestLabels, cagrPreviousLabels, revenueSeries, slice.
  cbn [skipn firstn Nat.sub map label quarter fst snd rev app].
  split; [reflexivity|]. split; [reflexivity|]. split; [reflexivity|]. split.
  - repeat constructor; cbn [snd];
      match goal with
      | |- match (if ?c then _ else _) with _ => _ end => destruct c eqn:E
      end; auto.
  - apply CalendarFacts.base_length.
Qed.

(** The four quarters of the valuation example: the eight labels run from
    2022Q2 to 2024Q1. *)
Lemma scoreCompany_revenue_series_witness :
  exists r,
    scoreCompany isoParse Examples.today0 Examples.valuationFundamentals = Ok r /\
    map fst (quarterly_revenue r)
      = ["2022Q2"; "2022Q3"; "2022Q4"; "2023Q1"; "2023Q2"; "2023Q3"; "2023Q4"; "2024Q1"] /\
    map fst (quarterly_revenue r) = rev (latest_periods r ++ previous_periods r).
Proof.
  destruct (scoreCompany_revenue_series isoParse Examples.today0
              Examples.valuationFundamentals)
    as (r & m0 & Er & _ & _ & _ & Hrev & _).
  - unfold civil, bounded, msPerDay. simpl. lia.
  - intros q Hq. simpl in Hq.
    destruct Hq as [<-|[<-|[<-|[<-|[]]]]]; eexists; (split; [reflexivity|]);
      unfold civil, bounded, msPerDay; simpl; lia.
  - exists r. split; [exact Er|]. split; [|exact Hrev].
    vm_compute in Er. injection Er as <-. reflexivity.
Defined.

End SeriesOutFacts.
